(** * sleep.man: drift, cycle and prediction engine of [sleep-chart.ts]

    A shallow embedding of the numeric core of the [SleepChart] component
    (src/components/sleep-chart.ts): day grouping and main-sleep selection
    ([getMainSleepEntries]), day-over-day drift ([calculateDrift],
    [calculateEntryDrift]), the cycle-length and average-sleep blocks of
    [updateNon24Info], and the forecasting loop of [generatePredictions].
    Around that core it covers the state that the setters and [loadData]
    keep, the texts of [formatDrift], of the tooltip and of the info box,
    the positions that [renderYAxis], [renderSleepBlocks],
    [renderTrendLines] and [renderXAxis] compute, and the records that
    convert-csv-to-json.js writes.

    Conventions of the model.
    - A JavaScript [Date] holding a valid time value is its number of
      milliseconds since the epoch, an integer ([Z]).
    - JavaScript numbers that are not integers (averages, ratios) are exact
      rationals ([Q]); the rounding of IEEE doubles is not modelled.  A
      division whose divisor may be zero returns a [jsnum], which has the
      non-finite values of JavaScript.
    - An ISO-8601 timestamp string is the record of its fields, with an
      explicit offset from UTC.
    - The local time zone of the runtime, which [getHours], [getMinutes],
      [setHours] and [setMinutes] read, is a fixed offset [tz] in minutes. *)

From Stdlib Require Import String ZArith QArith Qround Qabs List Lia Lqa Bool Permutation
  Sorted DecimalString.
Import ListNotations.
Local Open Scope Z_scope.

(* ------------------------------------------------------------------ *)
(** ** The runtime: time values and ISO strings                         *)
(* ------------------------------------------------------------------ *)

(** Truncation towards zero: the integer part that [%] and [TimeClip] take. *)
Definition truncQ (q : Q) : Z :=
  if Qle_bool 0 q then Qfloor q else Qceiling q.

Module JsDate.

Definition msPerSecond : Z := 1000.
Definition msPerMinute : Z := 60000.
Definition msPerHour : Z := 3600000.
Definition msPerDay : Z := 86400000.

(** An ISO-8601 date-time string [YYYY-MM-DDTHH:mm:ss.sss+hh:mm]; [offset]
    is the zone designator in minutes east of UTC ([Z] is 0). *)
Record Iso : Set := mkIso {
  year : Z; month : Z; day : Z;
  hour : Z; minute : Z; second : Z; milli : Z;
  offset : Z
}.

(** A calendar date, the [YYYY-MM-DD] part of an ISO string. *)
Definition CalDate : Set := (Z * Z * Z)%type.

Definition CalDate_eqb (a b : CalDate) : bool :=
  let '(y1, m1, d1) := a in
  let '(y2, m2, d2) := b in
  (y1 =? y2) && (m1 =? m2) && (d1 =? d2).

(** Day number (days since 1970-01-01) of a proleptic Gregorian date. *)
Definition daysFromCivil (y m d : Z) : Z :=
  let y' := if m <=? 2 then y - 1 else y in
  let era := y' / 400 in
  let yoe := y' - era * 400 in
  let mp := (m + 9) mod 12 in
  let doy := (153 * mp + 2) / 5 + d - 1 in
  let doe := yoe * 365 + yoe / 4 - yoe / 100 + doy in
  era * 146097 + doe - 719468.

(** The Gregorian date of a day number. *)
Definition civilFromDays (n : Z) : CalDate :=
  let z := n + 719468 in
  let era := z / 146097 in
  let doe := z - era * 146097 in
  let yoe := (doe - doe / 1460 + doe / 36524 - doe / 146096) / 365 in
  let doy := doe - (365 * yoe + yoe / 4 - yoe / 100) in
  let mp := (5 * doy + 2) / 153 in
  let d := doy - (153 * mp + 2) / 5 + 1 in
  let m := if mp <? 10 then mp + 3 else mp - 9 in
  ((if m <=? 2 then yoe + era * 400 + 1 else yoe + era * 400), m, d).

(** [new Date(s).getTime()] for an ISO string [s]. *)
Definition parse (s : Iso) : Z :=
  daysFromCivil (year s) (month s) (day s) * msPerDay
  + hour s * msPerHour + minute s * msPerMinute
  + second s * msPerSecond + milli s
  - offset s * msPerMinute.

(** [d.toISOString().split('T')[0]]: the UTC calendar date of a time value. *)
Definition toISODate (t : Z) : CalDate := civilFromDays (t / msPerDay).

(** The date component written in the string itself. *)
Definition writtenDate (s : Iso) : CalDate := (year s, month s, day s).

(** [TimeClip]: [setTime] and [new Date(number)] drop the fraction of a
    millisecond, towards zero. *)
Definition timeClip (q : Q) : Z := truncQ q.

Section LocalZone.
Variable tz : Z.

Definition localTime (t : Z) : Z := t + tz * msPerMinute.
Definition utc (l : Z) : Z := l - tz * msPerMinute.

Definition getHours (t : Z) : Z := (localTime t / msPerHour) mod 24.
Definition getMinutes (t : Z) : Z := (localTime t / msPerMinute) mod 60.

(** [d.setHours(h)]: the local hour is replaced; the local date and the
    minutes, seconds and milliseconds stay. *)
Definition setHours (t h : Z) : Z :=
  let l := localTime t in
  utc (l / msPerDay * msPerDay + h * msPerHour + l mod msPerHour).

(** [d.setMinutes(m)]: the local minute is replaced; the local date, the
    hour, the seconds and the milliseconds stay. *)
Definition setMinutes (t m : Z) : Z :=
  let l := localTime t in
  utc (l / msPerHour * msPerHour + m * msPerMinute + l mod msPerMinute).

(** Local time of day, in milliseconds after local midnight. *)
Definition clockOf (t : Z) : Z := localTime t mod msPerDay.
End LocalZone.

End JsDate.

(* ------------------------------------------------------------------ *)
(** ** JavaScript numbers that may be non-finite                        *)
(* ------------------------------------------------------------------ *)

Inductive jsnum : Set :=
  | Fin (q : Q)
  | PosInf
  | NegInf
  | NaN.

(** [a / b] on finite numbers; the quotient is kept in lowest terms, so that
    equal numbers are equal terms. *)
Definition jsdiv (a b : Q) : jsnum :=
  if Qeq_bool b 0 then
    if Qeq_bool a 0 then NaN
    else if Qle_bool 0 a then PosInf else NegInf
  else Fin (Qred (a / b)).

(** [Math.round]: the nearest integer, a tie going towards +infinity. *)
Definition roundQ (q : Q) : Z := Qfloor (q + (1 # 2)).

Definition mathRound (x : jsnum) : jsnum :=
  match x with
  | Fin q => Fin (inject_Z (roundQ q))
  | other => other
  end.

Definition mathAbs (x : jsnum) : jsnum :=
  match x with
  | Fin q => Fin (Qabs q)
  | PosInf | NegInf => PosInf
  | NaN => NaN
  end.

(** [a % b] on finite numbers with [b] not zero: the remainder has the sign
    of the dividend. *)
Definition jsrem (a b : Q) : Q := a - b * inject_Z (truncQ (a / b)).

(* ------------------------------------------------------------------ *)
(** ** Data model                                                       *)
(* ------------------------------------------------------------------ *)

Record SleepRecord : Set := mkRecord {
  sleep : JsDate.Iso;
  wake : JsDate.Iso;
  rating : Z;
  note : string
}.

Record PredictedSleepRecord : Set := mkPredicted {
  psleep : Z;
  pwake : Z;
  prating : Z;
  pnote : string;
  isPredicted : bool
}.

(** [new Date(r.sleep).getTime()] and [new Date(r.wake).getTime()]. *)
Definition sleepTimeOf (r : SleepRecord) : Z := JsDate.parse (sleep r).
Definition wakeTimeOf (r : SleepRecord) : Z := JsDate.parse (wake r).

Definition HOURS_IN_DAY : Z := 24 * 60 * 60 * 1000.
Definition HALF_DAY : Z := 12 * 60 * 60 * 1000.

(** [entries[i]]; the loops below only read indices in range. *)
Definition epochIso : JsDate.Iso := JsDate.mkIso 1970 1 1 0 0 0 0 0.
Definition noRecord : SleepRecord := mkRecord epochIso epochIso 0 EmptyString.
Definition at_ (entries : list SleepRecord) (i : nat) : SleepRecord :=
  nth i entries noRecord.

(* ------------------------------------------------------------------ *)
(** ** calculateEntryDrift and calculateDrift                           *)
(* ------------------------------------------------------------------ *)

(** The adjustment both functions apply to a raw difference:
    [d = ((d % HOURS_IN_DAY) + HOURS_IN_DAY) % HOURS_IN_DAY] and then
    [if (d > 12 * 60 * 60 * 1000) d = d - HOURS_IN_DAY].  [%] truncates, as
    [Z.rem] does. *)
Definition driftPart (diff : Z) : Z :=
  let d := Z.rem (Z.rem diff HOURS_IN_DAY + HOURS_IN_DAY) HOURS_IN_DAY in
  if d >? 12 * 60 * 60 * 1000 then d - HOURS_IN_DAY else d.

Definition calculateEntryDrift (prevEntry currEntry : SleepRecord) : Z * Z :=
  let prevSleepTime := sleepTimeOf prevEntry in
  let currSleepTime := sleepTimeOf currEntry in
  let prevWakeTime := wakeTimeOf prevEntry in
  let currWakeTime := wakeTimeOf currEntry in
  (driftPart (currSleepTime - prevSleepTime),
   driftPart (currWakeTime - prevWakeTime)).

Record DriftTotals : Set := mkTotals {
  totalSleepDrift : Z;
  totalWakeDrift : Z;
  totalRating : Z
}.

(** One turn of [for (let i = 1; i < entries.length; i++)]. *)
Definition driftLoopBody (entries : list SleepRecord)
    (acc : DriftTotals) (i : nat) : DriftTotals :=
  let prevSleepTime := sleepTimeOf (at_ entries (i - 1)) in
  let currSleepTime := sleepTimeOf (at_ entries i) in
  let prevWakeTime := wakeTimeOf (at_ entries (i - 1)) in
  let currWakeTime := wakeTimeOf (at_ entries i) in
  let sleepDiff := driftPart (currSleepTime - prevSleepTime) in
  let wakeDiff := driftPart (currWakeTime - prevWakeTime) in
  mkTotals (totalSleepDrift acc + sleepDiff)
           (totalWakeDrift acc + wakeDiff)
           (totalRating acc + rating (at_ entries i)).

Definition driftLoop (entries : list SleepRecord) : DriftTotals :=
  fold_left (driftLoopBody entries)
            (seq 1 (length entries - 1)) (mkTotals 0 0 0).

Record DriftData : Set := mkDrift {
  sleepDrift : Q;
  wakeDrift : Q;
  avgRating : Q
}.

Definition calculateDrift (entries : list SleepRecord) : DriftData :=
  if (length entries <? 2)%nat then
    mkDrift (inject_Z (30 * 60 * 1000)) (inject_Z (30 * 60 * 1000)) (inject_Z 3)
  else
    let t := driftLoop entries in
    let n := Z.of_nat (length entries) in
    mkDrift (inject_Z (totalSleepDrift t) / inject_Z (n - 1))
            (inject_Z (totalWakeDrift t) / inject_Z (n - 1))
            (inject_Z (totalRating t) / inject_Z n).

(* ------------------------------------------------------------------ *)
(** ** Day grouping: [Map<string, SleepRecord[]>]                       *)
(* ------------------------------------------------------------------ *)

(** A [Map] iterates in the order its keys were first inserted, so it is an
    association list with distinct keys in insertion order. *)
Definition DayMap : Set := list (JsDate.CalDate * list SleepRecord).

(** [const dateStr = new Date(record.sleep).toISOString().split('T')[0]] *)
Definition dateStr (record : SleepRecord) : JsDate.CalDate :=
  JsDate.toISODate (sleepTimeOf record).

(** [if (!m.has(k)) m.set(k, []); m.get(k)?.push(record)] *)
Fixpoint mapPush (k : JsDate.CalDate) (record : SleepRecord) (m : DayMap) : DayMap :=
  match m with
  | [] => [(k, [record])]
  | (k', rs) :: m' =>
      if JsDate.CalDate_eqb k k' then (k', rs ++ [record]) :: m'
      else (k', rs) :: mapPush k record m'
  end.

Definition groupStep (m : DayMap) (record : SleepRecord) : DayMap :=
  mapPush (dateStr record) record m.

Definition groupByDay (data : list SleepRecord) : DayMap :=
  fold_left groupStep data [].

Definition Qlt_bool (a b : Q) : bool := negb (Qle_bool b a).

(** [a.slice(-k)]: the last [k] elements; [slice(-0)] is [slice(0)]. *)
Definition sliceLast {A : Type} (k : nat) (l : list A) : list A :=
  if (k =? 0)%nat then l else skipn (length l - k) l.

(** [Array.prototype.sort] with a comparator, which is stable. *)
Fixpoint insertBy {A : Type} (key : A -> Z) (x : A) (l : list A) : list A :=
  match l with
  | [] => [x]
  | y :: l' => if key x <=? key y then x :: y :: l' else y :: insertBy key x l'
  end.

Definition sortBy {A : Type} (key : A -> Z) (l : list A) : list A :=
  fold_right (insertBy key) [] l.

(** [new Set(xs).size] *)
Fixpoint setSize (xs seen : list JsDate.CalDate) : nat :=
  match xs with
  | [] => List.length seen
  | x :: xs' =>
      if existsb (JsDate.CalDate_eqb x) seen then setSize xs' seen
      else setSize xs' (x :: seen)
  end.

Record Config : Set := mkConfig {
  maxEntries : nat;
  showPredictions : bool;
  predictionDays : nat;
  averagingDays : nat
}.

(** The defaults of the class fields. *)
Definition defaultConfig : Config := mkConfig 90 true 30 14.

(** [maxEntries > 0 && sleepData.length > maxEntries
      ? sleepData.slice(-maxEntries) : sleepData] *)
Definition displayedData (cfg : Config) (sleepData : list SleepRecord) : list SleepRecord :=
  if (0 <? maxEntries cfg)%nat && (maxEntries cfg <? length sleepData)%nat
  then sliceLast (maxEntries cfg) sleepData
  else sleepData.

Section Chart.
Variable tz : Z.

(* ---------------------------------------------------------------- *)
(** *** getMainSleepEntries                                          *)
(* ---------------------------------------------------------------- *)

(** [t.getHours() + t.getMinutes() / 60] *)
Definition clockHours (t : Z) : Q :=
  (inject_Z (JsDate.getHours tz t) + inject_Z (JsDate.getMinutes tz t) / 60)%Q.

(** The [duration] of the selection loop. *)
Definition duration (entry : SleepRecord) : Q :=
  let sleepHour := clockHours (sleepTimeOf entry) in
  let wakeHour := clockHours (wakeTimeOf entry) in
  let wakeHour := if Qlt_bool wakeHour sleepHour then (wakeHour + 24)%Q else wakeHour in
  (wakeHour - sleepHour)%Q.

(** One turn of the inner [entries.forEach]; the state is
    [(longestDuration, longestEntry)]. *)
Definition longestStep (st : Q * SleepRecord) (entry : SleepRecord) : Q * SleepRecord :=
  if Qlt_bool (fst st) (duration entry) then (duration entry, entry) else st.

(** The body of [entriesByDay.forEach]: what one day pushes to
    [mainSleepEntries], if anything. *)
Definition mainSleepOfDay (entries : list SleepRecord) : option SleepRecord :=
  match entries with
  | [] => None
  | [only] => Some only
  | first :: _ => Some (snd (fold_left longestStep entries (0%Q, first)))
  end.

Definition pushMain (acc : list SleepRecord) (g : JsDate.CalDate * list SleepRecord)
    : list SleepRecord :=
  match mainSleepOfDay (snd g) with
  | Some e => acc ++ [e]
  | None => acc
  end.

Definition getMainSleepEntries (cfg : Config) (data : list SleepRecord) : list SleepRecord :=
  let entriesByDay := groupByDay data in
  let mainSleepEntries := fold_left pushMain entriesByDay [] in
  let mainSleepEntries := sortBy sleepTimeOf mainSleepEntries in
  let uniqueDatesCount := setSize (map dateStr mainSleepEntries) [] in
  if (averagingDays cfg <? uniqueDatesCount)%nat
     && (averagingDays cfg <? length mainSleepEntries)%nat
  then sliceLast (averagingDays cfg) mainSleepEntries
  else mainSleepEntries.

(* ---------------------------------------------------------------- *)
(** *** updateNon24Info: cycle length and average sleep per day      *)
(* ---------------------------------------------------------------- *)

(** Lines 94-109: [cycleDays] from [totalDrift]. *)
Definition cycleDays (totalDrift : Q) : jsnum :=
  let driftPerDay := jsrem totalDrift (inject_Z HOURS_IN_DAY) in
  let adjustedDrift := if Qeq_bool driftPerDay 0 then totalDrift else driftPerDay in
  if Qlt_bool (Qabs adjustedDrift) (inject_Z 60000) then Fin 0
  else mathAbs (mathRound (jsdiv (inject_Z HOURS_IN_DAY) adjustedDrift)).

(** The inner [entries.forEach] of the average: one day's total. *)
Definition totalSleepTimeForDay (entries : list SleepRecord) : Z :=
  fold_left (fun total entry => total + (wakeTimeOf entry - sleepTimeOf entry)) entries 0.

(** One turn of [entriesByDay.forEach]; the state is
    [(totalSleepTimeAllDays, dayCount)]. *)
Definition dayStep (st : Z * Z) (g : JsDate.CalDate * list SleepRecord) : Z * Z :=
  (fst st + totalSleepTimeForDay (snd g), snd st + 1).

(** Lines 114-151 (and 168-204 on the visible window): [avgSleepPerDayMs]. *)
Definition avgSleepPerDayMs (records : list SleepRecord) : jsnum :=
  let entriesByDay := groupByDay records in
  let '(totalSleepTimeAllDays, dayCount) := fold_left dayStep entriesByDay (0, 0) in
  jsdiv (inject_Z totalSleepTimeAllDays) (inject_Z dayCount).

Record Non24Info : Set := mkInfo {
  infoCycleDays : jsnum;
  infoTotalDrift : Q;
  infoVisualizedDrift : Q;
  infoAvgSleepPerDayMs : jsnum;
  infoAvgSleepPerDayVisibleMs : jsnum
}.

(** [updateNon24Info], with the info box present; [None] is the early
    [return] on fewer than two records. *)
Definition updateNon24Info (cfg : Config) (sleepData : list SleepRecord) : option Non24Info :=
  if (length sleepData <? 2)%nat then None
  else
    let allDriftData := calculateDrift (getMainSleepEntries cfg sleepData) in
    let displayedDriftData :=
      calculateDrift (getMainSleepEntries cfg (displayedData cfg sleepData)) in
    let totalDrift := sleepDrift allDriftData in
    Some (mkInfo (cycleDays totalDrift)
                 totalDrift
                 (sleepDrift displayedDriftData)
                 (avgSleepPerDayMs sleepData)
                 (avgSleepPerDayMs (displayedData cfg sleepData))).

(* ---------------------------------------------------------------- *)
(** *** generatePredictions                                          *)
(* ---------------------------------------------------------------- *)

(** The pattern-anchored time of lines 511-518: 24 hours after the previous
    wake time, with the local hour and minute overwritten. *)
Definition anchoredTime (lastSleepHour lastSleepMinute prevWakeTime : Z) : Z :=
  let nextDate := prevWakeTime + HOURS_IN_DAY in
  JsDate.setMinutes tz (JsDate.setHours tz nextDate lastSleepHour) lastSleepMinute.

(** One turn of [for (let i = 0; i < this.predictionDays; i++)]; the state
    is [(prevWakeTime, predictions)].  A predicted record carries the time
    values that its two [toISOString()] fields print. *)
Definition predictStep (lastSleepHour lastSleepMinute : Z)
    (visibleDriftData : DriftData) (avgSleepDuration : Q)
    (st : Z * list PredictedSleepRecord) (i : nat)
    : Z * list PredictedSleepRecord :=
  let prevWakeTime := fst st in
  let nextWakeTime := anchoredTime lastSleepHour lastSleepMinute prevWakeTime in
  let driftAmount := (sleepDrift visibleDriftData * inject_Z (Z.of_nat i + 1))%Q in
  let nextWakeTime := JsDate.timeClip (inject_Z nextWakeTime + driftAmount) in
  let nextSleepTime := JsDate.timeClip (inject_Z nextWakeTime - avgSleepDuration) in
  let predictedEntry :=
    mkPredicted nextSleepTime nextWakeTime
                (roundQ (avgRating visibleDriftData))
                "Predicted entry" true in
  (nextWakeTime, snd st ++ [predictedEntry]).

Definition predictLoop (lastSleepHour lastSleepMinute : Z)
    (visibleDriftData : DriftData) (avgSleepDuration : Q)
    (lastWakeTime : Z) (days : nat) : list PredictedSleepRecord :=
  snd (fold_left
         (predictStep lastSleepHour lastSleepMinute visibleDriftData avgSleepDuration)
         (seq 0 days) (lastWakeTime, [])).

Definition totalSleepDuration (entries : list SleepRecord) : Z :=
  fold_left (fun total entry => total + (wakeTimeOf entry - sleepTimeOf entry)) entries 0.

(** [generatePredictions]; [None] is the [TypeError] that reading
    [lastVisibleEntry.wake] would raise on an empty displayed list. *)
Definition generatePredictions (cfg : Config) (sleepData : list SleepRecord)
    : option (list PredictedSleepRecord) :=
  if (length sleepData =? 0)%nat || negb (showPredictions cfg)
     || (predictionDays cfg =? 0)%nat
  then Some []
  else
    match getMainSleepEntries cfg sleepData with
    | [] => Some []
    | _ :: _ =>
        let displayedMainSleepEntries :=
          getMainSleepEntries cfg (displayedData cfg sleepData) in
        let visibleDriftData := calculateDrift displayedMainSleepEntries in
        match rev displayedMainSleepEntries with
        | [] => None
        | lastVisibleEntry :: _ =>
            let avgSleepDuration :=
              (inject_Z (totalSleepDuration displayedMainSleepEntries)
               / inject_Z (Z.of_nat (length displayedMainSleepEntries)))%Q in
            let lastWakeTime := wakeTimeOf lastVisibleEntry in
            let lastSleepTime := sleepTimeOf lastVisibleEntry in
            Some (predictLoop (JsDate.getHours tz lastSleepTime)
                              (JsDate.getMinutes tz lastSleepTime)
                              visibleDriftData avgSleepDuration
                              lastWakeTime (predictionDays cfg))
        end
    end.

End Chart.

(* ------------------------------------------------------------------ *)
(** ** The rules as the specification words them                        *)
(* ------------------------------------------------------------------ *)

Module Spec.

(** [((x mod 24h) + 24h) mod 24h], with the mathematical [mod]. *)
Definition normalize24 (x : Z) : Z :=
  ((x mod HOURS_IN_DAY) + HOURS_IN_DAY) mod HOURS_IN_DAY.

(** Subtract 24h when the normalized value strictly exceeds 12h. *)
Definition signedFold (x : Z) : Z :=
  let n := normalize24 x in
  if HALF_DAY <? n then n - HOURS_IN_DAY else n.

Definition sumZ (l : list Z) : Z := fold_right Z.add 0 l.

(** Arithmetic mean of a list of integers. *)
Definition mean (l : list Z) : Q :=
  (inject_Z (sumZ l) / inject_Z (Z.of_nat (length l)))%Q.

(** Raw differences of consecutive entries, for a projection [f]. *)
Definition pairDiffs (f : SleepRecord -> Z) (entries : list SleepRecord) : list Z :=
  map (fun i => f (at_ entries i) - f (at_ entries (i - 1)))
      (seq 1 (length entries - 1)).

(** True elapsed duration of a record, in milliseconds. *)
Definition elapsed (r : SleepRecord) : Z := wakeTimeOf r - sleepTimeOf r.

(** [round(24h / |driftPerDay|)], or 0 under the one-minute threshold, with
    [driftPerDay] the signed fold of a drift of whole milliseconds. *)
Definition cycleLengthDays (totalDrift : Z) : Z :=
  let driftPerDay := signedFold totalDrift in
  if Z.abs driftPerDay <? 60000 then 0
  else roundQ (inject_Z HOURS_IN_DAY / inject_Z (Z.abs driftPerDay)).

End Spec.

(* ------------------------------------------------------------------ *)
(** ** Vocabulary of the statements                                     *)
(* ------------------------------------------------------------------ *)

Definition CalDate_eq_dec (a b : JsDate.CalDate) : {a = b} + {a <> b}.
Proof. repeat decide equality. Defined.

(** The wake time that step [i] of the prediction loop starts from. *)
Definition prevWakeAt (predictions : list PredictedSleepRecord)
    (lastWakeTime : Z) (i : nat) : Z :=
  match i with
  | O => lastWakeTime
  | S j => match nth_error predictions j with
           | Some p => pwake p
           | None => lastWakeTime
           end
  end.

(** A timestamp falls on a whole minute of the clock. *)
Definition onWholeMinute (t : Z) : Prop := t mod JsDate.msPerMinute = 0.

(** Two time values that read the same hour and minute on the local clock. *)
Definition sameClock (tz t u : Z) : Prop :=
  JsDate.getHours tz t = JsDate.getHours tz u
  /\ JsDate.getMinutes tz t = JsDate.getMinutes tz u.

(** Local clock reading in whole minutes after midnight. *)
Definition clockMinutes (tz t : Z) : Z :=
  60 * JsDate.getHours tz t + JsDate.getMinutes tz t.

(** The [duration] of the selection loop, counted in whole minutes. *)
Definition durationMinutes (tz : Z) (e : SleepRecord) : Z :=
  let s := clockMinutes tz (sleepTimeOf e) in
  let w := clockMinutes tz (wakeTimeOf e) in
  if w <? s then w + 1440 - s else w - s.

(** A record that starts and ends on whole minutes and lasts under 24h. *)
Definition plainRecord (r : SleepRecord) : Prop :=
  onWholeMinute (sleepTimeOf r) /\ onWholeMinute (wakeTimeOf r)
  /\ 0 <= Spec.elapsed r < JsDate.msPerDay.

Definition SleepRecord_eq_dec (a b : SleepRecord) : {a = b} + {a <> b}.
Proof. repeat decide equality. Defined.

(** [record] is filed under the key [k]. *)
Definition sameDay (k : JsDate.CalDate) (record : SleepRecord) : bool :=
  JsDate.CalDate_eqb (dateStr record) k.

(** What the day map holds once the records [l] have been filed: distinct
    keys; under each key, in input order, the records of that key, at least
    one; and a key for every record. *)
Record GroupsOf (m : DayMap) (l : list SleepRecord) : Prop := mkGroupsOf {
  keysDistinct : NoDup (map fst m);
  groupsFilled : forall k rs, In (k, rs) m -> rs <> [] /\ rs = filter (sameDay k) l;
  groupsCover : forall r, In r l -> In (dateStr r) (map fst m)
}.

(** [adjustedDrift] of lines 98-99. *)
Definition adjustedDrift (totalDrift : Q) : Q :=
  let driftPerDay := jsrem totalDrift (inject_Z HOURS_IN_DAY) in
  if Qeq_bool driftPerDay 0 then totalDrift else driftPerDay.

(** The state of the prediction loop after [n] turns. *)
Definition predictRun (tz lastSleepHour lastSleepMinute : Z)
    (visibleDriftData : DriftData) (avgSleepDuration : Q)
    (lastWakeTime : Z) (n : nat) : Z * list PredictedSleepRecord :=
  fold_left (predictStep tz lastSleepHour lastSleepMinute visibleDriftData avgSleepDuration)
            (seq 0 n) (lastWakeTime, []).

(** The record that turn [i] makes when it starts from the wake time [prev]. *)
Definition madeAt (tz lastSleepHour lastSleepMinute : Z)
    (visibleDriftData : DriftData) (avgSleepDuration : Q)
    (prev : Z) (i : nat) : PredictedSleepRecord :=
  let w := JsDate.timeClip
             (inject_Z (anchoredTime tz lastSleepHour lastSleepMinute prev)
              + sleepDrift visibleDriftData * inject_Z (Z.of_nat i + 1)) in
  mkPredicted (JsDate.timeClip (inject_Z w - avgSleepDuration)) w
              (roundQ (avgRating visibleDriftData)) "Predicted entry" true.

(* ------------------------------------------------------------------ *)
(** ** Sample logs                                                      *)
(* ------------------------------------------------------------------ *)

Module Samples.

(** [YYYY-MM-DDTHH:mm:ss.000Z] *)
Definition utcIso (y m d h mi s : Z) : JsDate.Iso := JsDate.mkIso y m d h mi s 0 0.

Definition entry (s w : JsDate.Iso) (stars : Z) : SleepRecord :=
  mkRecord s w stars EmptyString.

(** Two nights, the second one 30 minutes later. *)
Definition twoNights : list SleepRecord :=
  [ entry (utcIso 2024 1 1 23 0 0) (utcIso 2024 1 2 7 0 0) 5;
    entry (utcIso 2024 1 2 23 30 0) (utcIso 2024 1 3 7 30 0) 5 ].

(** Three nights on whole minutes: 23:00, 23:00, 23:01. *)
Definition threeNights : list SleepRecord :=
  [ entry (utcIso 2024 1 1 23 0 0) (utcIso 2024 1 2 7 0 0) 3;
    entry (utcIso 2024 1 2 23 0 0) (utcIso 2024 1 3 7 0 0) 3;
    entry (utcIso 2024 1 3 23 1 0) (utcIso 2024 1 4 7 1 0) 3 ].

(** Five nights from 23:00, each 30 minutes later, 8 hours long. *)
Definition fiveNights : list SleepRecord :=
  [ entry (utcIso 2024 1 1 23 0 0) (utcIso 2024 1 2 7 0 0) 4;
    entry (utcIso 2024 1 2 23 30 0) (utcIso 2024 1 3 7 30 0) 4;
    entry (utcIso 2024 1 4 0 0 0) (utcIso 2024 1 4 8 0 0) 4;
    entry (utcIso 2024 1 5 0 30 0) (utcIso 2024 1 5 8 30 0) 4;
    entry (utcIso 2024 1 6 1 0 0) (utcIso 2024 1 6 9 0 0) 4 ].

(** One day: nine hours in the morning, then thirty-two hours from 10:00. *)
Definition nineHours : SleepRecord :=
  entry (utcIso 2024 1 1 0 0 0) (utcIso 2024 1 1 9 0 0) 3.
Definition thirtyTwoHours : SleepRecord :=
  entry (utcIso 2024 1 1 10 0 0) (utcIso 2024 1 2 18 0 0) 3.
Definition eightHours : SleepRecord :=
  entry (utcIso 2024 1 1 10 0 0) (utcIso 2024 1 1 18 0 0) 3.

(** One day with a 2h, an 8h and a 1h entry. *)
Definition nap2h : SleepRecord :=
  entry (utcIso 2024 1 1 0 0 0) (utcIso 2024 1 1 2 0 0) 3.
Definition main8h : SleepRecord :=
  entry (utcIso 2024 1 1 3 0 0) (utcIso 2024 1 1 11 0 0) 3.
Definition nap1h : SleepRecord :=
  entry (utcIso 2024 1 1 13 0 0) (utcIso 2024 1 1 14 0 0) 3.

(** 23:00 to 01:00 across midnight. *)
Definition overMidnight : SleepRecord :=
  entry (utcIso 2024 1 1 23 0 0) (utcIso 2024 1 2 1 0 0) 3.

(** Two days, 7 hours and 9 hours of sleep. *)
Definition sevenAndNine : list SleepRecord :=
  [ entry (utcIso 2024 1 1 1 0 0) (utcIso 2024 1 1 8 0 0) 3;
    entry (utcIso 2024 1 2 1 0 0) (utcIso 2024 1 2 10 0 0) 3 ].

(** Three nights at 23:00:00.000, 23:00:00.000 and 23:00:00.001. *)
Definition halfMillisecond : list SleepRecord :=
  [ entry (utcIso 2024 1 1 23 0 0) (utcIso 2024 1 2 7 0 0) 3;
    entry (utcIso 2024 1 2 23 0 0) (utcIso 2024 1 3 7 0 0) 3;
    entry (JsDate.mkIso 2024 1 3 23 0 0 1 0) (utcIso 2024 1 4 7 0 0) 3 ].

(** [2024-01-01T23:30:00-05:00], a late evening in New York. *)
Definition newYorkEvening : SleepRecord :=
  entry (JsDate.mkIso 2024 1 1 23 30 0 0 (-300))
        (JsDate.mkIso 2024 1 2 7 30 0 0 (-300)) 4.

End Samples.

(* ------------------------------------------------------------------ *)
(** ** The component's state, its setters and [loadData]                *)
(* ------------------------------------------------------------------ *)

(** The fields of [SleepChart] that the computations read. *)
Record ChartState : Set := mkState {
  sleepData : list SleepRecord;
  dayStartHour : Z;
  config : Config;
  showSleepTrendLines : bool;
  showWakeTrendLines : bool;
  showSleepBlocks : bool
}.

(** The field initialisers of the class. *)
Definition initialState : ChartState :=
  mkState [] 17 defaultConfig false false true.

(** [x < c] and [x > c] for a number [x] that may be non-finite; a
    comparison with [NaN] is false. *)
Definition jsLt (x : jsnum) (c : Q) : bool :=
  match x with
  | Fin q => Qlt_bool q c
  | NegInf => true
  | PosInf | NaN => false
  end.

Definition jsGt (x : jsnum) (c : Q) : bool :=
  match x with
  | Fin q => Qlt_bool c q
  | PosInf => true
  | NegInf | NaN => false
  end.

(** [Number.isInteger(x)] *)
Definition isInteger (x : jsnum) : bool :=
  match x with
  | Fin q => Qeq_bool (inject_Z (Qfloor q)) q
  | PosInf | NegInf | NaN => false
  end.

(** The whole number that a number accepted by a setter is. *)
Definition integerOf (x : jsnum) : Z :=
  match x with
  | Fin q => Qfloor q
  | PosInf | NegInf | NaN => 0
  end.

Definition withMaxEntries (c : Config) (n : nat) : Config :=
  mkConfig n (showPredictions c) (predictionDays c) (averagingDays c).
Definition withShowPredictions (c : Config) (b : bool) : Config :=
  mkConfig (maxEntries c) b (predictionDays c) (averagingDays c).
Definition withPredictionDays (c : Config) (n : nat) : Config :=
  mkConfig (maxEntries c) (showPredictions c) n (averagingDays c).
Definition withAveragingDays (c : Config) (n : nat) : Config :=
  mkConfig (maxEntries c) (showPredictions c) (predictionDays c) n.

Definition withConfig (st : ChartState) (c : Config) : ChartState :=
  mkState (sleepData st) (dayStartHour st) c
          (showSleepTrendLines st) (showWakeTrendLines st) (showSleepBlocks st).

(** [setDayStartHour]: the state after the call; the re-rendering that
    follows an accepted value reads the state and does not change it. *)
Definition setDayStartHour (st : ChartState) (hour : jsnum) : ChartState :=
  if jsLt hour 0 || jsGt hour 23 || negb (isInteger hour) then st
  else mkState (sleepData st) (integerOf hour) (config st)
               (showSleepTrendLines st) (showWakeTrendLines st) (showSleepBlocks st).

Definition setMaxEntries (st : ChartState) (count : jsnum) : ChartState :=
  if jsLt count 0 || negb (isInteger count) then st
  else withConfig st (withMaxEntries (config st) (Z.to_nat (integerOf count))).

Definition setShowPredictions (st : ChartState) (show : bool) : ChartState :=
  withConfig st (withShowPredictions (config st) show).

Definition setShowSleepTrendLines (st : ChartState) (show : bool) : ChartState :=
  mkState (sleepData st) (dayStartHour st) (config st)
          show (showWakeTrendLines st) (showSleepBlocks st).

Definition setShowWakeTrendLines (st : ChartState) (show : bool) : ChartState :=
  mkState (sleepData st) (dayStartHour st) (config st)
          (showSleepTrendLines st) show (showSleepBlocks st).

Definition setShowSleepBlocks (st : ChartState) (show : bool) : ChartState :=
  mkState (sleepData st) (dayStartHour st) (config st)
          (showSleepTrendLines st) (showWakeTrendLines st) show.

Definition setPredictionDays (st : ChartState) (days : jsnum) : ChartState :=
  if jsLt days 0 || negb (isInteger days) then st
  else withConfig st (withPredictionDays (config st) (Z.to_nat (integerOf days))).

Definition setAveragingDays (st : ChartState) (days : jsnum) : ChartState :=
  if jsLt days 1 || negb (isInteger days) then st
  else withConfig st (withAveragingDays (config st) (Z.to_nat (integerOf days))).

(** [loadData] when the fetch succeeds: the log is stored and
    [averagingDays] becomes the number of distinct dates in it. *)
Definition loadData (st : ChartState) (json : list SleepRecord) : ChartState :=
  mkState json (dayStartHour st)
          (withAveragingDays (config st) (setSize (map dateStr json) []))
          (showSleepTrendLines st) (showWakeTrendLines st) (showSleepBlocks st).

(** One call from outside: a setter or a load. *)
Inductive Call : Set :=
| CallSetDayStartHour (hour : jsnum)
| CallSetMaxEntries (count : jsnum)
| CallSetShowPredictions (show : bool)
| CallSetShowSleepTrendLines (show : bool)
| CallSetShowWakeTrendLines (show : bool)
| CallSetShowSleepBlocks (show : bool)
| CallSetPredictionDays (days : jsnum)
| CallSetAveragingDays (days : jsnum)
| CallLoadData (json : list SleepRecord).

Definition perform (st : ChartState) (c : Call) : ChartState :=
  match c with
  | CallSetDayStartHour hour => setDayStartHour st hour
  | CallSetMaxEntries count => setMaxEntries st count
  | CallSetShowPredictions show => setShowPredictions st show
  | CallSetShowSleepTrendLines show => setShowSleepTrendLines st show
  | CallSetShowWakeTrendLines show => setShowWakeTrendLines st show
  | CallSetShowSleepBlocks show => setShowSleepBlocks st show
  | CallSetPredictionDays days => setPredictionDays st days
  | CallSetAveragingDays days => setAveragingDays st days
  | CallLoadData json => loadData st json
  end.

(* ------------------------------------------------------------------ *)
(** ** The window of the renderers                                      *)
(* ------------------------------------------------------------------ *)

(** [maxEntries > 0 ? [...sleepData].slice(-maxEntries) : sleepData], the
    window of [renderTrendLines], [renderXAxis] and [renderSleepBlocks]. *)
Definition filteredData (cfg : Config) (sleepData : list SleepRecord) : list SleepRecord :=
  if (0 <? maxEntries cfg)%nat then sliceLast (maxEntries cfg) sleepData
  else sleepData.

(* ------------------------------------------------------------------ *)
(** ** Texts: [formatDrift], the tooltip and the info box               *)
(* ------------------------------------------------------------------ *)

(** [`${n}`] and [n.toString()] for a whole number [n] (of magnitude below
    10^21, where JavaScript still prints all the digits). *)
Definition numStr (n : Z) : string := NilZero.string_of_int (Z.to_int n).

(** [s.padStart(2, '0')] *)
Definition padStart2 (s : string) : string :=
  match String.length s with
  | O => "00"
  | S O => ("0" ++ s)%string
  | _ => s
  end.

(** [Math.floor(absDrift / (60 * 60 * 1000)) % 24] *)
Definition driftHours (driftMs : Q) : Z :=
  Z.rem (Qfloor (Qabs driftMs / inject_Z (60 * 60 * 1000))) 24.

(** [Math.floor((absDrift % (60 * 60 * 1000)) / (60 * 1000))] *)
Definition driftMinutes (driftMs : Q) : Z :=
  Qfloor (jsrem (Qabs driftMs) (inject_Z (60 * 60 * 1000)) / inject_Z (60 * 1000)).

Definition formatDrift (driftMs : Q) : string :=
  let sign := if Qle_bool 0 driftMs then "+"%string else "-"%string in
  let hours := driftHours driftMs in
  let minutes := driftMinutes driftMs in
  if hours =? 0 then (sign ++ numStr minutes ++ "m")%string
  else if minutes =? 0 then (sign ++ numStr hours ++ "h")%string
  else (sign ++ numStr hours ++ "h " ++ numStr minutes ++ "m")%string.

(** [durationStr] of [formatTooltip], from the two time values. *)
Definition durationStr (sleepTime wakeTime : Z) : string :=
  let sleepDuration := wakeTime - sleepTime in
  let sleepHours := sleepDuration / (1000 * 60 * 60) in
  let sleepMinutes := Z.rem sleepDuration (1000 * 60 * 60) / (1000 * 60) in
  (numStr sleepHours ++ "h" ++ padStart2 (numStr sleepMinutes) ++ "m")%string.

(** The two numbers of [avgSleepPerDayFormatted] (line 153):
    [Math.floor(avgSleepPerDayHours)] and
    [Math.round((avgSleepPerDayHours % 1) * 60)]. *)
Definition avgSleepHoursPart (avgSleepPerDayMs : Q) : Z :=
  let avgSleepPerDayHours := (avgSleepPerDayMs / inject_Z (1000 * 60 * 60))%Q in
  Qfloor avgSleepPerDayHours.

Definition avgSleepMinutesPart (avgSleepPerDayMs : Q) : Z :=
  let avgSleepPerDayHours := (avgSleepPerDayMs / inject_Z (1000 * 60 * 60))%Q in
  roundQ (jsrem avgSleepPerDayHours 1 * 60).

Definition avgSleepPerDayFormatted (avgSleepPerDayMs : Q) : string :=
  (numStr (avgSleepHoursPart avgSleepPerDayMs) ++ "h "
   ++ numStr (avgSleepMinutesPart avgSleepPerDayMs) ++ "m")%string.

(* ------------------------------------------------------------------ *)
(** ** The chart: axes, blocks and trend lines                          *)
(* ------------------------------------------------------------------ *)

(** [renderYAxis] and [generateYAxisLabels]: label [i] of 24 shows the hour
    [(this.dayStartHour + i) % 24] at [(i / 24) * 100] percent. *)
Definition yAxisHour (dayStartHour : Z) (i : nat) : Z :=
  Z.rem (dayStartHour + Z.of_nat i) 24.

Definition yAxisPosition (i : nat) : Q := inject_Z (Z.of_nat i) / 24 * 100.

Definition yAxisLabels (dayStartHour : Z) : list (Z * Q) :=
  map (fun i => (yAxisHour dayStartHour i, yAxisPosition i)) (seq 0 24).

(** A rectangle of the chart, in percent of its height. *)
Record Box : Set := mkBox { boxTop : Q; boxHeight : Q }.

Record Point : Set := mkPoint { px : Q; py : Q }.
Record Segment : Set := mkSegment { segStart : Point; segEnd : Point }.

Section Rendering.
Variable tz : Z.

(** [hour = (hour - this.dayStartHour + 24) % 24] on a clock reading. *)
Definition chartHour (dayStartHour : Z) (t : Z) : Q :=
  jsrem (clockHours tz t - inject_Z dayStartHour + 24) 24.

(** The [div]s that [renderSleepBlocks] makes for one record: one, or two
    when the block runs past the bottom of the chart. *)
Definition sleepBlockBoxes (dayStartHour sleepTime wakeTime : Z) : list Box :=
  let sleepHour := chartHour dayStartHour sleepTime in
  let wakeHour := chartHour dayStartHour wakeTime in
  let durationHours := (wakeHour - sleepHour)%Q in
  let durationHours :=
    if Qlt_bool durationHours 0 then (durationHours + 24)%Q else durationHours in
  let top := (sleepHour / 24 * 100)%Q in
  let height := (durationHours / 24 * 100)%Q in
  let exceedsBottom := Qlt_bool 100 (top + height) in
  if exceedsBottom then
    let bottomHeight := (100 - top)%Q in
    let topHeight := (height - bottomHeight)%Q in
    [mkBox top bottomHeight; mkBox 0 topHeight]
  else [mkBox top height].

End Rendering.

(** The segments that [renderTrendLines] pushes for one line between two
    consecutive main sleeps, from their positions. *)
Definition trendSegments (currentX nextX currentY nextY : Q) : list Segment :=
  if Qlt_bool 50 (Qabs (nextY - currentY)) then
    if Qlt_bool nextY currentY then
      [ mkSegment (mkPoint currentX currentY)
                  (mkPoint (currentX + (nextX - currentX) / 2) 100);
        mkSegment (mkPoint (currentX + (nextX - currentX) / 2) 0)
                  (mkPoint nextX nextY) ]
    else
      [ mkSegment (mkPoint currentX currentY)
                  (mkPoint (currentX + (nextX - currentX) / 2) 0);
        mkSegment (mkPoint (currentX + (nextX - currentX) / 2) 100)
                  (mkPoint nextX nextY) ]
  else [ mkSegment (mkPoint currentX currentY) (mkPoint nextX nextY) ].

(** [renderXAxis]: the day columns that get a label, of [days] columns. *)
Definition labelInterval (days : nat) : nat := if (30 <? days)%nat then 5 else 1.

Definition hasLabel (days dayIndex : nat) : bool :=
  negb (negb (dayIndex mod labelInterval days =? 0)%nat
        && negb (dayIndex =? days - 1)%nat).

Definition xAxisLabels (days : nat) : list nat :=
  filter (hasLabel days) (seq 0 days).

(** [((dayIndex + 0.5) / uniqueDates.length) * 100] *)
Definition labelPosition (days dayIndex : nat) : Q :=
  (inject_Z (Z.of_nat dayIndex) + (1 # 2)) / inject_Z (Z.of_nat days) * 100.

(** [dayIndex * blockWidth + blockWidth / 2] with
    [blockWidth = 100 / uniqueDates.length]: the middle of a day column. *)
Definition columnCentre (days dayIndex : nat) : Q :=
  let blockWidth := (100 / inject_Z (Z.of_nat days))%Q in
  (inject_Z (Z.of_nat dayIndex) * blockWidth + blockWidth / 2)%Q.

(* ------------------------------------------------------------------ *)
(** ** The main sleeps of the renderers, by index                       *)
(* ------------------------------------------------------------------ *)

(** [Map<string, number[]>]: under each date, the indices of its records
    in [combinedData], in insertion order. *)
Definition IndexMap : Set := list (JsDate.CalDate * list nat).

(** [if (!m.has(k)) m.set(k, []); m.get(k)?.push(index)] *)
Fixpoint mapPushIndex (k : JsDate.CalDate) (index : nat) (m : IndexMap) : IndexMap :=
  match m with
  | [] => [(k, [index])]
  | (k', indices) :: m' =>
      if JsDate.CalDate_eqb k k' then (k', indices ++ [index]) :: m'
      else (k', indices) :: mapPushIndex k index m'
  end.

(** One turn of [combinedData.forEach((record, index) => ...)]. *)
Definition indexStep (combinedData : list SleepRecord) (m : IndexMap) (index : nat)
    : IndexMap :=
  mapPushIndex (dateStr (at_ combinedData index)) index m.

Definition groupIndices (combinedData : list SleepRecord) : IndexMap :=
  fold_left (indexStep combinedData) (seq 0 (length combinedData)) [].

Section MainSleepIndices.
Variable tz : Z.

(** One turn of the inner [indices.forEach]; the state is
    [(longestDuration, longestIndex)]. *)
Definition longestIndexStep (combinedData : list SleepRecord)
    (st : Q * nat) (index : nat) : Q * nat :=
  let record := at_ combinedData index in
  if Qlt_bool (fst st) (duration tz record) then (duration tz record, index) else st.

(** The body of [entriesByDay.forEach((indices) => ...)] of
    [renderSleepBlocks]: the index that one day pushes, if any. *)
Definition mainIndexOfDay (combinedData : list SleepRecord) (indices : list nat)
    : option nat :=
  match indices with
  | [] => None
  | [only] => Some only
  | first :: _ =>
      Some (snd (fold_left (longestIndexStep combinedData) indices (0%Q, first)))
  end.

Definition pushMainIndex (combinedData : list SleepRecord)
    (acc : list nat) (g : JsDate.CalDate * list nat) : list nat :=
  match mainIndexOfDay combinedData (snd g) with
  | Some i => acc ++ [i]
  | None => acc
  end.

Definition mainSleepIndices (combinedData : list SleepRecord) : list nat :=
  fold_left (pushMainIndex combinedData) (groupIndices combinedData) [].

End MainSleepIndices.

(* ------------------------------------------------------------------ *)
(** ** convert-csv-to-json.js                                           *)
(* ------------------------------------------------------------------ *)

(** [d.toISOString()]: the fields of a time value in UTC. *)
Definition toISOString (t : Z) : JsDate.Iso :=
  let '(y, m, d) := JsDate.civilFromDays (t / JsDate.msPerDay) in
  let ms := t mod JsDate.msPerDay in
  JsDate.mkIso y m d
               (ms / JsDate.msPerHour)
               ((ms / JsDate.msPerMinute) mod 60)
               ((ms / JsDate.msPerSecond) mod 60)
               (ms mod JsDate.msPerSecond)
               0.

(** [MakeDay(year, month, date)] of the language standard: [month] counts
    from 0 and may lie outside 0..11, [date] may lie outside the month. *)
Definition makeDay (year month date : Z) : Z :=
  JsDate.daysFromCivil (year + month / 12) (month mod 12 + 1) 1 + date - 1.

Section LocalDates.
Variable tz : Z.

(** [new Date(year, month, day)]: local midnight; a year from 0 to 99 is
    taken as 1900 + year. *)
Definition newDate (year month day : Z) : Z :=
  let yr := if (0 <=? year) && (year <=? 99) then 1900 + year else year in
  JsDate.utc tz (makeDay yr month day * JsDate.msPerDay).

(** [d.getDate()] *)
Definition getDate (t : Z) : Z :=
  let '(_, _, d) := JsDate.civilFromDays (JsDate.localTime tz t / JsDate.msPerDay) in d.

(** [d.setDate(date)]: the day of the month is replaced; the local year and
    month and the time within the day stay. *)
Definition setDate (t date : Z) : Z :=
  let l := JsDate.localTime tz t in
  let '(y, m, _) := JsDate.civilFromDays (l / JsDate.msPerDay) in
  JsDate.utc tz (makeDay y (m - 1) date * JsDate.msPerDay + l mod JsDate.msPerDay).

(** [d.setHours(h, m, s)]: hour, minute and second are replaced; the local
    date and the milliseconds stay. *)
Definition setHours3 (t h m s : Z) : Z :=
  let l := JsDate.localTime tz t in
  JsDate.utc tz (l / JsDate.msPerDay * JsDate.msPerDay
                 + h * JsDate.msPerHour + m * JsDate.msPerMinute
                 + s * JsDate.msPerSecond + l mod JsDate.msPerSecond).

(** The fields of one line of [data.csv] once [parseInt] has read them:
    the date [MM/DD/YY] and the two times [HH:MM]. *)
Record CsvLine : Set := mkLine {
  csvMonth : Z; csvDay : Z; csvYear : Z;
  sleepHours : Z; sleepMinutes : Z;
  wakeHours : Z; wakeMinutes : Z;
  csvNote : string
}.

(** The body of the loop over the lines: the record made for one line. *)
Definition convertLine (line : CsvLine) : SleepRecord :=
  let sleepDate := newDate (2000 + csvYear line) (csvMonth line - 1) (csvDay line) in
  let sleepDate :=
    if sleepHours line <? 12 then setDate sleepDate (getDate sleepDate + 1)
    else sleepDate in
  let sleepDate := setHours3 sleepDate (sleepHours line) (sleepMinutes line) 0 in
  let wakeDate := sleepDate in
  let wakeDate :=
    if (wakeHours line <? sleepHours line)
       || ((wakeHours line =? sleepHours line) && (wakeMinutes line <? sleepMinutes line))
    then setDate wakeDate (getDate wakeDate + 1)
    else wakeDate in
  let wakeDate := setHours3 wakeDate (wakeHours line) (wakeMinutes line) 0 in
  mkRecord (toISOString sleepDate) (toISOString wakeDate) 3 (csvNote line).

Definition convert (lines : list CsvLine) : list SleepRecord := map convertLine lines.

End LocalDates.

(* ------------------------------------------------------------------ *)
(** ** Vocabulary of the further statements                             *)
(* ------------------------------------------------------------------ *)

(** [mainSleepEntries] of [getMainSleepEntries] once it is sorted, before
    the averaging window is cut. *)
Definition sortedMainSleepEntries (tz : Z) (data : list SleepRecord) : list SleepRecord :=
  sortBy sleepTimeOf (fold_left (pushMain tz) (groupByDay data) []).

(** Chronological order of two records, by the instant of falling asleep. *)
Definition bySleepTime (a b : SleepRecord) : Prop := sleepTimeOf a <= sleepTimeOf b.

(** The number of the UTC day on which a record starts. *)
Definition dayNumber (r : SleepRecord) : Z := sleepTimeOf r / JsDate.msPerDay.

(** A record moved by whole days: the same rating, and sleep and wake
    instants that differ from the original ones by multiples of 24 hours. *)
Definition dayShifted (a b : SleepRecord) : Prop :=
  rating b = rating a
  /\ (exists j, sleepTimeOf b = sleepTimeOf a + j * HOURS_IN_DAY)
  /\ (exists k, wakeTimeOf b = wakeTimeOf a + k * HOURS_IN_DAY).

(** The text of a sign and a number of whole minutes, in hours and minutes
    with the zero part left out. *)
Definition hoursMinutesText (sign : string) (totalMinutes : Z) : string :=
  let h := totalMinutes / 60 in
  let m := totalMinutes mod 60 in
  if h =? 0 then (sign ++ numStr m ++ "m")%string
  else if m =? 0 then (sign ++ numStr h ++ "h")%string
  else (sign ++ numStr h ++ "h " ++ numStr m ++ "m")%string.

(** The reading of the chart's own clock, which starts at [dayStartHour],
    in whole minutes. *)
Definition chartMinutes (tz dayStartHour t : Z) : Z :=
  (clockMinutes tz t - 60 * dayStartHour) mod 1440.

(** A box that lies within the chart. *)
Definition inChart (b : Box) : Prop :=
  (0 <= boxTop b /\ 0 <= boxHeight b /\ boxTop b + boxHeight b <= 100)%Q.

(** The heights of some boxes together. *)
Definition totalHeight (boxes : list Box) : Q :=
  fold_right (fun b acc => boxHeight b + acc)%Q 0%Q boxes.

(** The vertical way a segment goes. *)
Definition rise (s : Segment) : Q := Qabs (py (segEnd s) - py (segStart s)).

(** The vertical way that some segments go together. *)
Definition totalRise (segments : list Segment) : Q :=
  fold_right (fun s acc => rise s + acc)%Q 0%Q segments.

(** The records behind the indices of an index map. *)
Definition recordsOf (combinedData : list SleepRecord) (m : IndexMap) : DayMap :=
  map (fun g => (fst g, map (at_ combinedData) (snd g))) m.

(** A clock time as the CSV writes it. *)
Definition clockTime (h m : Z) : Prop := 0 <= h < 24 /\ 0 <= m < 60.

(** A line of the CSV whose two times are clock times. *)
Definition validLine (line : CsvLine) : Prop :=
  clockTime (sleepHours line) (sleepMinutes line)
  /\ clockTime (wakeHours line) (wakeMinutes line).

(** For day [doe] of a 400-year era: the year of the era and the day of
    the year that [civilFromDays] computes are in range. *)
Definition eraDayOk (doe : Z) : bool :=
  let yoe := (doe - doe / 1460 + doe / 36524 - doe / 146096) / 365 in
  let doy := doe - (365 * yoe + yoe / 4 - yoe / 100) in
  (0 <=? yoe) && (yoe <=? 399) && (0 <=? doy) && (doy <=? 365).

(** One turn of the check over the days of an era; the state is the next
    day and whether all days before it are in range. *)
Definition eraCheckStep (st : Z * bool) : Z * bool :=
  (fst st + 1, snd st && eraDayOk (fst st)).

(* ------------------------------------------------------------------ *)
(** ** Comparisons, rounding and division                               *)
(* ------------------------------------------------------------------ *)

Lemma Qlt_bool_iff (a b : Q) : Qlt_bool a b = true <-> (a < b)%Q.
Proof.
  unfold Qlt_bool. rewrite negb_true_iff. split.
  - intros H. apply Qnot_le_lt. intros Hle.
    apply Qle_bool_iff in Hle. congruence.
  - intros H. destruct (Qle_bool b a) eqn:E; [| reflexivity].
    apply Qle_bool_iff in E. exfalso. exact (Qlt_not_le _ _ H E).
Qed.

Lemma Qlt_bool_false (a b : Q) : Qlt_bool a b = false <-> (b <= a)%Q.
Proof.
  unfold Qlt_bool. rewrite negb_false_iff. apply Qle_bool_iff.
Qed.

Lemma Qfloor_unique (q : Q) (n : Z) :
  (inject_Z n <= q)%Q -> (q < inject_Z (n + 1))%Q -> Qfloor q = n.
Proof.
  intros Hlo Hhi.
  pose proof (Qfloor_le q) as Hf. pose proof (Qlt_floor q) as Hc.
  assert (H1 : (inject_Z n < inject_Z (Qfloor q + 1))%Q) by (eapply Qle_lt_trans; eassumption).
  assert (H2 : (inject_Z (Qfloor q) < inject_Z (n + 1))%Q) by (eapply Qle_lt_trans; eassumption).
  rewrite <- Zlt_Qlt in H1, H2. lia.
Qed.

Lemma truncQ_small (q : Q) : (-1 < q)%Q -> (q < 1)%Q -> truncQ q = 0.
Proof.
  intros Hlo Hhi. unfold truncQ.
  destruct (Qle_bool 0 q) eqn:E.
  - apply Qle_bool_iff in E. apply Qfloor_unique; unfold inject_Z; simpl; lra.
  - assert (Hneg : (q < 0)%Q).
    { apply Qnot_le_lt. intros H. apply Qle_bool_iff in H. congruence. }
    unfold Qceiling.
    rewrite (Qfloor_unique (- q) 0); [reflexivity | |]; unfold inject_Z; simpl; lra.
Qed.

Lemma timeClip_inject (z : Z) : JsDate.timeClip (inject_Z z) = z.
Proof.
  unfold JsDate.timeClip, truncQ.
  destruct (Qle_bool 0 (inject_Z z)); [apply Qfloor_Z | apply Qceiling_Z].
Qed.

Lemma timeClip_comp (p q : Q) : (p == q)%Q -> JsDate.timeClip p = JsDate.timeClip q.
Proof.
  intros H. unfold JsDate.timeClip, truncQ.
  assert (Hb : Qle_bool 0 p = Qle_bool 0 q).
  { destruct (Qle_bool 0 p) eqn:Ep, (Qle_bool 0 q) eqn:Eq; try reflexivity.
    - apply Qle_bool_iff in Ep. rewrite H in Ep. apply Qle_bool_iff in Ep. congruence.
    - apply Qle_bool_iff in Eq. rewrite <- H in Eq. apply Qle_bool_iff in Eq. congruence. }
  rewrite Hb. destruct (Qle_bool 0 q); [now apply Qfloor_comp | now apply Qceiling_comp].
Qed.

Lemma roundQ_comp (p q : Q) : (p == q)%Q -> roundQ p = roundQ q.
Proof. intros H. unfold roundQ. apply Qfloor_comp. now rewrite H. Qed.

Lemma Qlt_bool_comp (a a' b : Q) : (a == a')%Q -> Qlt_bool a b = Qlt_bool a' b.
Proof.
  intros H. destruct (Qlt_bool a b) eqn:E1, (Qlt_bool a' b) eqn:E2; try reflexivity.
  - apply Qlt_bool_iff in E1. apply Qlt_bool_false in E2. rewrite H in E1.
    exfalso. exact (Qlt_not_le _ _ E1 E2).
  - apply Qlt_bool_iff in E2. apply Qlt_bool_false in E1. rewrite H in E1.
    exfalso. exact (Qlt_not_le _ _ E2 E1).
Qed.

Lemma jsdiv_comp (a b b' : Q) : (b == b')%Q -> jsdiv a b = jsdiv a b'.
Proof.
  intros H. unfold jsdiv.
  assert (Hb : Qeq_bool b 0 = Qeq_bool b' 0).
  { destruct (Qeq_bool b 0) eqn:E1, (Qeq_bool b' 0) eqn:E2; try reflexivity.
    - apply Qeq_bool_iff in E1. rewrite H in E1. apply Qeq_bool_iff in E1. congruence.
    - apply Qeq_bool_iff in E2. rewrite <- H in E2. apply Qeq_bool_iff in E2. congruence. }
  rewrite Hb. destruct (Qeq_bool b' 0); [reflexivity |].
  f_equal. apply Qred_complete. now rewrite H.
Qed.

Lemma jsdiv_finite (a b : Q) : ~ (b == 0)%Q -> jsdiv a b = Fin (Qred (a / b)).
Proof.
  intros Hb. unfold jsdiv. destruct (Qeq_bool b 0) eqn:E; [| reflexivity].
  apply Qeq_bool_iff in E. contradiction.
Qed.

(* ------------------------------------------------------------------ *)
(** ** The signed fold                                                  *)
(* ------------------------------------------------------------------ *)

Lemma day_positive : 0 < HOURS_IN_DAY.
Proof. reflexivity. Qed.

(** The double truncated remainder of the code is the mathematical
    residue. *)
Lemma rem_twice_is_mod (x : Z) :
  Z.rem (Z.rem x HOURS_IN_DAY + HOURS_IN_DAY) HOURS_IN_DAY = x mod HOURS_IN_DAY.
Proof.
  pose proof day_positive as HD.
  assert (Hb : - HOURS_IN_DAY < Z.rem x HOURS_IN_DAY < HOURS_IN_DAY).
  { pose proof (Z.rem_bound_abs x HOURS_IN_DAY) as Ha. lia. }
  rewrite Z.rem_mod_nonneg by lia.
  rewrite <- Z.add_mod_idemp_r, Z.mod_same, Z.add_0_r by lia.
  pose proof (Z.quot_rem' x HOURS_IN_DAY) as Hq.
  rewrite Hq at 2.
  rewrite Z.add_comm, Z.mul_comm, Z.mod_add by lia.
  reflexivity.
Qed.

Lemma normalize24_is_mod (x : Z) : Spec.normalize24 x = x mod HOURS_IN_DAY.
Proof.
  unfold Spec.normalize24.
  rewrite <- Z.add_mod_idemp_r, Z.mod_same, Z.add_0_r by (pose proof day_positive; lia).
  apply Z.mod_mod. pose proof day_positive; lia.
Qed.

Lemma driftPart_signedFold (x : Z) : driftPart x = Spec.signedFold x.
Proof.
  unfold driftPart, Spec.signedFold.
  rewrite rem_twice_is_mod, normalize24_is_mod.
  change (12 * 60 * 60 * 1000) with HALF_DAY.
  rewrite Z.gtb_ltb. reflexivity.
Qed.

Lemma signedFold_range (x : Z) : - HALF_DAY < Spec.signedFold x <= HALF_DAY.
Proof.
  unfold Spec.signedFold. rewrite normalize24_is_mod.
  pose proof (Z.mod_pos_bound x HOURS_IN_DAY day_positive) as Hb.
  assert (HOURS_IN_DAY = 2 * HALF_DAY) by reflexivity.
  destruct (Z.ltb_spec HALF_DAY (x mod HOURS_IN_DAY)); lia.
Qed.

Lemma signedFold_day_plus (d : Z) :
  - HALF_DAY < d <= HALF_DAY -> Spec.signedFold (HOURS_IN_DAY + d) = d.
Proof.
  intros Hd. unfold Spec.signedFold. rewrite normalize24_is_mod.
  assert (HH : HOURS_IN_DAY = 2 * HALF_DAY) by reflexivity.
  assert (H0 : 0 < HALF_DAY) by reflexivity.
  destruct (Z.le_gt_cases 0 d) as [Hp | Hn].
  - replace (HOURS_IN_DAY + d) with (d + 1 * HOURS_IN_DAY) by lia.
    rewrite Z.mod_add, Z.mod_small by lia.
    destruct (Z.ltb_spec HALF_DAY d); lia.
  - replace (HOURS_IN_DAY + d) with (HOURS_IN_DAY + d + 0 * HOURS_IN_DAY) by lia.
    rewrite Z.mod_add, Z.mod_small by lia.
    destruct (Z.ltb_spec HALF_DAY (HOURS_IN_DAY + d)); lia.
Qed.

(* ------------------------------------------------------------------ *)
(** ** calculateDrift                                                   *)
(* ------------------------------------------------------------------ *)

Lemma sumZ_cons (x : Z) (l : list Z) : Spec.sumZ (x :: l) = x + Spec.sumZ l.
Proof. reflexivity. Qed.

Lemma sumZ_app (l1 l2 : list Z) : Spec.sumZ (l1 ++ l2) = Spec.sumZ l1 + Spec.sumZ l2.
Proof. induction l1 as [| a l1 IH]; simpl; [reflexivity | rewrite IH; lia]. Qed.

(** What the loop has accumulated after running over the indices [idx]. *)
Lemma driftLoop_totals (entries : list SleepRecord) (idx : list nat) (acc : DriftTotals) :
  fold_left (driftLoopBody entries) idx acc =
  mkTotals
    (totalSleepDrift acc
     + Spec.sumZ (map (fun i => driftPart (sleepTimeOf (at_ entries i)
                                           - sleepTimeOf (at_ entries (i - 1)))) idx))
    (totalWakeDrift acc
     + Spec.sumZ (map (fun i => driftPart (wakeTimeOf (at_ entries i)
                                           - wakeTimeOf (at_ entries (i - 1)))) idx))
    (totalRating acc + Spec.sumZ (map (fun i => rating (at_ entries i)) idx)).
Proof.
  revert acc. induction idx as [| i idx IH]; intros acc.
  - destruct acc as [s w r].
    cbn [fold_left map Spec.sumZ fold_right totalSleepDrift totalWakeDrift totalRating].
    f_equal; lia.
  - cbn [fold_left]. rewrite IH, !map_cons, !sumZ_cons. unfold driftLoopBody.
    cbn [totalSleepDrift totalWakeDrift totalRating]. f_equal; lia.
Qed.

Lemma driftLoop_sleep (entries : list SleepRecord) :
  totalSleepDrift (driftLoop entries)
  = Spec.sumZ (map Spec.signedFold (Spec.pairDiffs sleepTimeOf entries)).
Proof.
  unfold driftLoop, Spec.pairDiffs. rewrite driftLoop_totals; simpl.
  rewrite map_map. f_equal. apply map_ext. intros i. apply driftPart_signedFold.
Qed.

Lemma driftLoop_wake (entries : list SleepRecord) :
  totalWakeDrift (driftLoop entries)
  = Spec.sumZ (map Spec.signedFold (Spec.pairDiffs wakeTimeOf entries)).
Proof.
  unfold driftLoop, Spec.pairDiffs. rewrite driftLoop_totals; simpl.
  rewrite map_map. f_equal. apply map_ext. intros i. apply driftPart_signedFold.
Qed.

Lemma map_nth_seq_all {A B : Type} (f : A -> B) (d : A) (l : list A) :
  map (fun i => f (nth i l d)) (seq 0 (length l)) = map f l.
Proof.
  induction l as [| a l IH]; simpl; [reflexivity |].
  f_equal. rewrite <- seq_shift, map_map. exact IH.
Qed.

(** The ratings the loop adds up are those of [entries[1..]]: the loop
    starts at index 1. *)
Lemma driftLoop_rating (entries : list SleepRecord) :
  totalRating (driftLoop entries) = Spec.sumZ (map rating (tl entries)).
Proof.
  unfold driftLoop. rewrite driftLoop_totals; simpl.
  destruct entries as [| e0 rest]; [reflexivity |].
  simpl. rewrite Nat.sub_0_r.
  rewrite <- seq_shift, map_map.
  f_equal. apply (map_nth_seq_all rating noRecord rest).
Qed.

Lemma pairDiffs_length (f : SleepRecord -> Z) (entries : list SleepRecord) :
  length (Spec.pairDiffs f entries) = (length entries - 1)%nat.
Proof. unfold Spec.pairDiffs. now rewrite length_map, length_seq. Qed.

(** [calculateEntryDrift] applies the same fold to one pair. *)
Lemma calculateEntryDrift_fold (prevEntry currEntry : SleepRecord) :
  calculateEntryDrift prevEntry currEntry
  = (Spec.signedFold (sleepTimeOf currEntry - sleepTimeOf prevEntry),
     Spec.signedFold (wakeTimeOf currEntry - wakeTimeOf prevEntry)).
Proof.
  unfold calculateEntryDrift. now rewrite !driftPart_signedFold.
Qed.

(** With two entries or more, the three results are the loop totals over
    [n - 1], [n - 1] and [n]. *)
Lemma calculateDrift_enough (entries : list SleepRecord) :
  (2 <= length entries)%nat ->
  calculateDrift entries =
  mkDrift (inject_Z (Spec.sumZ (map Spec.signedFold (Spec.pairDiffs sleepTimeOf entries)))
           / inject_Z (Z.of_nat (length entries) - 1))
          (inject_Z (Spec.sumZ (map Spec.signedFold (Spec.pairDiffs wakeTimeOf entries)))
           / inject_Z (Z.of_nat (length entries) - 1))
          (inject_Z (Spec.sumZ (map rating (tl entries)))
           / inject_Z (Z.of_nat (length entries))).
Proof.
  intros Hn. unfold calculateDrift.
  destruct (Nat.ltb_spec (length entries) 2) as [Hlt | _]; [lia |].
  now rewrite driftLoop_sleep, driftLoop_wake, driftLoop_rating.
Qed.

Lemma sumZ_signedFold_bounds (l : list Z) :
  l <> [] ->
  - HALF_DAY * Z.of_nat (length l) < Spec.sumZ (map Spec.signedFold l)
  /\ Spec.sumZ (map Spec.signedFold l) <= HALF_DAY * Z.of_nat (length l).
Proof.
  induction l as [| x l IH]; [congruence | intros _].
  pose proof (signedFold_range x) as Hx.
  unfold HALF_DAY in *.
  destruct l as [| y l].
  - simpl. lia.
  - assert (Hne : y :: l <> []) by discriminate.
    specialize (IH Hne).
    change (Spec.sumZ (map Spec.signedFold (x :: y :: l)))
      with (Spec.signedFold x + Spec.sumZ (map Spec.signedFold (y :: l))).
    change (length (x :: y :: l)) with (S (length (y :: l))).
    rewrite Nat2Z.inj_succ. lia.
Qed.

(** A mean of values in [(-12h, 12h]] stays there. *)
Lemma mean_in_half_day (s m : Z) :
  0 < m -> - HALF_DAY * m < s -> s <= HALF_DAY * m ->
  (- inject_Z HALF_DAY < inject_Z s / inject_Z m
   /\ inject_Z s / inject_Z m <= inject_Z HALF_DAY)%Q.
Proof.
  intros Hm Hlo Hhi. unfold HALF_DAY in *.
  assert (Hq : (0 < inject_Z m)%Q) by (rewrite (Zlt_Qlt 0 m) in Hm; exact Hm).
  split.
  - apply Qlt_shift_div_l; [exact Hq |].
    rewrite <- inject_Z_opp, <- inject_Z_mult, <- Zlt_Qlt. lia.
  - apply Qle_shift_div_r; [exact Hq |].
    rewrite <- inject_Z_mult, <- Zle_Qle. lia.
Qed.

(** C1. For a list of at least two main-sleep entries, the turn of the loop
    of [calculateDrift] for the pair [(i - 1, i)] adds to each total the raw
    millisecond difference folded into (-12h, 12h]: normalized into [0, 24h)
    by [((x mod 24h) + 24h) mod 24h], less 24h when that strictly exceeds 12h.
    The totals of the whole loop are the sums of these folds.  A raw
    difference of [24h + d] with [-12h < d <= 12h] contributes exactly [d],
    and one of exactly 24h contributes 0. *)
Theorem C1_pair_drift_is_signed_fold
    (entries : list SleepRecord) (i : nat) (acc : DriftTotals) :
  (2 <= length entries)%nat ->
  (1 <= i < length entries)%nat ->
  let rawSleep := sleepTimeOf (at_ entries i) - sleepTimeOf (at_ entries (i - 1)) in
  let rawWake := wakeTimeOf (at_ entries i) - wakeTimeOf (at_ entries (i - 1)) in
  let next := driftLoopBody entries acc i in
  totalSleepDrift next - totalSleepDrift acc = Spec.signedFold rawSleep
  /\ totalWakeDrift next - totalWakeDrift acc = Spec.signedFold rawWake
  /\ - HALF_DAY < Spec.signedFold rawSleep <= HALF_DAY
  /\ - HALF_DAY < Spec.signedFold rawWake <= HALF_DAY
  /\ totalSleepDrift (driftLoop entries)
     = Spec.sumZ (map Spec.signedFold (Spec.pairDiffs sleepTimeOf entries))
  /\ totalWakeDrift (driftLoop entries)
     = Spec.sumZ (map Spec.signedFold (Spec.pairDiffs wakeTimeOf entries))
  /\ (forall d, - HALF_DAY < d <= HALF_DAY ->
        (rawSleep = HOURS_IN_DAY + d ->
         totalSleepDrift next - totalSleepDrift acc = d)
        /\ (rawWake = HOURS_IN_DAY + d ->
            totalWakeDrift next - totalWakeDrift acc = d))
  /\ (rawSleep = HOURS_IN_DAY -> totalSleepDrift next - totalSleepDrift acc = 0)
  /\ (rawWake = HOURS_IN_DAY -> totalWakeDrift next - totalWakeDrift acc = 0).
Proof.
  intros _ _ rawSleep rawWake next.
  assert (Hs : totalSleepDrift next - totalSleepDrift acc = Spec.signedFold rawSleep).
  { unfold next, driftLoopBody; simpl. fold rawSleep.
    rewrite driftPart_signedFold. lia. }
  assert (Hw : totalWakeDrift next - totalWakeDrift acc = Spec.signedFold rawWake).
  { unfold next, driftLoopBody; simpl. fold rawWake.
    rewrite driftPart_signedFold. lia. }
  assert (Hzero : Spec.signedFold HOURS_IN_DAY = 0).
  { replace HOURS_IN_DAY with (HOURS_IN_DAY + 0) at 1 by lia.
    apply signedFold_day_plus. unfold HALF_DAY. lia. }
  repeat split.
  - exact Hs.
  - exact Hw.
  - apply signedFold_range.
  - apply signedFold_range.
  - apply signedFold_range.
  - apply signedFold_range.
  - apply driftLoop_sleep.
  - apply driftLoop_wake.
  - intros Hraw. rewrite Hs, Hraw. now apply signedFold_day_plus.
  - intros Hraw. rewrite Hw, Hraw. now apply signedFold_day_plus.
  - intros Hraw. now rewrite Hs, Hraw.
  - intros Hraw. now rewrite Hw, Hraw.
Qed.

Lemma C1_witness :
  totalSleepDrift (driftLoopBody Samples.twoNights (mkTotals 0 0 0) 1) - 0 = 1800000.
Proof.
  destruct (C1_pair_drift_is_signed_fold Samples.twoNights 1 (mkTotals 0 0 0))
    as (_ & _ & _ & _ & _ & _ & Hd & _).
  - simpl. lia.
  - simpl. lia.
  - apply (Hd 1800000).
    + unfold HALF_DAY. lia.
    + reflexivity.
Defined.

Lemma calculateDrift_sparse (entries : list SleepRecord) :
  (length entries < 2)%nat ->
  calculateDrift entries
  = mkDrift (inject_Z (30 * 60 * 1000)) (inject_Z (30 * 60 * 1000)) (inject_Z 3).
Proof.
  intros Hn. unfold calculateDrift.
  destruct (Nat.ltb_spec (length entries) 2) as [_ | Hge]; [reflexivity | lia].
Qed.

(** C6. On an empty or singleton list [calculateDrift] returns, without
    failing, the fixed default: +30 minutes for [sleepDrift] and for
    [wakeDrift], and 3 for [avgRating]. *)
Theorem C6_default_on_sparse_data (entries : list SleepRecord) :
  (length entries < 2)%nat ->
  calculateDrift entries
  = mkDrift (inject_Z (30 * 60 * 1000)) (inject_Z (30 * 60 * 1000)) (inject_Z 3).
Proof.
  intros Hn. unfold calculateDrift.
  destruct (Nat.ltb_spec (length entries) 2) as [_ | Hge]; [reflexivity | lia].
Qed.

Lemma C6_witness :
  calculateDrift [Samples.overMidnight]
  = mkDrift (inject_Z (30 * 60 * 1000)) (inject_Z (30 * 60 * 1000)) (inject_Z 3).
Proof.
  apply (C6_default_on_sparse_data [Samples.overMidnight]). simpl. lia.
Defined.

(** C9. Whatever the entries, [sleepDrift] and [wakeDrift] of
    [calculateDrift] lie in (-12h, 12h]: the mean of per-pair folds, each in
    that range, and the +30 minute default both do. *)
Theorem C9_drift_within_half_day (entries : list SleepRecord) :
  (- inject_Z HALF_DAY < sleepDrift (calculateDrift entries)
   /\ sleepDrift (calculateDrift entries) <= inject_Z HALF_DAY)%Q
  /\ (- inject_Z HALF_DAY < wakeDrift (calculateDrift entries)
      /\ wakeDrift (calculateDrift entries) <= inject_Z HALF_DAY)%Q.
Proof.
  destruct (Nat.lt_ge_cases (length entries) 2) as [Hlt | Hge].
  - rewrite (calculateDrift_sparse entries Hlt). simpl.
    repeat split; reflexivity || discriminate.
  - rewrite (calculateDrift_enough entries Hge). simpl.
    assert (Hlen : forall f, Z.of_nat (length (Spec.pairDiffs f entries))
                             = Z.of_nat (length entries) - 1).
    { intros f. rewrite pairDiffs_length. lia. }
    assert (Hne : forall f, Spec.pairDiffs f entries <> []).
    { intros f Hnil. apply (f_equal (@length Z)) in Hnil.
      rewrite pairDiffs_length in Hnil. simpl in Hnil. lia. }
    split.
    + pose proof (sumZ_signedFold_bounds _ (Hne sleepTimeOf)) as [Hlo Hhi].
      rewrite Hlen in Hlo, Hhi. apply mean_in_half_day; lia.
    + pose proof (sumZ_signedFold_bounds _ (Hne wakeTimeOf)) as [Hlo Hhi].
      rewrite Hlen in Hlo, Hhi. apply mean_in_half_day; lia.
Qed.

(** With two entries or more, the drifts are the arithmetic means of the
    per-pair folds, and the rating result is the sum of the ratings of all
    entries but the first, over the number of all entries. *)
Lemma calculateDrift_means (entries : list SleepRecord) :
  (2 <= length entries)%nat ->
  (sleepDrift (calculateDrift entries)
   == Spec.mean (map Spec.signedFold (Spec.pairDiffs sleepTimeOf entries)))%Q
  /\ (wakeDrift (calculateDrift entries)
      == Spec.mean (map Spec.signedFold (Spec.pairDiffs wakeTimeOf entries)))%Q
  /\ (avgRating (calculateDrift entries)
      == inject_Z (Spec.sumZ (map rating (tl entries)))
         / inject_Z (Z.of_nat (length entries)))%Q.
Proof.
  intros Hn. rewrite (calculateDrift_enough entries Hn). cbn [sleepDrift wakeDrift avgRating].
  unfold Spec.mean. rewrite !length_map, !pairDiffs_length.
  replace (Z.of_nat (length entries - 1)) with (Z.of_nat (length entries) - 1) by lia.
  repeat split; reflexivity.
Qed.

(** C5. On the two-entry log [Samples.twoNights], both rated 5,
    [calculateDrift] returns as [sleepDrift] and [wakeDrift] the arithmetic
    mean of the single per-pair fold, as claimed, but as [avgRating] it
    returns 5/2, where the average of the ratings of both entries is 5: the
    loop that sums the ratings starts at the second entry, and the sum is
    divided by the number of all entries. *)
Theorem C5_avgRating_leaves_out_first_entry :
  map rating Samples.twoNights = [5; 5]
  /\ (Spec.mean (map rating Samples.twoNights) == 5)%Q
  /\ (avgRating (calculateDrift Samples.twoNights) == 5 # 2)%Q
  /\ ~ (avgRating (calculateDrift Samples.twoNights)
        == Spec.mean (map rating Samples.twoNights))%Q
  /\ (sleepDrift (calculateDrift Samples.twoNights)
      == Spec.mean (map Spec.signedFold (Spec.pairDiffs sleepTimeOf Samples.twoNights)))%Q
  /\ (wakeDrift (calculateDrift Samples.twoNights)
      == Spec.mean (map Spec.signedFold (Spec.pairDiffs wakeTimeOf Samples.twoNights)))%Q.
Proof.
  repeat split; try reflexivity.
  intros H. vm_compute in H. discriminate H.
Qed.

(* ------------------------------------------------------------------ *)
(** ** Day grouping                                                     *)
(* ------------------------------------------------------------------ *)

Lemma CalDate_eqb_eq (a b : JsDate.CalDate) : JsDate.CalDate_eqb a b = true <-> a = b.
Proof.
  destruct a as [[y1 m1] d1], b as [[y2 m2] d2]. unfold JsDate.CalDate_eqb.
  rewrite !andb_true_iff, !Z.eqb_eq. split.
  - intros [[-> ->] ->]. reflexivity.
  - intros H. inversion H. auto.
Qed.

Lemma CalDate_eqb_refl (a : JsDate.CalDate) : JsDate.CalDate_eqb a a = true.
Proof. now apply CalDate_eqb_eq. Qed.

Lemma CalDate_eqb_neq (a b : JsDate.CalDate) : JsDate.CalDate_eqb a b = false <-> a <> b.
Proof.
  rewrite <- CalDate_eqb_eq. destruct (JsDate.CalDate_eqb a b); intuition congruence.
Qed.

Lemma mapPush_keys_old (k : JsDate.CalDate) (r : SleepRecord) (m : DayMap) :
  In k (map fst m) -> map fst (mapPush k r m) = map fst m.
Proof.
  induction m as [| [k' rs] m IH]; simpl; [tauto |].
  intros Hin. destruct (JsDate.CalDate_eqb k k') eqn:E; simpl; [reflexivity |].
  f_equal. apply IH. destruct Hin as [Heq | Hin]; [| exact Hin].
  apply CalDate_eqb_neq in E. congruence.
Qed.

Lemma mapPush_keys_new (k : JsDate.CalDate) (r : SleepRecord) (m : DayMap) :
  ~ In k (map fst m) -> mapPush k r m = m ++ [(k, [r])].
Proof.
  induction m as [| [k' rs] m IH]; simpl; [reflexivity |].
  intros Hnin. destruct (JsDate.CalDate_eqb k k') eqn:E.
  - apply CalDate_eqb_eq in E. subst. tauto.
  - f_equal. apply IH. tauto.
Qed.

(** Pushing under a key that is present appends to that key's group and
    leaves every other group as it was. *)
Lemma mapPush_present (k : JsDate.CalDate) (r : SleepRecord) (m : DayMap) :
  NoDup (map fst m) -> In k (map fst m) ->
  forall k' rs', In (k', rs') (mapPush k r m) ->
    exists rs, In (k', rs) m /\ rs' = if JsDate.CalDate_eqb k k' then rs ++ [r] else rs.
Proof.
  induction m as [| [k0 rs0] m IH]; simpl; [tauto |].
  intros Hnd Hin k' rs' Hin'. inversion Hnd as [| ? ? Hnotin Hnd']; subst.
  destruct (JsDate.CalDate_eqb k k0) eqn:E.
  - apply CalDate_eqb_eq in E. subst k0.
    destruct Hin' as [Heq | Hin'].
    + inversion Heq; subst. exists rs0. rewrite CalDate_eqb_refl. auto.
    + exists rs'. split; [auto |].
      destruct (JsDate.CalDate_eqb k k') eqn:E'; [| reflexivity].
      apply CalDate_eqb_eq in E'. subst k'.
      exfalso. apply Hnotin. change k with (fst (k, rs')). now apply in_map.
  - destruct Hin' as [Heq | Hin'].
    + inversion Heq; subst. exists rs'. rewrite E. auto.
    + destruct Hin as [Heq | Hin].
      * apply CalDate_eqb_neq in E. congruence.
      * destruct (IH Hnd' Hin k' rs' Hin') as (rs & Hrs & Heq).
        exists rs. auto.
Qed.

Lemma filter_none {A : Type} (f : A -> bool) (l : list A) :
  (forall x, In x l -> f x = false) -> filter f l = [].
Proof.
  induction l as [| a l IH]; simpl; [reflexivity |].
  intros H. rewrite (H a) by auto. apply IH. auto.
Qed.

Lemma sameDay_dateStr (r : SleepRecord) : sameDay (dateStr r) r = true.
Proof. apply CalDate_eqb_refl. Qed.

Lemma groupStep_groups (m : DayMap) (l : list SleepRecord) (r : SleepRecord) :
  GroupsOf m l -> GroupsOf (groupStep m r) (l ++ [r]).
Proof.
  intros [Hnd Hfill Hcov]. unfold groupStep.
  destruct (in_dec CalDate_eq_dec (dateStr r) (map fst m)) as [Hin | Hnin].
  - constructor.
    + now rewrite mapPush_keys_old.
    + intros k rs' Hin'.
      destruct (mapPush_present _ r m Hnd Hin k rs' Hin') as (rs & Hrs & Heq).
      destruct (Hfill k rs Hrs) as [Hne Hflt].
      rewrite filter_app. simpl. unfold sameDay at 2.
      destruct (JsDate.CalDate_eqb (dateStr r) k) eqn:E; subst rs'.
      * split; [destruct rs; discriminate | now rewrite <- Hflt].
      * split; [exact Hne | now rewrite app_nil_r].
    + intros x Hx. rewrite mapPush_keys_old by exact Hin.
      apply in_app_or in Hx. destruct Hx as [Hx | [<- | []]]; auto.
  - rewrite mapPush_keys_new by exact Hnin. constructor.
    + rewrite map_app. simpl.
      apply NoDup_app; [exact Hnd | repeat constructor; simpl; tauto |].
      intros k Hk [<- | []]. contradiction.
    + intros k rs Hin'. rewrite filter_app. simpl. unfold sameDay at 2.
      apply in_app_or in Hin'. destruct Hin' as [Hin' | [Heq | []]].
      * destruct (Hfill k rs Hin') as [Hne Hflt]. split; [exact Hne |].
        destruct (JsDate.CalDate_eqb (dateStr r) k) eqn:E.
        -- apply CalDate_eqb_eq in E. subst k. exfalso. apply Hnin.
           change (dateStr r) with (fst (dateStr r, rs)). now apply in_map.
        -- now rewrite app_nil_r.
      * inversion Heq; subst. split; [discriminate |].
        rewrite CalDate_eqb_refl.
        rewrite filter_none; [reflexivity |].
        intros x Hx. apply CalDate_eqb_neq. intros Heq'.
        apply Hnin. rewrite <- Heq'. now apply Hcov.
    + intros x Hx. rewrite map_app. apply in_or_app.
      apply in_app_or in Hx. destruct Hx as [Hx | [<- | []]]; simpl; auto.
Qed.

Lemma fold_groupStep_groups (data : list SleepRecord) :
  forall m l, GroupsOf m l -> GroupsOf (fold_left groupStep data m) (l ++ data).
Proof.
  induction data as [| r data IH]; intros m l H; simpl.
  - now rewrite app_nil_r.
  - replace (l ++ r :: data) with ((l ++ [r]) ++ data) by (now rewrite <- app_assoc).
    apply IH. now apply groupStep_groups.
Qed.

(** The map that [groupByDay] builds: distinct keys, and under each key, in
    their order in the input, exactly the records whose sleep falls on that
    UTC date. *)
Lemma groupByDay_groups (data : list SleepRecord) : GroupsOf (groupByDay data) data.
Proof.
  unfold groupByDay. apply (fold_groupStep_groups data [] []).
  constructor; simpl; [constructor | tauto | tauto].
Qed.

Lemma NoDup_keys_unique (m : DayMap) (k : JsDate.CalDate) (rs1 rs2 : list SleepRecord) :
  NoDup (map fst m) -> In (k, rs1) m -> In (k, rs2) m -> rs1 = rs2.
Proof.
  induction m as [| [k0 rs0] m IH]; simpl; [tauto |].
  intros Hnd H1 H2. inversion Hnd as [| ? ? Hnotin Hnd']; subst.
  destruct H1 as [H1 | H1], H2 as [H2 | H2].
  - congruence.
  - inversion H1; subst. exfalso. apply Hnotin.
    change k with (fst (k, rs2)). now apply in_map.
  - inversion H2; subst. exfalso. apply Hnotin.
    change k with (fst (k, rs1)). now apply in_map.
  - now apply IH.
Qed.

Lemma in_keys_group (m : DayMap) (k : JsDate.CalDate) :
  In k (map fst m) -> exists rs, In (k, rs) m.
Proof.
  rewrite in_map_iff. intros [[k' rs] [Hk Hin]]. simpl in Hk. subst. eauto.
Qed.

Lemma count_occ_filter_true {A : Type} (dec : forall a b : A, {a = b} + {a <> b})
    (f : A -> bool) (l : list A) (x : A) :
  f x = true -> count_occ dec (filter f l) x = count_occ dec l x.
Proof.
  intros Hf. induction l as [| a l IH]; simpl; [reflexivity |].
  destruct (dec a x) as [-> | Hne].
  - rewrite Hf. simpl. destruct (dec x x); [now rewrite IH | congruence].
  - destruct (f a); simpl; [destruct (dec a x); [congruence | exact IH] | exact IH].
Qed.

(** C8 (as amended). Day grouping puts every record of the input in exactly
    one day group: the keys are pairwise distinct, the group of a key holds
    exactly the records whose key it is (as often as the input has them),
    and that key is the UTC calendar date of the instant the record's
    [sleep] timestamp denotes.  The [wake] timestamp plays no part. *)
Theorem C8_one_group_by_utc_sleep_date (data : list SleepRecord) :
  let groups := groupByDay data in
  NoDup (map fst groups)
  /\ (forall k rs, In (k, rs) groups ->
        rs <> [] /\ rs = filter (fun r => JsDate.CalDate_eqb (dateStr r) k) data)
  /\ (forall r, In r data ->
        exists rs, In (dateStr r, rs) groups
                   /\ count_occ SleepRecord_eq_dec rs r = count_occ SleepRecord_eq_dec data r
                   /\ forall k' rs', In (k', rs') groups -> In r rs' ->
                                     k' = dateStr r /\ rs' = rs)
  /\ (forall r, dateStr r
                = JsDate.civilFromDays (JsDate.parse (sleep r) / JsDate.msPerDay))
  /\ (forall s w w' n n' t t',
        dateStr (mkRecord s w n t) = dateStr (mkRecord s w' n' t')).
Proof.
  intros groups. destruct (groupByDay_groups data) as [Hnd Hfill Hcov].
  fold groups in Hnd, Hfill, Hcov.
  split; [exact Hnd |]. split; [exact Hfill |].
  split; [| split; intros; unfold dateStr, sleepTimeOf; reflexivity].
  intros r Hr.
  destruct (in_keys_group groups (dateStr r) (Hcov r Hr)) as [rs Hrs].
  exists rs. split; [exact Hrs |].
  destruct (Hfill _ _ Hrs) as [_ Hflt]. split.
  - rewrite Hflt. apply count_occ_filter_true. apply sameDay_dateStr.
  - intros k' rs' Hin' Hr'.
    destruct (Hfill _ _ Hin') as [_ Hflt'].
    rewrite Hflt' in Hr'. apply filter_In in Hr'. destruct Hr' as [_ Hk].
    apply CalDate_eqb_eq in Hk. subst k'. split; [reflexivity |].
    exact (NoDup_keys_unique groups _ _ _ Hnd Hin' Hrs).
Qed.

(** C8 as the specification states it, refuted: the record that falls asleep
    at 2024-01-01T23:30:00-05:00 is filed under 2024-01-02, the UTC date of
    that instant, and not under the date written in its own zone. *)
Lemma C8_counterexample :
  groupByDay [Samples.newYorkEvening] = [((2024, 1, 2), [Samples.newYorkEvening])]
  /\ JsDate.writtenDate (sleep Samples.newYorkEvening) = (2024, 1, 1)
  /\ ~ (forall k rs, In (k, rs) (groupByDay [Samples.newYorkEvening]) ->
        forall r, In r rs -> k = JsDate.writtenDate (sleep r)).
Proof.
  split; [reflexivity |]. split; [reflexivity |].
  intros H.
  specialize (H (2024, 1, 2) [Samples.newYorkEvening] (or_introl eq_refl)
                Samples.newYorkEvening (or_introl eq_refl)).
  discriminate H.
Qed.

(* ------------------------------------------------------------------ *)
(** ** Average sleep per day                                            *)
(* ------------------------------------------------------------------ *)

Lemma fold_elapsed (entries : list SleepRecord) (start : Z) :
  fold_left (fun total entry => total + (wakeTimeOf entry - sleepTimeOf entry)) entries start
  = start + Spec.sumZ (map Spec.elapsed entries).
Proof.
  revert start. induction entries as [| e entries IH]; intros start; simpl.
  - lia.
  - rewrite IH. unfold Spec.elapsed. lia.
Qed.

Lemma totalSleepTimeForDay_sum (entries : list SleepRecord) :
  totalSleepTimeForDay entries = Spec.sumZ (map Spec.elapsed entries).
Proof. unfold totalSleepTimeForDay. now rewrite fold_elapsed. Qed.

Lemma fold_dayStep (m : DayMap) (st : Z * Z) :
  fold_left dayStep m st
  = (fst st + Spec.sumZ (map (fun g => totalSleepTimeForDay (snd g)) m),
     snd st + Z.of_nat (length m)).
Proof.
  revert st. induction m as [| g m IH]; intros [t c]; simpl.
  - f_equal; lia.
  - rewrite IH. unfold dayStep. cbn [fst snd]. f_equal; lia.
Qed.

Lemma mapPush_total (k : JsDate.CalDate) (r : SleepRecord) (m : DayMap) :
  Spec.sumZ (map (fun g => totalSleepTimeForDay (snd g)) (mapPush k r m))
  = Spec.sumZ (map (fun g => totalSleepTimeForDay (snd g)) m) + Spec.elapsed r.
Proof.
  induction m as [| [k' rs] m IH]; simpl.
  - rewrite totalSleepTimeForDay_sum. simpl. lia.
  - destruct (JsDate.CalDate_eqb k k'); simpl.
    + rewrite !totalSleepTimeForDay_sum, map_app, sumZ_app. simpl. lia.
    + rewrite IH. lia.
Qed.

Lemma fold_groupStep_total (data : list SleepRecord) (m : DayMap) :
  Spec.sumZ (map (fun g => totalSleepTimeForDay (snd g)) (fold_left groupStep data m))
  = Spec.sumZ (map (fun g => totalSleepTimeForDay (snd g)) m)
    + Spec.sumZ (map Spec.elapsed data).
Proof.
  revert m. induction data as [| r data IH]; intros m; simpl.
  - lia.
  - rewrite IH. unfold groupStep. rewrite mapPush_total. lia.
Qed.

(** The number of day groups is the number of distinct dates in the input. *)
Lemma groupByDay_day_count (data : list SleepRecord) :
  length (groupByDay data) = length (nodup CalDate_eq_dec (map dateStr data)).
Proof.
  destruct (groupByDay_groups data) as [Hnd Hfill Hcov].
  rewrite <- (length_map fst (groupByDay data)).
  apply Permutation_length, NoDup_Permutation.
  - exact Hnd.
  - apply NoDup_nodup.
  - intros k. rewrite nodup_In. split.
    + intros Hk. destruct (in_keys_group _ _ Hk) as [rs Hrs].
      destruct (Hfill _ _ Hrs) as [Hne Hflt].
      destruct rs as [| r rs]; [congruence |].
      assert (Hr : In r (filter (sameDay k) data)) by (rewrite <- Hflt; now left).
      apply filter_In in Hr. destruct Hr as [Hr Hk'].
      apply CalDate_eqb_eq in Hk'. subst k. now apply in_map.
    + rewrite in_map_iff. intros [r [<- Hr]]. now apply Hcov.
Qed.

(** C7. The average sleep per day sums wake minus sleep over all records,
    naps included, grouped by the calendar day of their [sleep] timestamp,
    and divides by the number of days that have a record.  Two days of 7h
    and 9h give 8h; no records give not-a-number. *)
Theorem C7_average_sleep_per_day (records : list SleepRecord) :
  avgSleepPerDayMs records
  = jsdiv (inject_Z (Spec.sumZ (map Spec.elapsed records)))
          (inject_Z (Z.of_nat (length (nodup CalDate_eq_dec (map dateStr records)))))
  /\ Spec.sumZ (map (fun g => Spec.sumZ (map Spec.elapsed (snd g))) (groupByDay records))
     = Spec.sumZ (map Spec.elapsed records)
  /\ (forall k rs, In (k, rs) (groupByDay records) ->
        rs <> [] /\ rs = filter (fun r => JsDate.CalDate_eqb (dateStr r) k) records)
  /\ avgSleepPerDayMs Samples.sevenAndNine = Fin (inject_Z (8 * JsDate.msPerHour))
  /\ avgSleepPerDayMs [] = NaN.
Proof.
  assert (Htotal : Spec.sumZ (map (fun g => totalSleepTimeForDay (snd g)) (groupByDay records))
                   = Spec.sumZ (map Spec.elapsed records)).
  { unfold groupByDay. rewrite fold_groupStep_total. simpl. lia. }
  split; [| split; [| split; [| split; vm_compute; reflexivity]]].
  - unfold avgSleepPerDayMs. rewrite fold_dayStep. cbn [fst snd].
    rewrite Htotal, groupByDay_day_count. reflexivity.
  - rewrite <- Htotal. f_equal. apply map_ext. intros g.
    now rewrite totalSleepTimeForDay_sum.
  - apply (groupsFilled _ _ (groupByDay_groups records)).
Qed.

(* ------------------------------------------------------------------ *)
(** ** Main-sleep selection                                             *)
(* ------------------------------------------------------------------ *)

Section Selection.
Variable tz : Z.

Lemma getHours_range (t : Z) : 0 <= JsDate.getHours tz t < 24.
Proof. unfold JsDate.getHours. apply Z.mod_pos_bound. lia. Qed.

Lemma getMinutes_range (t : Z) : 0 <= JsDate.getMinutes tz t < 60.
Proof. unfold JsDate.getMinutes. apply Z.mod_pos_bound. lia. Qed.

Lemma clockMinutes_range (t : Z) : 0 <= clockMinutes tz t < 1440.
Proof.
  unfold clockMinutes.
  pose proof (getHours_range t). pose proof (getMinutes_range t). lia.
Qed.

Lemma clockHours_minutes (t : Z) :
  (clockHours tz t == inject_Z (clockMinutes tz t) / 60)%Q.
Proof.
  unfold clockHours, clockMinutes.
  rewrite inject_Z_plus, inject_Z_mult. field.
Qed.

Lemma duration_minutes (e : SleepRecord) :
  (duration tz e == inject_Z (durationMinutes tz e) / 60)%Q.
Proof.
  unfold duration, durationMinutes.
  pose proof (clockHours_minutes (sleepTimeOf e)) as Hs.
  pose proof (clockHours_minutes (wakeTimeOf e)) as Hw.
  set (s := clockMinutes tz (sleepTimeOf e)) in *.
  set (w := clockMinutes tz (wakeTimeOf e)) in *.
  destruct (Z.ltb_spec w s) as [Hlt | Hge].
  - assert (Hb : Qlt_bool (clockHours tz (wakeTimeOf e)) (clockHours tz (sleepTimeOf e)) = true).
    { apply Qlt_bool_iff. rewrite Hs, Hw.
      apply Qmult_lt_compat_r; [reflexivity |]. now rewrite <- Zlt_Qlt. }
    rewrite Hb, Hs, Hw.
    unfold Z.sub. rewrite !inject_Z_plus, inject_Z_opp. field.
  - assert (Hb : Qlt_bool (clockHours tz (wakeTimeOf e)) (clockHours tz (sleepTimeOf e)) = false).
    { apply Qlt_bool_false. rewrite Hs, Hw.
      apply Qmult_le_compat_r; [| discriminate]. now rewrite <- Zle_Qle. }
    rewrite Hb, Hs, Hw.
    unfold Z.sub. rewrite !inject_Z_plus, inject_Z_opp. field.
Qed.

Lemma durationMinutes_range (e : SleepRecord) : 0 <= durationMinutes tz e < 1440.
Proof.
  unfold durationMinutes.
  pose proof (clockMinutes_range (sleepTimeOf e)).
  pose proof (clockMinutes_range (wakeTimeOf e)).
  destruct (Z.ltb_spec (clockMinutes tz (wakeTimeOf e)) (clockMinutes tz (sleepTimeOf e))); lia.
Qed.

Lemma duration_lt (a b : SleepRecord) :
  (duration tz a < duration tz b)%Q <-> durationMinutes tz a < durationMinutes tz b.
Proof.
  rewrite !duration_minutes, Zlt_Qlt. split; intros H.
  - apply Qmult_lt_r with (z := (/ 60)%Q); [reflexivity | exact H].
  - apply Qmult_lt_compat_r; [reflexivity | exact H].
Qed.

Lemma duration_le (a b : SleepRecord) :
  (duration tz a <= duration tz b)%Q <-> durationMinutes tz a <= durationMinutes tz b.
Proof.
  rewrite !duration_minutes, Zle_Qle. split; intros H.
  - apply Qmult_le_r with (z := (/ 60)%Q); [reflexivity | exact H].
  - apply Qmult_le_compat_r; [exact H | discriminate].
Qed.

Lemma duration_nonneg (e : SleepRecord) : (0 <= duration tz e)%Q.
Proof.
  rewrite duration_minutes. pose proof (durationMinutes_range e) as [H _].
  apply Qle_shift_div_l; [reflexivity |]. rewrite Qmult_0_l.
  now rewrite (Zle_Qle 0) in H.
Qed.

(** The clock reading is the local time in whole minutes, modulo a day. *)
Lemma clockMinutes_local (t : Z) :
  clockMinutes tz t = (JsDate.localTime tz t / JsDate.msPerMinute) mod 1440.
Proof.
  unfold clockMinutes, JsDate.getHours, JsDate.getMinutes.
  set (l := JsDate.localTime tz t).
  change JsDate.msPerHour with (JsDate.msPerMinute * 60).
  rewrite <- Z.div_div by (unfold JsDate.msPerMinute; lia).
  set (a := l / JsDate.msPerMinute).
  change 1440 with (60 * 24).
  rewrite Z.rem_mul_r by lia. lia.
Qed.

Lemma durationMinutes_plain (e : SleepRecord) :
  plainRecord e -> durationMinutes tz e * JsDate.msPerMinute = Spec.elapsed e.
Proof.
  intros (Hs & Hw & Hel). unfold durationMinutes.
  rewrite !clockMinutes_local.
  unfold onWholeMinute, Spec.elapsed, JsDate.localTime, JsDate.msPerDay in *.
  set (s := sleepTimeOf e) in *. set (w := wakeTimeOf e) in *.
  rewrite !Z.div_add by (unfold JsDate.msPerMinute; lia).
  unfold JsDate.msPerMinute in *.
  pose proof (Z.div_mod s 60000 ltac:(lia)) as Es.
  pose proof (Z.div_mod w 60000 ltac:(lia)) as Ew.
  set (a := s / 60000) in *. set (b := w / 60000) in *.
  assert (Hab : 0 <= b - a < 1440) by lia.
  pose proof (Z.div_mod (a + tz) 1440 ltac:(lia)) as Ea.
  pose proof (Z.div_mod (b + tz) 1440 ltac:(lia)) as Eb.
  pose proof (Z.mod_pos_bound (a + tz) 1440 ltac:(lia)) as Ba.
  pose proof (Z.mod_pos_bound (b + tz) 1440 ltac:(lia)) as Bb.
  destruct (Z.ltb_spec ((b + tz) mod 1440) ((a + tz) mod 1440)); nia.
Qed.

(** The state of the selection loop after the entries [es], started from
    [(d0, e0)]: either nothing beat [d0], or the state is the first entry
    of greatest duration. *)
Lemma longest_fold (es : list SleepRecord) (d0 : Q) (e0 : SleepRecord) :
  let st := fold_left (longestStep tz) es (d0, e0) in
  ((d0 <= fst st)%Q /\ forall x, In x es -> (duration tz x <= fst st)%Q)
  /\ ((st = (d0, e0) /\ forall x, In x es -> (duration tz x <= d0)%Q)
      \/ exists pre m post,
           es = pre ++ m :: post /\ st = (duration tz m, m)
           /\ (d0 < duration tz m)%Q
           /\ (forall x, In x pre -> (duration tz x < duration tz m)%Q)
           /\ (forall x, In x post -> (duration tz x <= duration tz m)%Q)).
Proof.
  induction es as [| x es IH] using rev_ind; intros st.
  - subst st. simpl. split; [split; [apply Qle_refl | tauto] |].
    left. split; [reflexivity | tauto].
  - subst st. rewrite fold_left_app. cbn [fold_left].
    set (st := fold_left (longestStep tz) es (d0, e0)) in *.
    destruct IH as [[Hd0 Hall] Hcase].
    unfold longestStep.
    destruct (Qlt_bool (fst st) (duration tz x)) eqn:E.
    + apply Qlt_bool_iff in E. cbn [fst].
      split; [split |].
      * apply Qlt_le_weak. eapply Qle_lt_trans; eassumption.
      * intros y Hy. apply in_app_or in Hy. destruct Hy as [Hy | [<- | []]].
        -- apply Qlt_le_weak. eapply Qle_lt_trans; [apply Hall, Hy | exact E].
        -- apply Qle_refl.
      * right. exists es, x, []. repeat split.
        -- eapply Qle_lt_trans; eassumption.
        -- intros y Hy. eapply Qle_lt_trans; [apply Hall, Hy | exact E].
        -- intros y [].
    + apply Qlt_bool_false in E.
      split; [split |].
      * exact Hd0.
      * intros y Hy. apply in_app_or in Hy. destruct Hy as [Hy | [<- | []]]; auto.
      * destruct Hcase as [[Hst Hle] | (pre & m & post & Hes & Hst & Hlt & Hpre & Hpost)].
        -- left. split; [exact Hst |].
           intros y Hy. apply in_app_or in Hy. destruct Hy as [Hy | [<- | []]]; auto.
           rewrite Hst in E. exact E.
        -- right. exists pre, m, (post ++ [x]). repeat split; auto.
           ++ rewrite Hes, <- app_assoc. reflexivity.
           ++ intros y Hy. apply in_app_or in Hy. destruct Hy as [Hy | [<- | []]]; auto.
              rewrite Hst in E. exact E.
Qed.

(** The main sleep of a day is its first entry of greatest duration. *)
Lemma mainSleepOfDay_first_longest (es : list SleepRecord) :
  es <> [] ->
  exists pre m post,
    es = pre ++ m :: post /\ mainSleepOfDay tz es = Some m
    /\ (forall x, In x pre -> (duration tz x < duration tz m)%Q)
    /\ (forall x, In x post -> (duration tz x <= duration tz m)%Q).
Proof.
  destruct es as [| e0 [| e1 rest]]; [congruence | |]; intros _.
  - exists [], e0, []. simpl. repeat split; tauto.
  - set (es := e0 :: e1 :: rest).
    change (mainSleepOfDay tz es)
      with (Some (snd (fold_left (longestStep tz) es (0%Q, e0)))).
    destruct (longest_fold es 0%Q e0) as [_ Hcase].
    destruct Hcase as [[Hst Hle] | (pre & m & post & Hes & Hst & _ & Hpre & Hpost)].
    + exists [], e0, (e1 :: rest). rewrite Hst. simpl.
      repeat split; [tauto |].
      intros x Hx. eapply Qle_trans; [| apply duration_nonneg].
      apply Hle. now right.
    + exists pre, m, post. rewrite Hst. simpl. auto.
Qed.

(** An entry that is strictly longer than every other entry of the day is
    the main sleep, wherever it stands in the list. *)
Lemma mainSleepOfDay_strict_max (es : list SleepRecord) (m : SleepRecord) :
  In m es ->
  (forall x, In x es -> x <> m -> (duration tz x < duration tz m)%Q) ->
  mainSleepOfDay tz es = Some m.
Proof.
  intros Hin Hmax.
  destruct (mainSleepOfDay_first_longest es) as (pre & m' & post & Hes & Hsel & Hpre & Hpost).
  { intros ->. destruct Hin. }
  rewrite Hsel. f_equal.
  destruct (SleepRecord_eq_dec m' m) as [Heq | Hne]; [exact Heq | exfalso].
  assert (Hm' : In m' es) by (rewrite Hes; apply in_elt).
  pose proof (Hmax m' Hm' Hne) as Hlt.
  rewrite Hes in Hin. apply in_app_or in Hin.
  destruct Hin as [Hin | [Heq | Hin]].
  - apply Hpre in Hin. exact (Qlt_irrefl _ (Qlt_trans _ _ _ Hin Hlt)).
  - congruence.
  - apply Hpost in Hin. exact (Qlt_irrefl _ (Qle_lt_trans _ _ _ Hin Hlt)).
Qed.

Lemma duration_plain (e : SleepRecord) :
  plainRecord e ->
  (duration tz e == inject_Z (Spec.elapsed e) / inject_Z JsDate.msPerHour)%Q.
Proof.
  intros Hp. rewrite duration_minutes, <- (durationMinutes_plain e Hp).
  rewrite inject_Z_mult. unfold JsDate.msPerMinute, JsDate.msPerHour.
  field.
Qed.

Lemma plain_lt (a b : SleepRecord) :
  plainRecord a -> plainRecord b ->
  (duration tz a < duration tz b)%Q -> Spec.elapsed a < Spec.elapsed b.
Proof.
  intros Ha Hb H. apply duration_lt in H.
  rewrite <- (durationMinutes_plain a Ha), <- (durationMinutes_plain b Hb).
  unfold JsDate.msPerMinute. lia.
Qed.

Lemma plain_le (a b : SleepRecord) :
  plainRecord a -> plainRecord b ->
  (duration tz a <= duration tz b)%Q -> Spec.elapsed a <= Spec.elapsed b.
Proof.
  intros Ha Hb H. apply duration_le in H.
  rewrite <- (durationMinutes_plain a Ha), <- (durationMinutes_plain b Hb).
  unfold JsDate.msPerMinute. lia.
Qed.

End Selection.

Lemma sameClock_shift (tz t k s : Z) :
  0 <= JsDate.localTime tz t mod JsDate.msPerMinute + s < JsDate.msPerMinute ->
  sameClock tz t (t + k * JsDate.msPerDay + s).
Proof.
  intros Hs.
  assert (Hmin : JsDate.localTime tz (t + k * JsDate.msPerDay + s) / JsDate.msPerMinute
                 = JsDate.localTime tz t / JsDate.msPerMinute + k * 1440).
  { unfold JsDate.localTime, JsDate.msPerDay, JsDate.msPerMinute in *.
    set (l := t + tz * 60000) in *.
    replace (t + k * 86400000 + s + tz * 60000) with (l + s + (k * 1440) * 60000) by lia.
    rewrite Z.div_add by lia.
    pose proof (Z.div_mod l 60000 ltac:(lia)) as El.
    f_equal. symmetry. apply (Z.div_unique _ _ _ (l mod 60000 + s)); lia. }
  split.
  - unfold JsDate.getHours.
    change JsDate.msPerHour with (JsDate.msPerMinute * 60).
    rewrite <- !Z.div_div by (unfold JsDate.msPerMinute; lia).
    rewrite Hmin.
    replace (k * 1440) with (k * 24 * 60) by lia.
    rewrite Z.div_add by lia. rewrite Z.mod_add by lia. reflexivity.
  - unfold JsDate.getMinutes. rewrite Hmin.
    replace (k * 1440) with (k * 24 * 60) by lia.
    rewrite Z.mod_add by lia. reflexivity.
Qed.

Lemma duration_sameClock (tz : Z) (e1 e2 : SleepRecord) :
  sameClock tz (sleepTimeOf e1) (sleepTimeOf e2) ->
  sameClock tz (wakeTimeOf e1) (wakeTimeOf e2) ->
  duration tz e1 = duration tz e2.
Proof.
  intros [Hsh Hsm] [Hwh Hwm]. unfold duration, clockHours.
  now rewrite Hsh, Hsm, Hwh, Hwm.
Qed.

(** Of two entries of equal duration, the one met first stays selected. *)
Lemma mainSleepOfDay_tie (tz : Z) (e1 e2 : SleepRecord) :
  duration tz e1 = duration tz e2 -> mainSleepOfDay tz [e1; e2] = Some e1.
Proof.
  intros Heq. unfold mainSleepOfDay. cbn [fold_left]. unfold longestStep at 2. cbn [fst].
  destruct (Qlt_bool 0 (duration tz e1)) eqn:E0; unfold longestStep; cbn [fst].
  - rewrite <- Heq.
    rewrite (proj2 (Qlt_bool_false (duration tz e1) (duration tz e1)) (Qle_refl _)).
    reflexivity.
  - rewrite <- Heq, E0. reflexivity.
Qed.






(* ------------------------------------------------------------------ *)
(** ** Cycle length                                                     *)
(* ------------------------------------------------------------------ *)

Lemma cycleDays_unfold (d : Q) :
  cycleDays d
  = if Qlt_bool (Qabs (adjustedDrift d)) (inject_Z 60000) then Fin 0
    else mathAbs (mathRound (jsdiv (inject_Z HOURS_IN_DAY) (adjustedDrift d))).
Proof. reflexivity. Qed.

Lemma round_of_quotient (a b : Q) :
  ~ (b == 0)%Q ->
  mathAbs (mathRound (jsdiv a b)) = Fin (inject_Z (Z.abs (roundQ (a / b)))).
Proof.
  intros Hb. rewrite jsdiv_finite by exact Hb. unfold mathRound, mathAbs.
  rewrite (roundQ_comp _ _ (Qred_correct (a / b))). reflexivity.
Qed.

(** The division happens only on a drift of a minute or more, so the cycle
    length is always a finite whole number of days, zero or more. *)
Lemma cycleDays_finite (d : Q) :
  exists n : Z, 0 <= n /\ cycleDays d = Fin (inject_Z n).
Proof.
  rewrite cycleDays_unfold.
  destruct (Qlt_bool (Qabs (adjustedDrift d)) (inject_Z 60000)) eqn:E.
  - exists 0. split; [lia | reflexivity].
  - apply Qlt_bool_false in E.
    assert (Hnz : ~ (adjustedDrift d == 0)%Q).
    { intros H0. rewrite H0 in E. revert E. apply Qlt_not_le. reflexivity. }
    rewrite round_of_quotient by exact Hnz.
    eexists. split; [apply Z.abs_nonneg | reflexivity].
Qed.

Lemma adjustedDrift_small (d : Q) :
  (- inject_Z HOURS_IN_DAY < d)%Q -> (d < inject_Z HOURS_IN_DAY)%Q ->
  (adjustedDrift d == d)%Q.
Proof.
  intros Hlo Hhi. unfold adjustedDrift.
  assert (Hr : (jsrem d (inject_Z HOURS_IN_DAY) == d)%Q).
  { unfold jsrem. rewrite truncQ_small.
    - simpl. ring.
    - apply Qlt_shift_div_l; [reflexivity |]. simpl in *. lra.
    - apply Qlt_shift_div_r; [reflexivity |]. simpl in *. lra. }
  destruct (Qeq_bool (jsrem d (inject_Z HOURS_IN_DAY)) 0); [reflexivity | exact Hr].
Qed.

Lemma cycleDays_small (d : Q) :
  (- inject_Z HOURS_IN_DAY < d)%Q -> (d < inject_Z HOURS_IN_DAY)%Q ->
  cycleDays d
  = if Qlt_bool (Qabs d) (inject_Z 60000) then Fin 0
    else Fin (inject_Z (Z.abs (roundQ (inject_Z HOURS_IN_DAY / d)))).
Proof.
  intros Hlo Hhi. pose proof (adjustedDrift_small d Hlo Hhi) as Hadj.
  rewrite cycleDays_unfold.
  rewrite (Qlt_bool_comp _ (Qabs d)) by (now rewrite Hadj).
  destruct (Qlt_bool (Qabs d) (inject_Z 60000)) eqn:E; [reflexivity |].
  apply Qlt_bool_false in E.
  rewrite (jsdiv_comp _ _ d Hadj).
  apply round_of_quotient.
  intros H0. rewrite H0 in E. revert E. apply Qlt_not_le. reflexivity.
Qed.

(** For a positive drift the quotient is rounded with ties going up. *)
Lemma round_positive_drift (d : Q) :
  (0 < d)%Q ->
  Z.abs (roundQ (inject_Z HOURS_IN_DAY / d))
  = roundQ (inject_Z HOURS_IN_DAY / Qabs d).
Proof.
  intros Hd.
  assert (Habs : (Qabs d == d)%Q) by (apply Qabs_pos; lra).
  rewrite (roundQ_comp (inject_Z HOURS_IN_DAY / Qabs d) (inject_Z HOURS_IN_DAY / d))
    by (now rewrite Habs).
  apply Z.abs_eq. unfold roundQ.
  assert (Hq : (0 < inject_Z HOURS_IN_DAY / d)%Q).
  { apply Qlt_shift_div_l; [exact Hd |]. rewrite Qmult_0_l. reflexivity. }
  assert (H0 : (Qfloor 0 <= Qfloor (inject_Z HOURS_IN_DAY / d + (1 # 2)))%Z).
  { apply Qfloor_resp_le. lra. }
  exact H0.
Qed.

(** For a negative drift the quotient is rounded with ties going down. *)
Lemma round_negative_drift (d : Q) :
  (d < 0)%Q ->
  Z.abs (roundQ (inject_Z HOURS_IN_DAY / d))
  = Qceiling (inject_Z HOURS_IN_DAY / Qabs d - (1 # 2)).
Proof.
  intros Hd.
  assert (Habs : (Qabs d == - d)%Q) by (apply Qabs_neg; lra).
  assert (Hnz : ~ (d == 0)%Q) by lra.
  assert (Hx : (0 < inject_Z HOURS_IN_DAY / Qabs d)%Q).
  { apply Qlt_shift_div_l; [rewrite Habs; lra |]. rewrite Qmult_0_l. reflexivity. }
  assert (Heq : (inject_Z HOURS_IN_DAY / d + (1 # 2)
                 == - (inject_Z HOURS_IN_DAY / Qabs d - (1 # 2)))%Q).
  { rewrite Habs. field. exact Hnz. }
  unfold roundQ, Qceiling.
  rewrite (Qfloor_comp _ _ Heq).
  set (x := (inject_Z HOURS_IN_DAY / Qabs d - (1 # 2))%Q) in *.
  rewrite Z.abs_neq; [reflexivity |].
  assert (H0 : (Qfloor (- x) <= Qfloor (1 # 2))%Z).
  { apply Qfloor_resp_le. unfold x. lra. }
  exact H0.
Qed.




Ltac zconst :=
  unfold JsDate.msPerDay, JsDate.msPerHour, JsDate.msPerMinute; lia.

(* ------------------------------------------------------------------ *)
(** ** Predictions                                                      *)
(* ------------------------------------------------------------------ *)

Section Predictions.
Variable tz : Z.
Variables lastSleepHour lastSleepMinute : Z.
Variable visibleDriftData : DriftData.
Variable avgSleepDuration : Q.
Variable lastWakeTime : Z.

Local Abbreviation step :=
  (predictStep tz lastSleepHour lastSleepMinute visibleDriftData avgSleepDuration).
Local Abbreviation run :=
  (predictRun tz lastSleepHour lastSleepMinute visibleDriftData avgSleepDuration
              lastWakeTime).
Local Abbreviation loop :=
  (predictLoop tz lastSleepHour lastSleepMinute visibleDriftData avgSleepDuration
               lastWakeTime).
Local Abbreviation made :=
  (madeAt tz lastSleepHour lastSleepMinute visibleDriftData avgSleepDuration).

Lemma run_succ (n : nat) : run (S n) = step (run n) n.
Proof. unfold predictRun. rewrite seq_S, fold_left_app. reflexivity. Qed.

Lemma step_made (st : Z * list PredictedSleepRecord) (i : nat) :
  step st i = (pwake (made (fst st) i), snd st ++ [made (fst st) i]).
Proof. unfold predictStep, madeAt. cbn [pwake]. reflexivity. Qed.

Lemma run_length (n : nat) : length (snd (run n)) = n.
Proof.
  induction n as [| n IH]; [reflexivity |].
  rewrite run_succ, step_made. cbn [snd]. rewrite length_app, IH. simpl. lia.
Qed.

(** The loop variable [prevWakeTime] is the wake time of the last
    prediction made so far. *)
Lemma run_prev (n : nat) : fst (run n) = prevWakeAt (snd (run n)) lastWakeTime n.
Proof.
  destruct n as [| n].
  { unfold predictRun. cbn [seq fold_left fst snd prevWakeAt]. reflexivity. }
  rewrite run_succ, step_made. cbn [fst snd prevWakeAt].
  rewrite nth_error_app2 by (rewrite run_length; lia).
  rewrite run_length, Nat.sub_diag. cbn [nth_error]. reflexivity.
Qed.

Lemma run_prefix (n m : nat) :
  (n <= m)%nat -> exists rest, snd (run m) = snd (run n) ++ rest.
Proof.
  induction 1 as [| m Hle [rest IH]].
  - exists []. now rewrite app_nil_r.
  - exists (rest ++ [made (fst (run m)) m]).
    rewrite run_succ, step_made. cbn [snd]. now rewrite IH, app_assoc.
Qed.

Lemma prevWakeAt_prefix (l rest : list PredictedSleepRecord) (i : nat) :
  (i <= length l)%nat ->
  prevWakeAt (l ++ rest) lastWakeTime i = prevWakeAt l lastWakeTime i.
Proof.
  intros Hi. destruct i as [| j]; [reflexivity |]. simpl.
  now rewrite nth_error_app1 by lia.
Qed.

Lemma prevWakeAt_succ (l : list PredictedSleepRecord) (i : nat) (p : PredictedSleepRecord) :
  nth_error l i = Some p -> prevWakeAt l lastWakeTime (S i) = pwake p.
Proof. intros H. cbn [prevWakeAt]. now rewrite H. Qed.

(** Prediction [i] of a run of [days] steps is the record made at step [i]
    from the wake time of prediction [i - 1]. *)
Lemma loop_nth (days i : nat) :
  (i < days)%nat ->
  nth_error (loop days) i = Some (made (prevWakeAt (loop days) lastWakeTime i) i).
Proof.
  intros Hi. unfold predictLoop. fold (run days).
  destruct (run_prefix (S i) days ltac:(lia)) as [rest Hrest].
  destruct (run_prefix i (S i) ltac:(lia)) as [rest' Hrest'].
  rewrite Hrest, nth_error_app1 by (rewrite run_length; lia).
  rewrite prevWakeAt_prefix by (rewrite run_length; lia).
  rewrite run_succ, step_made. cbn [snd].
  rewrite nth_error_app2 by (rewrite run_length; lia).
  rewrite run_length, Nat.sub_diag. cbn [nth_error].
  rewrite prevWakeAt_prefix by (rewrite run_length; lia).
  now rewrite <- run_prev.
Qed.

Hypothesis hour_range : 0 <= lastSleepHour < 24.
Hypothesis minute_range : 0 <= lastSleepMinute < 60.

Lemma localTime_utc (l : Z) : JsDate.localTime tz (JsDate.utc tz l) = l.
Proof. unfold JsDate.localTime, JsDate.utc. lia. Qed.

(** The anchored time on the local clock: the day after the previous wake
    time, at the seed hour and minute, with the seconds and milliseconds of
    the previous wake time. *)
Lemma anchoredTime_local (prev : Z) :
  JsDate.localTime tz (anchoredTime tz lastSleepHour lastSleepMinute prev)
  = (JsDate.localTime tz prev / JsDate.msPerDay + 1) * JsDate.msPerDay
    + lastSleepHour * JsDate.msPerHour + lastSleepMinute * JsDate.msPerMinute
    + JsDate.localTime tz prev mod JsDate.msPerMinute.
Proof.
  unfold anchoredTime, JsDate.setMinutes, JsDate.setHours.
  rewrite !localTime_utc.
  set (l := JsDate.localTime tz (prev + HOURS_IN_DAY)).
  assert (Hl : l = JsDate.localTime tz prev + 1 * JsDate.msPerDay).
  { unfold l, JsDate.localTime, HOURS_IN_DAY, JsDate.msPerDay. lia. }
  set (p := JsDate.localTime tz prev) in *.
  assert (Hday : l / JsDate.msPerDay = p / JsDate.msPerDay + 1).
  { rewrite Hl. apply Z.div_add. zconst. }
  assert (Hmin : l mod JsDate.msPerMinute = p mod JsDate.msPerMinute).
  { rewrite Hl. change (1 * JsDate.msPerDay) with (1440 * JsDate.msPerMinute).
    apply Z.mod_add. zconst. }
  rewrite Hday.
  set (dayStart := (p / JsDate.msPerDay + 1) * JsDate.msPerDay).
  pose proof (Z.mod_pos_bound l JsDate.msPerHour ltac:(reflexivity)) as Bh.
  pose proof (Z.mod_pos_bound l JsDate.msPerMinute ltac:(reflexivity)) as Bm.
  assert (Hsub : (l mod JsDate.msPerHour) mod JsDate.msPerMinute = l mod JsDate.msPerMinute).
  { apply Z.mod_mod_divide. exists 60. reflexivity. }
  set (x := dayStart + lastSleepHour * JsDate.msPerHour + l mod JsDate.msPerHour).
  assert (Hq : x / JsDate.msPerHour = (p / JsDate.msPerDay + 1) * 24 + lastSleepHour).
  { symmetry. apply (Z.div_unique _ _ _ (l mod JsDate.msPerHour)); [lia |].
    unfold x, dayStart, JsDate.msPerDay, JsDate.msPerHour. lia. }
  assert (Hr : x mod JsDate.msPerMinute = l mod JsDate.msPerMinute).
  { unfold x, dayStart.
    replace ((p / JsDate.msPerDay + 1) * JsDate.msPerDay
             + lastSleepHour * JsDate.msPerHour + l mod JsDate.msPerHour)
      with (l mod JsDate.msPerHour
            + ((p / JsDate.msPerDay + 1) * 1440 + lastSleepHour * 60) * JsDate.msPerMinute)
      by (unfold JsDate.msPerDay, JsDate.msPerHour, JsDate.msPerMinute; lia).
    rewrite Z.mod_add by zconst. exact Hsub. }
  rewrite Hq, Hr, Hmin.
  unfold dayStart, JsDate.msPerDay, JsDate.msPerHour, JsDate.msPerMinute. lia.
Qed.

Lemma anchoredTime_clock (prev : Z) :
  JsDate.clockOf tz (anchoredTime tz lastSleepHour lastSleepMinute prev)
  = lastSleepHour * JsDate.msPerHour + lastSleepMinute * JsDate.msPerMinute
    + JsDate.localTime tz prev mod JsDate.msPerMinute.
Proof.
  unfold JsDate.clockOf. rewrite anchoredTime_local.
  pose proof (Z.mod_pos_bound (JsDate.localTime tz prev) JsDate.msPerMinute
                ltac:(reflexivity)) as Bm.
  set (c := JsDate.localTime tz prev mod JsDate.msPerMinute) in *.
  rewrite <- !Z.add_assoc, Z.add_comm, Z.mod_add by zconst.
  apply Z.mod_small.
  unfold JsDate.msPerDay, JsDate.msPerHour, JsDate.msPerMinute in *. lia.
Qed.

(** With a drift of whole milliseconds nothing is clipped, and the clock
    reading of a predicted wake time is the seed, plus the seconds carried
    from the previous wake time, plus the cumulative drift. *)
Lemma made_clock (prev : Z) (i : nat) (d : Z) :
  (sleepDrift visibleDriftData == inject_Z d)%Q ->
  JsDate.clockOf tz (pwake (made prev i))
  = (lastSleepHour * JsDate.msPerHour + lastSleepMinute * JsDate.msPerMinute
     + JsDate.localTime tz prev mod JsDate.msPerMinute
     + (Z.of_nat i + 1) * d) mod JsDate.msPerDay.
Proof.
  intros Hd. cbn [madeAt pwake].
  set (a := anchoredTime tz lastSleepHour lastSleepMinute prev).
  assert (Hw : JsDate.timeClip (inject_Z a + sleepDrift visibleDriftData
                                             * inject_Z (Z.of_nat i + 1))
               = a + d * (Z.of_nat i + 1)).
  { rewrite <- timeClip_inject. apply timeClip_comp.
    rewrite Hd, <- inject_Z_mult, <- inject_Z_plus. reflexivity. }
  rewrite Hw. unfold JsDate.clockOf.
  replace (JsDate.localTime tz (a + d * (Z.of_nat i + 1)))
    with (JsDate.localTime tz a + (Z.of_nat i + 1) * d)
    by (unfold JsDate.localTime; lia).
  rewrite <- Z.add_mod_idemp_l by zconst.
  pose proof (anchoredTime_clock prev) as Hc. unfold JsDate.clockOf in Hc.
  fold a in Hc. rewrite Hc. reflexivity.
Qed.

Lemma whole_minute_clock (t h m n k : Z) :
  JsDate.clockOf tz t
  = (h * JsDate.msPerHour + m * JsDate.msPerMinute + n * (k * JsDate.msPerMinute))
    mod JsDate.msPerDay ->
  JsDate.localTime tz t mod JsDate.msPerMinute = 0.
Proof.
  unfold JsDate.clockOf. generalize (JsDate.localTime tz t). intros w Hc.
  rewrite <- (Z.mod_mod_divide w JsDate.msPerDay JsDate.msPerMinute)
    by (exists 1440; reflexivity).
  rewrite Hc, Z.mod_mod_divide by (exists 1440; reflexivity).
  replace (h * JsDate.msPerHour + m * JsDate.msPerMinute + n * (k * JsDate.msPerMinute))
    with (0 + (h * 60 + m + n * k) * JsDate.msPerMinute)
    by (unfold JsDate.msPerHour, JsDate.msPerMinute; lia).
  rewrite Z.mod_add by zconst. reflexivity.
Qed.

(** With a drift of whole minutes and a last wake time on a whole minute,
    every predicted wake time falls on a whole minute. *)
Lemma prev_whole_minute (days : nat) (k : Z) :
  (sleepDrift visibleDriftData == inject_Z (k * JsDate.msPerMinute))%Q ->
  onWholeMinute lastWakeTime ->
  forall i, (i <= days)%nat ->
    JsDate.localTime tz (prevWakeAt (loop days) lastWakeTime i) mod JsDate.msPerMinute = 0.
Proof.
  intros Hd Hw.
  induction i as [| i IH]; intros Hi.
  - cbn [prevWakeAt]. unfold JsDate.localTime.
    rewrite Z.mod_add by zconst. exact Hw.
  - rewrite (prevWakeAt_succ _ _ _ (loop_nth days i ltac:(lia))).
    specialize (IH ltac:(lia)).
    pose proof (made_clock (prevWakeAt (loop days) lastWakeTime i) i _ Hd) as Hc.
    rewrite IH, Z.add_0_r in Hc.
    exact (whole_minute_clock _ _ _ _ _ Hc).
Qed.

End Predictions.




(** A drift that is not a whole number of milliseconds is cut when it is
    stored in a [Date]: with a drift of half a millisecond the first
    predicted wake time is the anchor itself. *)
Lemma prediction_drops_fraction :
  let cfg := mkConfig 90 true 1 14 in
  let anchor := anchoredTime 0 23 0 (JsDate.parse (Samples.utcIso 2024 1 4 7 0 0)) in
  (sleepDrift (calculateDrift (getMainSleepEntries 0 cfg Samples.halfMillisecond))
   == 1 # 2)%Q
  /\ exists p,
       generatePredictions 0 cfg Samples.halfMillisecond = Some [p]
       /\ pwake p = anchor
       /\ ~ (inject_Z (pwake p) == inject_Z anchor + (1 # 2) * inject_Z (0 + 1))%Q.
Proof.
  split; [reflexivity |].
  eexists. split; [vm_compute; reflexivity |].
  split; [reflexivity |].
  intros H. vm_compute in H. discriminate H.
Qed.

(* ------------------------------------------------------------------ *)
(** ** From the log to the main-sleep entries                           *)
(* ------------------------------------------------------------------ *)

Lemma insertBy_perm {A : Type} (key : A -> Z) (x : A) (l : list A) :
  Permutation (insertBy key x l) (x :: l).
Proof.
  induction l as [| y l IH]; simpl; [reflexivity |].
  destruct (key x <=? key y); [reflexivity |].
  rewrite IH. apply perm_swap.
Qed.

Lemma sortBy_perm {A : Type} (key : A -> Z) (l : list A) :
  Permutation (sortBy key l) l.
Proof.
  induction l as [| x l IH]; simpl; [reflexivity |].
  rewrite insertBy_perm. now constructor.
Qed.

Lemma sliceLast_incl {A : Type} (k : nat) (l : list A) (x : A) :
  In x (sliceLast k l) -> In x l.
Proof.
  unfold sliceLast. destruct (k =? 0)%nat; [trivial |].
  intros H. rewrite <- (firstn_skipn (length l - k) l).
  apply in_or_app. now right.
Qed.

Lemma sliceLast_nonempty {A : Type} (k : nat) (l : list A) :
  l <> [] -> (k < length l)%nat -> sliceLast k l <> [].
Proof.
  intros Hne Hk. unfold sliceLast.
  destruct (Nat.eqb_spec k 0) as [-> | Hk0]; [exact Hne |].
  intros Hnil. apply (f_equal (@length A)) in Hnil.
  rewrite length_skipn in Hnil. simpl in Hnil. lia.
Qed.

Lemma displayedData_nonempty (cfg : Config) (data : list SleepRecord) :
  data <> [] -> displayedData cfg data <> [].
Proof.
  intros Hne. unfold displayedData.
  destruct (0 <? maxEntries cfg)%nat; [| exact Hne].
  destruct (Nat.ltb_spec (maxEntries cfg) (length data)) as [Hlt | _]; [| exact Hne].
  now apply sliceLast_nonempty.
Qed.

Lemma groupByDay_nonempty (data : list SleepRecord) :
  data <> [] -> groupByDay data <> [].
Proof.
  destruct data as [| r data]; [congruence | intros _ Hnil].
  pose proof (groupsCover _ _ (groupByDay_groups (r :: data)) r (or_introl eq_refl)) as Hin.
  rewrite Hnil in Hin. destruct Hin.
Qed.

Section Pipeline.
Variable tz : Z.

Lemma mainSleepOfDay_some (es : list SleepRecord) :
  es <> [] -> exists e, mainSleepOfDay tz es = Some e /\ In e es.
Proof.
  intros Hne.
  destruct (mainSleepOfDay_first_longest tz es Hne) as (pre & m & post & Hes & Hsel & _).
  exists m. split; [exact Hsel |]. rewrite Hes. apply in_elt.
Qed.

(** What the days have pushed: one entry for each day that has a record. *)
Lemma fold_pushMain (groups : DayMap) (acc : list SleepRecord) :
  (forall k rs, In (k, rs) groups -> rs <> []) ->
  length (fold_left (pushMain tz) groups acc) = (length acc + length groups)%nat
  /\ forall e, In e (fold_left (pushMain tz) groups acc) ->
       In e acc \/ exists k rs, In (k, rs) groups /\ mainSleepOfDay tz rs = Some e.
Proof.
  revert acc. induction groups as [| [k rs] groups IH]; intros acc Hne; cbn [fold_left].
  - split; [simpl; lia | auto].
  - destruct (mainSleepOfDay_some rs (Hne k rs (or_introl eq_refl))) as (m & Hm & _).
    destruct (IH (pushMain tz acc (k, rs))) as [Hlen Hin].
    { intros k' rs' H'. apply (Hne k' rs'). now right. }
    unfold pushMain in Hlen, Hin |- *. cbn [snd] in *. rewrite Hm in *.
    split.
    + rewrite Hlen, length_app. simpl. lia.
    + intros e He. destruct (Hin e He) as [Hacc | (k' & rs' & Hg & Hsel)].
      * apply in_app_or in Hacc. destruct Hacc as [Hacc | [<- | []]]; [now left |].
        right. exists k, rs. split; [now left | exact Hm].
      * right. exists k', rs'. split; [now right | exact Hsel].
Qed.

(** Every entry that [getMainSleepEntries] returns is the main sleep of a
    day group of the input. *)
Lemma getMainSleepEntries_from_groups (cfg : Config) (data : list SleepRecord)
    (e : SleepRecord) :
  In e (getMainSleepEntries tz cfg data) ->
  exists k rs, In (k, rs) (groupByDay data) /\ mainSleepOfDay tz rs = Some e.
Proof.
  intros He. unfold getMainSleepEntries in He.
  assert (Hsorted : In e (sortBy sleepTimeOf (fold_left (pushMain tz) (groupByDay data) []))).
  { destruct (_ && _) in He; [now apply sliceLast_incl in He | exact He]. }
  apply (Permutation_in _ (sortBy_perm _ _)) in Hsorted.
  destruct (fold_pushMain (groupByDay data) []) as [_ Hin].
  { intros k rs Hg. apply (groupsFilled _ _ (groupByDay_groups data) k rs Hg). }
  destruct (Hin e Hsorted) as [[] | H]; exact H.
Qed.

Lemma getMainSleepEntries_nonempty (cfg : Config) (data : list SleepRecord) :
  data <> [] -> getMainSleepEntries tz cfg data <> [].
Proof.
  intros Hne. unfold getMainSleepEntries.
  set (pushed := fold_left (pushMain tz) (groupByDay data) []).
  assert (Hpushed : sortBy sleepTimeOf pushed <> []).
  { intros Hnil. apply (f_equal (@length SleepRecord)) in Hnil.
    rewrite (Permutation_length (sortBy_perm _ _)) in Hnil.
    destruct (fold_pushMain (groupByDay data) []) as [Hlen _].
    { intros k rs Hg. apply (groupsFilled _ _ (groupByDay_groups data) k rs Hg). }
    fold pushed in Hlen. rewrite Hlen in Hnil.
    pose proof (groupByDay_nonempty data Hne) as Hg.
    destruct (groupByDay data); [congruence | simpl in Hnil; lia]. }
  destruct (averagingDays cfg <? _)%nat; [| exact Hpushed].
  destruct (Nat.ltb_spec (averagingDays cfg) (length (sortBy sleepTimeOf pushed)))
    as [Hlt | _]; [| exact Hpushed].
  now apply sliceLast_nonempty.
Qed.

Lemma predictLoop_length (h m : Z) (dd : DriftData) (avg : Q) (w : Z) (days : nat) :
  length (predictLoop tz h m dd avg w days) = days.
Proof. apply run_length. Qed.

(** [generatePredictions] always returns: the displayed list it reads its
    last entry from is never empty.  When predictions are on, it is the
    prediction loop run from the last displayed main sleep, whose sleep
    time gives the seed hour and minute, and it makes [predictionDays]
    records. *)
Lemma generatePredictions_runs_loop (cfg : Config) (sleepData : list SleepRecord) :
  sleepData <> [] -> showPredictions cfg = true -> predictionDays cfg <> 0%nat ->
  let displayed := getMainSleepEntries tz cfg (displayedData cfg sleepData) in
  exists lastVisibleEntry front,
    displayed = front ++ [lastVisibleEntry]
    /\ 0 <= JsDate.getHours tz (sleepTimeOf lastVisibleEntry) < 24
    /\ 0 <= JsDate.getMinutes tz (sleepTimeOf lastVisibleEntry) < 60
    /\ generatePredictions tz cfg sleepData
       = Some (predictLoop tz
                 (JsDate.getHours tz (sleepTimeOf lastVisibleEntry))
                 (JsDate.getMinutes tz (sleepTimeOf lastVisibleEntry))
                 (calculateDrift displayed)
                 (inject_Z (totalSleepDuration displayed)
                  / inject_Z (Z.of_nat (length displayed)))
                 (wakeTimeOf lastVisibleEntry) (predictionDays cfg)).
Proof.
  intros Hne Hshow Hdays displayed.
  pose proof (getMainSleepEntries_nonempty cfg _ (displayedData_nonempty cfg _ Hne)) as Hd.
  fold displayed in Hd.
  destruct (exists_last Hd) as (front & lastVisibleEntry & Hlast).
  exists lastVisibleEntry, front. split; [exact Hlast |].
  split; [apply getHours_range |]. split; [apply getMinutes_range |].
  unfold generatePredictions. rewrite Hshow.
  destruct (Nat.eqb_spec (length sleepData) 0) as [H0 | _].
  { destruct sleepData; [congruence | discriminate H0]. }
  destruct (Nat.eqb_spec (predictionDays cfg) 0) as [H0 | _]; [congruence |].
  cbn [orb negb].
  pose proof (getMainSleepEntries_nonempty cfg _ Hne) as Hall.
  destruct (getMainSleepEntries tz cfg sleepData); [congruence |].
  fold displayed. rewrite Hlast at 1. rewrite rev_app_distr. cbn [rev app].
  reflexivity.
Qed.

Lemma generatePredictions_defined (cfg : Config) (sleepData : list SleepRecord) :
  exists predictions, generatePredictions tz cfg sleepData = Some predictions.
Proof.
  destruct sleepData as [| r data].
  { eexists. reflexivity. }
  destruct (showPredictions cfg) eqn:Hshow.
  - destruct (Nat.eq_dec (predictionDays cfg) 0) as [H0 | H0].
    + unfold generatePredictions. rewrite H0, Hshow. eexists. reflexivity.
    + destruct (generatePredictions_runs_loop cfg (r :: data)) as (l & f & _ & _ & _ & H);
        [discriminate | exact Hshow | exact H0 |].
      eexists. exact H.
  - unfold generatePredictions. rewrite Hshow. eexists. reflexivity.
Qed.

(** The average is a number as soon as there is a record; the early return
    of [updateNon24Info] on fewer than two records comes before it. *)
Lemma avgSleepPerDayMs_finite (records : list SleepRecord) :
  records <> [] -> exists q, avgSleepPerDayMs records = Fin q.
Proof.
  intros Hne. unfold avgSleepPerDayMs. rewrite fold_dayStep. cbn [fst snd].
  pose proof (groupByDay_nonempty records Hne) as Hg.
  eexists. apply jsdiv_finite.
  destruct (groupByDay records); [congruence |].
  cbn [length]. intros H0.
  assert (Hpos : (0 < inject_Z (0 + Z.of_nat (S (length d))))%Q).
  { rewrite <- (Zlt_Qlt 0). lia. }
  rewrite H0 in Hpos. exact (Qlt_irrefl _ Hpos).
Qed.

Lemma updateNon24Info_guard (cfg : Config) (sleepData : list SleepRecord) :
  (length sleepData < 2)%nat -> updateNon24Info tz cfg sleepData = None.
Proof.
  intros Hn. unfold updateNon24Info.
  destruct (Nat.ltb_spec (length sleepData) 2) as [_ | Hge]; [reflexivity | lia].
Qed.

End Pipeline.

(* ------------------------------------------------------------------ *)
(** ** A log of five nights                                             *)
(* ------------------------------------------------------------------ *)

(** Five nights from 23:00, each half an hour later and eight hours long:
    the drift is +30 minutes a day, the cycle is 48 days, and the two
    predictions wake at 01:30 and 02:00 on the clock, the seed 01:00 plus
    once and twice the drift, each after eight hours of sleep. *)
Example five_nights_end_to_end :
  let cfg := mkConfig 90 true 2 14 in
  let entries := getMainSleepEntries 0 cfg Samples.fiveNights in
  entries = Samples.fiveNights
  /\ (sleepDrift (calculateDrift entries) == inject_Z (30 * JsDate.msPerMinute))%Q
  /\ cycleDays (sleepDrift (calculateDrift entries)) = Fin (inject_Z 48)
  /\ option_map (map (fun p => (JsDate.clockOf 0 (psleep p), JsDate.clockOf 0 (pwake p))))
                (generatePredictions 0 cfg Samples.fiveNights)
     = Some [ (17 * JsDate.msPerHour + 30 * JsDate.msPerMinute,
               1 * JsDate.msPerHour + 30 * JsDate.msPerMinute);
              (18 * JsDate.msPerHour, 2 * JsDate.msPerHour) ].
Proof.
  repeat split; vm_compute; reflexivity.
Qed.

(* ------------------------------------------------------------------ *)
(** ** The order and the window of the main-sleep entries               *)
(* ------------------------------------------------------------------ *)

Lemma insertBy_sorted {A : Type} (key : A -> Z) (x : A) (l : list A) :
  StronglySorted (fun a b => key a <= key b) l ->
  StronglySorted (fun a b => key a <= key b) (insertBy key x l).
Proof.
  induction 1 as [| y l Hs IH Hall]; cbn [insertBy].
  - constructor; constructor.
  - destruct (Z.leb_spec (key x) (key y)) as [Hle | Hgt].
    + constructor; [now constructor |].
      constructor; [exact Hle |].
      rewrite Forall_forall in Hall |- *. intros z Hz. specialize (Hall z Hz). lia.
    + constructor; [exact IH |].
      rewrite Forall_forall in Hall |- *. intros z Hz.
      apply (Permutation_in _ (insertBy_perm key x l)) in Hz.
      destruct Hz as [<- | Hz]; [lia | now apply Hall].
Qed.

Lemma sortBy_sorted {A : Type} (key : A -> Z) (l : list A) :
  StronglySorted (fun a b => key a <= key b) (sortBy key l).
Proof.
  induction l as [| x l IH]; cbn [sortBy fold_right]; [constructor |].
  now apply insertBy_sorted.
Qed.

Lemma skipn_sorted {A : Type} (R : A -> A -> Prop) (n : nat) (l : list A) :
  StronglySorted R l -> StronglySorted R (skipn n l).
Proof.
  revert l. induction n as [| n IH]; intros l Hs; [exact Hs |].
  destruct l as [| x l]; [constructor |].
  apply StronglySorted_inv in Hs. apply IH, Hs.
Qed.

Lemma sliceLast_sorted {A : Type} (R : A -> A -> Prop) (k : nat) (l : list A) :
  StronglySorted R l -> StronglySorted R (sliceLast k l).
Proof.
  intros Hs. unfold sliceLast. destruct (k =? 0)%nat; [exact Hs |].
  now apply skipn_sorted.
Qed.

Lemma sliceLast_suffix {A : Type} (k : nat) (l : list A) :
  exists front, l = front ++ sliceLast k l.
Proof.
  unfold sliceLast. destruct (k =? 0)%nat.
  - exists []. reflexivity.
  - exists (firstn (length l - k) l). symmetry. apply firstn_skipn.
Qed.

Lemma sliceLast_all {A : Type} (k : nat) (l : list A) :
  (length l <= k)%nat -> sliceLast k l = l.
Proof.
  intros Hk. unfold sliceLast. destruct (k =? 0)%nat; [reflexivity |].
  replace (length l - k)%nat with 0%nat by lia. reflexivity.
Qed.

Lemma sliceLast_length {A : Type} (k : nat) (l : list A) :
  (1 <= k)%nat -> length (sliceLast k l) = Nat.min k (length l).
Proof.
  intros Hk. unfold sliceLast.
  destruct (Nat.eqb_spec k 0) as [H0 | _]; [lia |].
  rewrite length_skipn. lia.
Qed.

(** [setSize] counts the distinct elements. *)
Lemma setSize_distinct (xs seen : list JsDate.CalDate) :
  NoDup seen ->
  exists l, NoDup l /\ (forall x, In x l <-> In x xs \/ In x seen)
            /\ setSize xs seen = length l.
Proof.
  revert seen. induction xs as [| x xs IH]; intros seen Hnd; cbn [setSize].
  - exists seen. split; [exact Hnd |]. split; [| reflexivity].
    intros x. simpl. tauto.
  - destruct (existsb (JsDate.CalDate_eqb x) seen) eqn:E.
    + apply existsb_exists in E. destruct E as (y & Hy & Heq).
      apply CalDate_eqb_eq in Heq. subst y.
      destruct (IH seen Hnd) as (l & Hl & Hin & Hlen).
      exists l. split; [exact Hl |]. split; [| exact Hlen].
      intros z. rewrite Hin. simpl. intuition (subst; auto).
    + assert (Hnot : ~ In x seen).
      { intros Hx. assert (Ht : existsb (JsDate.CalDate_eqb x) seen = true).
        { apply existsb_exists. exists x. split; [exact Hx | apply CalDate_eqb_refl]. }
        congruence. }
      destruct (IH (x :: seen)) as (l & Hl & Hin & Hlen); [now constructor |].
      exists l. split; [exact Hl |]. split; [| exact Hlen].
      intros z. rewrite Hin. simpl. tauto.
Qed.

Lemma setSize_nodup_list (xs : list JsDate.CalDate) :
  NoDup xs -> setSize xs [] = length xs.
Proof.
  intros Hnd. destruct (setSize_distinct xs [] (NoDup_nil _)) as (l & Hl & Hin & Hlen).
  rewrite Hlen. apply Permutation_length, NoDup_Permutation; [exact Hl | exact Hnd |].
  intros x. rewrite Hin. simpl. tauto.
Qed.

Lemma setSize_count (xs : list JsDate.CalDate) :
  setSize xs [] = length (nodup CalDate_eq_dec xs).
Proof.
  destruct (setSize_distinct xs [] (NoDup_nil _)) as (l & Hl & Hin & Hlen).
  rewrite Hlen. apply Permutation_length, NoDup_Permutation.
  - exact Hl.
  - apply NoDup_nodup.
  - intros x. rewrite Hin, nodup_In. simpl. tauto.
Qed.

Section Window.
Variable tz : Z.

(** Before sorting, the days have pushed their main sleeps in the order of
    the day map: the dates of the entries are the keys of the map. *)
Lemma fold_pushMain_dates (groups : DayMap) (acc : list SleepRecord) :
  (forall k rs, In (k, rs) groups -> rs <> [] /\ forall r, In r rs -> dateStr r = k) ->
  map dateStr (fold_left (pushMain tz) groups acc) = map dateStr acc ++ map fst groups.
Proof.
  revert acc. induction groups as [| [k rs] groups IH]; intros acc Hg; cbn [fold_left].
  - cbn [map]. now rewrite app_nil_r.
  - destruct (Hg k rs (or_introl eq_refl)) as [Hne Hkey].
    destruct (mainSleepOfDay_some tz rs Hne) as (m & Hm & Hin).
    rewrite IH by (intros k' rs' H'; apply Hg; now right).
    unfold pushMain. cbn [snd]. rewrite Hm, map_app. cbn [map fst].
    rewrite (Hkey m Hin), <- app_assoc. reflexivity.
Qed.

Lemma groupByDay_keyed (data : list SleepRecord) :
  forall k rs, In (k, rs) (groupByDay data) ->
    rs <> [] /\ forall r, In r rs -> dateStr r = k /\ In r data.
Proof.
  intros k rs Hin.
  destruct (groupsFilled _ _ (groupByDay_groups data) k rs Hin) as [Hne Hflt].
  split; [exact Hne |]. intros r Hr. rewrite Hflt in Hr.
  apply filter_In in Hr. destruct Hr as [Hd Hk].
  apply CalDate_eqb_eq in Hk. auto.
Qed.

Lemma sortedMainSleepEntries_dates (data : list SleepRecord) :
  Permutation (map dateStr (sortedMainSleepEntries tz data))
              (map fst (groupByDay data)).
Proof.
  unfold sortedMainSleepEntries.
  rewrite (Permutation_map dateStr (sortBy_perm sleepTimeOf _)).
  rewrite fold_pushMain_dates; [reflexivity |].
  intros k rs Hin. destruct (groupByDay_keyed data k rs Hin) as [Hne Hk].
  split; [exact Hne |]. intros r Hr. now apply Hk.
Qed.

Lemma sortedMainSleepEntries_count (data : list SleepRecord) :
  length (sortedMainSleepEntries tz data)
  = length (nodup CalDate_eq_dec (map dateStr data))
  /\ setSize (map dateStr (sortedMainSleepEntries tz data)) []
     = length (sortedMainSleepEntries tz data).
Proof.
  pose proof (sortedMainSleepEntries_dates data) as Hp.
  split.
  - rewrite <- groupByDay_day_count, <- (length_map fst), <- (Permutation_length Hp).
    now rewrite length_map.
  - rewrite setSize_nodup_list; [now rewrite length_map |].
    apply (Permutation_NoDup (Permutation_sym Hp)).
    apply (keysDistinct _ _ (groupByDay_groups data)).
Qed.

(** [getMainSleepEntries] is the sorted list cut to its last
    [averagingDays] entries; both conditions of the source are one. *)
Lemma getMainSleepEntries_window (cfg : Config) (data : list SleepRecord) :
  getMainSleepEntries tz cfg data
  = sliceLast (averagingDays cfg) (sortedMainSleepEntries tz data).
Proof.
  unfold getMainSleepEntries. fold (sortedMainSleepEntries tz data).
  destruct (sortedMainSleepEntries_count data) as [_ Hsize]. rewrite Hsize.
  rewrite andb_diag.
  destruct (Nat.ltb_spec (averagingDays cfg) (length (sortedMainSleepEntries tz data)))
    as [Hlt | Hge]; [reflexivity |].
  symmetry. now apply sliceLast_all.
Qed.

End Window.

Lemma getMainSleepEntries_dates_nodup (tz : Z) (cfg : Config) (data : list SleepRecord) :
  NoDup (map dateStr (getMainSleepEntries tz cfg data)).
Proof.
  rewrite getMainSleepEntries_window.
  destruct (sliceLast_suffix (averagingDays cfg) (sortedMainSleepEntries tz data))
    as [front Hfront].
  assert (Hnd : NoDup (map dateStr (sortedMainSleepEntries tz data))).
  { apply (Permutation_NoDup (Permutation_sym (sortedMainSleepEntries_dates tz data))).
    apply (keysDistinct _ _ (groupByDay_groups data)). }
  rewrite Hfront, map_app in Hnd. now apply NoDup_app_remove_l in Hnd.
Qed.

Lemma getMainSleepEntries_of_day (tz : Z) (cfg : Config) (data : list SleepRecord)
    (e : SleepRecord) :
  In e (getMainSleepEntries tz cfg data) ->
  In e data
  /\ exists rs, In (dateStr e, rs) (groupByDay data) /\ mainSleepOfDay tz rs = Some e.
Proof.
  intros He.
  destruct (getMainSleepEntries_from_groups tz cfg data e He) as (k & rs & Hg & Hsel).
  destruct (groupByDay_keyed data k rs Hg) as [Hne Hk].
  destruct (mainSleepOfDay_some tz rs Hne) as (m & Hm & Hin).
  assert (m = e) by congruence. subst m.
  destruct (Hk e Hin) as [Hdate Hdata].
  split; [exact Hdata |]. exists rs. now rewrite Hdate.
Qed.

Lemma sorted_distinct_days (l : list SleepRecord) :
  StronglySorted bySleepTime l -> NoDup (map dateStr l) ->
  StronglySorted (fun a b => dayNumber a < dayNumber b) l.
Proof.
  induction 1 as [| a l Hs IH Hall]; intros Hnd; [constructor |].
  cbn [map] in Hnd. apply NoDup_cons_iff in Hnd. destruct Hnd as [Hnot Hnd].
  constructor; [now apply IH |].
  rewrite Forall_forall in Hall |- *. intros b Hb.
  specialize (Hall b Hb). unfold bySleepTime in Hall.
  assert (Hle : dayNumber a <= dayNumber b).
  { unfold dayNumber. apply Z.div_le_mono; [reflexivity | exact Hall]. }
  assert (Hneq : dayNumber a <> dayNumber b).
  { intros Heq. apply Hnot. apply in_map_iff. exists b. split; [| exact Hb].
    unfold dateStr, JsDate.toISODate. unfold dayNumber in Heq. now rewrite Heq. }
  lia.
Qed.

(** X1. Whatever the order of the log, the entries that
    [getMainSleepEntries] returns are in chronological order of their sleep
    timestamps, and they start on strictly increasing UTC days: the pairs
    that [calculateDrift] compares are entries of two different days, the
    earlier one first. *)
Theorem getMainSleepEntries_sorted (tz : Z) (cfg : Config) (data : list SleepRecord) :
  StronglySorted bySleepTime (getMainSleepEntries tz cfg data)
  /\ StronglySorted (fun a b => dayNumber a < dayNumber b)
                    (getMainSleepEntries tz cfg data).
Proof.
  assert (Hs : StronglySorted bySleepTime (getMainSleepEntries tz cfg data)).
  { rewrite getMainSleepEntries_window. apply sliceLast_sorted.
    apply (sortBy_sorted sleepTimeOf). }
  split; [exact Hs |].
  apply sorted_distinct_days; [exact Hs | apply getMainSleepEntries_dates_nodup].
Qed.

(** X2. [getMainSleepEntries] returns at most one entry per calendar day:
    the dates of its entries are pairwise distinct, each entry is a record
    of the input, and it is the main sleep of the day group of its date. *)
Theorem getMainSleepEntries_one_per_day (tz : Z) (cfg : Config) (data : list SleepRecord) :
  NoDup (map dateStr (getMainSleepEntries tz cfg data))
  /\ forall e, In e (getMainSleepEntries tz cfg data) ->
       In e data
       /\ exists rs, In (dateStr e, rs) (groupByDay data)
                     /\ mainSleepOfDay tz rs = Some e.
Proof.
  split; [apply getMainSleepEntries_dates_nodup | apply getMainSleepEntries_of_day].
Qed.

(** X3. The averaging window is a trailing one: with [averagingDays] at
    least 1, [getMainSleepEntries] returns the last
    [min(averagingDays, days)] entries of the chronological list of all
    main sleeps, [days] being the number of distinct dates in the input. *)
Theorem getMainSleepEntries_trailing_window
    (tz : Z) (cfg : Config) (data : list SleepRecord) :
  (1 <= averagingDays cfg)%nat ->
  let days := length (nodup CalDate_eq_dec (map dateStr data)) in
  length (sortedMainSleepEntries tz data) = days
  /\ length (getMainSleepEntries tz cfg data) = Nat.min (averagingDays cfg) days
  /\ exists older,
       sortedMainSleepEntries tz data = older ++ getMainSleepEntries tz cfg data.
Proof.
  intros Hk days. destruct (sortedMainSleepEntries_count tz data) as [Hlen _].
  fold days in Hlen. rewrite getMainSleepEntries_window.
  split; [exact Hlen |]. split.
  - rewrite sliceLast_length by exact Hk. now rewrite Hlen.
  - apply sliceLast_suffix.
Qed.

Lemma X3_witness :
  length (getMainSleepEntries 0 (mkConfig 90 true 30 2) Samples.fiveNights) = 2%nat.
Proof.
  destruct (getMainSleepEntries_trailing_window 0 (mkConfig 90 true 30 2) Samples.fiveNights)
    as (_ & Hlen & _).
  - cbn [averagingDays]. lia.
  - rewrite Hlen. vm_compute. reflexivity.
Defined.

(** X4. After [loadData] has stored a log, [averagingDays] is the number of
    its distinct dates, and [getMainSleepEntries] on that log keeps the
    main sleep of every day: no entry is cut by the averaging window. *)
Theorem loadData_keeps_every_day (tz : Z) (st : ChartState) (json : list SleepRecord) :
  let st' := loadData st json in
  sleepData st' = json
  /\ averagingDays (config st') = length (nodup CalDate_eq_dec (map dateStr json))
  /\ getMainSleepEntries tz (config st') json = sortedMainSleepEntries tz json
  /\ length (getMainSleepEntries tz (config st') json) = averagingDays (config st').
Proof.
  intros st'.
  assert (Havg : averagingDays (config st')
                 = length (nodup CalDate_eq_dec (map dateStr json))).
  { cbn [st' loadData config withAveragingDays averagingDays]. apply setSize_count. }
  destruct (sortedMainSleepEntries_count tz json) as [Hlen _].
  assert (Hall : getMainSleepEntries tz (config st') json = sortedMainSleepEntries tz json).
  { rewrite getMainSleepEntries_window. apply sliceLast_all. rewrite Havg, Hlen. lia. }
  split; [reflexivity |]. split; [exact Havg |]. split; [exact Hall |].
  now rewrite Hall, Hlen, Havg.
Qed.

(** X5. The window on the log is written in two ways, with and without a
    test on the length of the log; both give the same records. *)
Theorem filteredData_is_displayedData (cfg : Config) (sleepData : list SleepRecord) :
  filteredData cfg sleepData = displayedData cfg sleepData.
Proof.
  unfold filteredData, displayedData.
  destruct (0 <? maxEntries cfg)%nat; [| reflexivity]. cbn [andb].
  destruct (Nat.ltb_spec (maxEntries cfg) (length sleepData)) as [Hlt | Hge];
    [reflexivity |].
  now apply sliceLast_all.
Qed.

(* ------------------------------------------------------------------ *)
(** ** The setters and [loadData]                                       *)
(* ------------------------------------------------------------------ *)

Lemma isInteger_integerOf (x : jsnum) :
  isInteger x = true -> exists q, x = Fin q /\ (q == inject_Z (integerOf x))%Q.
Proof.
  destruct x as [q | | |]; try discriminate. intros H.
  exists q. split; [reflexivity |]. cbn [integerOf].
  apply Qeq_bool_iff in H. now rewrite H.
Qed.

Lemma setDayStartHour_range (st : ChartState) (hour : jsnum) :
  0 <= dayStartHour st <= 23 -> 0 <= dayStartHour (setDayStartHour st hour) <= 23.
Proof.
  intros Hst. unfold setDayStartHour.
  destruct (jsLt hour 0) eqn:Elt; [exact Hst |].
  destruct (jsGt hour 23) eqn:Egt; [exact Hst |].
  destruct (isInteger hour) eqn:Eint; [| exact Hst].
  cbn [orb negb dayStartHour].
  destruct (isInteger_integerOf hour Eint) as (q & -> & Hq).
  cbn [jsLt jsGt] in Elt, Egt.
  apply Qlt_bool_false in Elt, Egt. rewrite Hq in Elt, Egt.
  change (0%Q) with (inject_Z 0) in Elt. change (23%Q) with (inject_Z 23) in Egt.
  rewrite <- Zle_Qle in Elt, Egt. lia.
Qed.

Lemma setAveragingDays_positive (st : ChartState) (days : jsnum) :
  (averagingDays (config st) = 0%nat -> sleepData st = []) ->
  averagingDays (config (setAveragingDays st days)) = 0%nat ->
  sleepData (setAveragingDays st days) = [].
Proof.
  intros Hst. unfold setAveragingDays.
  destruct (jsLt days 1) eqn:Elt; [exact Hst |].
  destruct (isInteger days) eqn:Eint; [| exact Hst].
  cbn [orb negb config withConfig withAveragingDays averagingDays sleepData].
  destruct (isInteger_integerOf days Eint) as (q & -> & Hq).
  cbn [jsLt] in Elt. apply Qlt_bool_false in Elt. rewrite Hq in Elt.
  change (1%Q) with (inject_Z 1) in Elt. rewrite <- Zle_Qle in Elt.
  intros H0. lia.
Qed.

Lemma setSize_zero (xs : list JsDate.CalDate) : setSize xs [] = 0%nat -> xs = [].
Proof.
  rewrite setSize_count. destruct xs as [| x xs]; [reflexivity |].
  intros H0. apply length_zero_iff_nil in H0.
  assert (Hin : In x (nodup CalDate_eq_dec (x :: xs))) by (apply nodup_In; now left).
  rewrite H0 in Hin. destruct Hin.
Qed.


(* ------------------------------------------------------------------ *)
(** ** What the drift depends on                                        *)
(* ------------------------------------------------------------------ *)

Lemma driftPart_shift (x k : Z) : driftPart (x + k * HOURS_IN_DAY) = driftPart x.
Proof.
  rewrite !driftPart_signedFold. unfold Spec.signedFold.
  rewrite !normalize24_is_mod, Z.mod_add by (pose proof day_positive; lia).
  reflexivity.
Qed.

Lemma fold_left_ext_in {A B : Type} (f g : A -> B -> A) (l : list B) (a : A) :
  (forall acc x, In x l -> f acc x = g acc x) -> fold_left f l a = fold_left g l a.
Proof.
  revert a. induction l as [| x l IH]; intros a H; [reflexivity |].
  cbn [fold_left]. rewrite (H a x (or_introl eq_refl)).
  apply IH. intros acc y Hy. apply H. now right.
Qed.

Lemma Forall2_at (R : SleepRecord -> SleepRecord -> Prop)
    (l l' : list SleepRecord) (i : nat) :
  Forall2 R l l' -> (i < length l)%nat -> R (at_ l i) (at_ l' i).
Proof.
  intros H. revert i. induction H as [| a b l l' Hab _ IH]; intros i Hi.
  - simpl in Hi. lia.
  - destruct i as [| i]; [exact Hab |]. apply IH. simpl in Hi. lia.
Qed.

Lemma shifted_difference (a b j j' day : Z) :
  a + j * day - (b + j' * day) = a - b + (j - j') * day.
Proof. ring. Qed.

Lemma driftLoopBody_shifted (entries entries' : list SleepRecord)
    (acc : DriftTotals) (i : nat) :
  Forall2 dayShifted entries entries' -> (1 <= i < length entries)%nat ->
  driftLoopBody entries' acc i = driftLoopBody entries acc i.
Proof.
  intros H Hi. unfold driftLoopBody.
  destruct (Forall2_at _ _ _ i H ltac:(lia)) as (Hr & [j Hs] & [k Hw]).
  destruct (Forall2_at _ _ _ (i - 1) H ltac:(lia)) as (_ & [j' Hs'] & [k' Hw']).
  rewrite Hr, Hs, Hw, Hs', Hw'. f_equal.
  - f_equal. now rewrite shifted_difference, driftPart_shift.
  - f_equal. now rewrite shifted_difference, driftPart_shift.
Qed.

(** X7. The drift is a function of the clock only: if each entry is moved
    by whole days, forwards or backwards, each by its own number of days and
    its sleep and wake time independently, [calculateDrift] returns the same
    result. *)
Theorem calculateDrift_ignores_whole_days (entries entries' : list SleepRecord) :
  Forall2 dayShifted entries entries' ->
  calculateDrift entries' = calculateDrift entries.
Proof.
  intros H. unfold calculateDrift, driftLoop.
  rewrite <- (Forall2_length H).
  destruct (length entries <? 2)%nat; [reflexivity |].
  rewrite (fold_left_ext_in (driftLoopBody entries') (driftLoopBody entries)).
  - reflexivity.
  - intros acc i Hi. apply in_seq in Hi. apply driftLoopBody_shifted; [exact H | lia].
Qed.

Lemma X7_witness :
  calculateDrift [Samples.nineHours; Samples.thirtyTwoHours]
  = calculateDrift [Samples.nineHours; Samples.eightHours].
Proof.
  apply calculateDrift_ignores_whole_days.
  constructor; [| constructor; [| constructor]].
  - split; [reflexivity |]. split; exists 0; vm_compute; reflexivity.
  - split; [reflexivity |]. split; [exists 0 | exists 1]; vm_compute; reflexivity.
Defined.

(** X8. On a list of two entries, [calculateDrift] returns as drifts the
    two numbers that [calculateEntryDrift] returns for the pair: the drift
    in a tooltip and the average of the info box are the same measure. *)
Theorem calculateDrift_of_a_pair (prevEntry currEntry : SleepRecord) :
  (sleepDrift (calculateDrift [prevEntry; currEntry])
   == inject_Z (fst (calculateEntryDrift prevEntry currEntry)))%Q
  /\ (wakeDrift (calculateDrift [prevEntry; currEntry])
      == inject_Z (snd (calculateEntryDrift prevEntry currEntry)))%Q.
Proof.
  unfold calculateDrift, driftLoop, calculateEntryDrift.
  cbn [length Nat.ltb Nat.leb seq Nat.sub fold_left].
  unfold driftLoopBody, at_.
  cbn [nth Nat.sub totalSleepDrift totalWakeDrift sleepDrift wakeDrift fst snd Z.of_nat
       Pos.of_succ_nat Pos.succ Z.sub Z.add Z.opp Z.pos_sub Z.succ_double Z.pred_double
       Z.double Pos.pred_double].
  change (inject_Z 1) with 1%Q. split; field.
Qed.

(* ------------------------------------------------------------------ *)
(** ** The cycle length of a measured drift                             *)
(* ------------------------------------------------------------------ *)

Lemma calculateDrift_sleep_range (entries : list SleepRecord) :
  (- inject_Z HALF_DAY < sleepDrift (calculateDrift entries)
   /\ sleepDrift (calculateDrift entries) <= inject_Z HALF_DAY)%Q.
Proof.
  destruct (Nat.lt_ge_cases (length entries) 2) as [Hlt | Hge].
  - rewrite (calculateDrift_sparse entries Hlt). cbn [sleepDrift].
    split; [reflexivity | discriminate].
  - rewrite (calculateDrift_enough entries Hge). cbn [sleepDrift].
    assert (Hne : Spec.pairDiffs sleepTimeOf entries <> []).
    { intros Hnil. apply (f_equal (@length Z)) in Hnil.
      rewrite pairDiffs_length in Hnil. simpl in Hnil. lia. }
    pose proof (sumZ_signedFold_bounds _ Hne) as [Hlo Hhi].
    rewrite pairDiffs_length in Hlo, Hhi.
    apply mean_in_half_day; lia.
Qed.

Lemma round_bounds (q : Q) (lo hi : Z) :
  (inject_Z lo <= q + (1 # 2))%Q -> (q + (1 # 2) < inject_Z (hi + 1))%Q ->
  lo <= roundQ q <= hi.
Proof.
  intros Hlo Hhi. unfold roundQ.
  pose proof (Qfloor_le (q + (1 # 2))) as Hf.
  pose proof (Qlt_floor (q + (1 # 2))) as Hc.
  assert (H1 : (inject_Z lo < inject_Z (Qfloor (q + (1 # 2)) + 1))%Q)
    by (eapply Qle_lt_trans; eassumption).
  assert (H2 : (inject_Z (Qfloor (q + (1 # 2))) < inject_Z (hi + 1))%Q)
    by (eapply Qle_lt_trans; eassumption).
  rewrite <- Zlt_Qlt in H1, H2. lia.
Qed.

Lemma cycleDays_of_drift (entries : list SleepRecord) :
  exists n : Z,
    cycleDays (sleepDrift (calculateDrift entries)) = Fin (inject_Z n)
    /\ (n = 0 \/ 2 <= n <= 1440).
Proof.
  destruct (calculateDrift_sleep_range entries) as [Hlo Hhi].
  set (d := sleepDrift (calculateDrift entries)) in *.
  assert (Hh : inject_Z HALF_DAY = 43200000%Q) by reflexivity.
  assert (Hd : inject_Z HOURS_IN_DAY = 86400000%Q) by reflexivity.
  rewrite Hh in Hlo, Hhi.
  rewrite cycleDays_small by (rewrite Hd; lra).
  destruct (Qlt_bool (Qabs d) (inject_Z 60000)) eqn:E.
  { exists 0. split; [reflexivity | now left]. }
  apply Qlt_bool_false in E. change (inject_Z 60000) with 60000%Q in E.
  eexists. split; [reflexivity | right].
  rewrite Hd.
  destruct (Qlt_le_dec d 0) as [Hneg | Hpos].
  - assert (Habs : (Qabs d == - d)%Q) by (apply Qabs_neg; lra).
    rewrite Habs in E.
    assert (Hq : (86400000 / d == - (86400000 / - d))%Q) by (field; lra).
    assert (Hup : (2 < 86400000 / - d)%Q).
    { apply Qlt_shift_div_l; lra. }
    assert (Hdn : (86400000 / - d <= 1440)%Q).
    { apply Qle_shift_div_r; lra. }
    assert (Hr : -1440 <= roundQ (86400000 / d) <= -2).
    { apply round_bounds; rewrite Hq; unfold inject_Z; simpl; lra. }
    lia.
  - assert (Habs : (Qabs d == d)%Q) by (apply Qabs_pos; lra).
    rewrite Habs in E.
    assert (Hup : (2 <= 86400000 / d)%Q).
    { apply Qle_shift_div_l; lra. }
    assert (Hdn : (86400000 / d <= 1440)%Q).
    { apply Qle_shift_div_r; lra. }
    assert (Hr : 2 <= roundQ (86400000 / d) <= 1440).
    { apply round_bounds; unfold inject_Z; simpl; lra. }
    lia.
Qed.

(** X9. The cycle length shown for a measured drift is 0 (no measurable
    drift) or a whole number of days from 2 to 1440: [calculateDrift] keeps
    the drift within half a day, so a cycle of one day cannot be shown, and
    the one-minute threshold bounds the cycle by the minutes of a day; the
    bounds are reached, by a drift of 12 hours and of one minute a day. *)
Theorem cycleDays_of_measured_drift (entries : list SleepRecord) :
  (exists n : Z,
     cycleDays (sleepDrift (calculateDrift entries)) = Fin (inject_Z n)
     /\ (n = 0 \/ 2 <= n <= 1440))
  /\ cycleDays (inject_Z HALF_DAY) = Fin (inject_Z 2)
  /\ cycleDays (inject_Z 60000) = Fin (inject_Z 1440).
Proof.
  split; [apply cycleDays_of_drift |]. split; vm_compute; reflexivity.
Qed.

(* ------------------------------------------------------------------ *)
(** ** The predicted records                                            *)
(* ------------------------------------------------------------------ *)

Lemma truncQ_mono (p q : Q) : (p <= q)%Q -> truncQ p <= truncQ q.
Proof.
  intros H. unfold truncQ.
  destruct (Qle_bool 0 p) eqn:Ep, (Qle_bool 0 q) eqn:Eq.
  - now apply Qfloor_resp_le.
  - apply Qle_bool_iff in Ep.
    assert (Hq : (0 <= q)%Q) by lra. apply Qle_bool_iff in Hq. congruence.
  - assert (Hp : (p < 0)%Q).
    { apply Qnot_le_lt. intros Hp. apply Qle_bool_iff in Hp. congruence. }
    apply Qle_bool_iff in Eq.
    assert (H1 : Qceiling p <= Qceiling 0) by (apply Qceiling_resp_le; lra).
    assert (H2 : Qfloor 0 <= Qfloor q) by (now apply Qfloor_resp_le).
    change (Qceiling 0) with 0 in H1. change (Qfloor 0) with 0 in H2. lia.
  - now apply Qceiling_resp_le.
Qed.

Lemma timeClip_later (a : Z) (x : Q) : (0 <= x)%Q -> a <= JsDate.timeClip (inject_Z a + x).
Proof.
  intros Hx. rewrite <- (timeClip_inject a) at 1.
  apply truncQ_mono. lra.
Qed.

Lemma timeClip_earlier (a : Z) (x : Q) : (0 <= x)%Q -> JsDate.timeClip (inject_Z a - x) <= a.
Proof.
  intros Hx. rewrite <- (timeClip_inject a) at 2.
  apply truncQ_mono. lra.
Qed.

(** The anchored time is on the day after the previous wake time, so it is
    later than that. *)
Lemma anchoredTime_later (tz h m prev : Z) :
  0 <= h < 24 -> 0 <= m < 60 -> prev < anchoredTime tz h m prev.
Proof.
  intros Hh Hm.
  pose proof (anchoredTime_local tz h m prev) as Hl.
  assert (Hlt : JsDate.localTime tz prev < JsDate.localTime tz (anchoredTime tz h m prev)).
  { rewrite Hl. generalize (JsDate.localTime tz prev). intros p.
    pose proof (Z.mod_pos_bound p JsDate.msPerMinute ltac:(reflexivity)) as Bm.
    pose proof (Z.mod_pos_bound p JsDate.msPerDay ltac:(reflexivity)) as Bd.
    pose proof (Z.div_mod p JsDate.msPerDay ltac:(discriminate)) as Hp.
    unfold JsDate.msPerDay, JsDate.msPerHour, JsDate.msPerMinute in *. lia. }
  unfold JsDate.localTime in Hlt. lia.
Qed.

Lemma sumZ_ratings_bounds (l : list SleepRecord) :
  Forall (fun r => 1 <= rating r <= 5) l ->
  Z.of_nat (length l) <= Spec.sumZ (map rating l) <= 5 * Z.of_nat (length l).
Proof.
  induction 1 as [| r l Hr _ IH]; [cbn; lia |].
  rewrite map_cons, sumZ_cons. cbn [length]. lia.
Qed.

(** With ratings from 1 to 5 the rounded [avgRating] is a rating from 1 to
    5, although the average leaves the first entry out of its sum. *)
Lemma avgRating_rounds_to_a_rating (entries : list SleepRecord) :
  Forall (fun r => 1 <= rating r <= 5) entries ->
  1 <= roundQ (avgRating (calculateDrift entries)) <= 5.
Proof.
  intros Hall.
  destruct (Nat.lt_ge_cases (length entries) 2) as [Hlt | Hge].
  { rewrite (calculateDrift_sparse entries Hlt). cbn [avgRating]. vm_compute.
    split; discriminate. }
  rewrite (calculateDrift_enough entries Hge). cbn [avgRating].
  destruct entries as [| e entries]; [simpl in Hge; lia |].
  cbn [tl]. apply Forall_inv_tail in Hall.
  pose proof (sumZ_ratings_bounds entries Hall) as Hs.
  cbn [length] in *.
  set (s := Spec.sumZ (map rating entries)) in *.
  set (n := Z.of_nat (S (length entries))).
  assert (Hn : Z.of_nat (length entries) = n - 1) by (unfold n; lia).
  rewrite Hn in Hs. assert (Hn2 : 2 <= n) by (unfold n; lia).
  assert (Hq : (0 < inject_Z n)%Q) by (rewrite <- (Zlt_Qlt 0); lia).
  assert (Hlo : (1 # 2 <= inject_Z s / inject_Z n)%Q).
  { apply Qle_shift_div_l; [exact Hq |].
    assert (Hz : (inject_Z n <= 2 * inject_Z s)%Q).
    { change 2%Q with (inject_Z 2). rewrite <- inject_Z_mult, <- Zle_Qle. lia. }
    lra. }
  assert (Hhi : (inject_Z s / inject_Z n <= 5)%Q).
  { apply Qle_shift_div_r; [exact Hq |].
    change 5%Q with (inject_Z 5). rewrite <- inject_Z_mult, <- Zle_Qle. lia. }
  set (q := (inject_Z s / inject_Z n)%Q) in *.
  apply round_bounds.
  - change (inject_Z 1) with 1%Q. lra.
  - change (inject_Z (5 + 1)) with 6%Q. lra.
Qed.

Section Forecast.
Variable tz : Z.
Variables lastSleepHour lastSleepMinute : Z.
Variable visibleDriftData : DriftData.
Variable avgSleepDuration : Q.
Variable lastWakeTime : Z.

Local Abbreviation forecast :=
  (predictLoop tz lastSleepHour lastSleepMinute visibleDriftData avgSleepDuration
               lastWakeTime).

Lemma forecast_entry (days i : nat) (p : PredictedSleepRecord) :
  nth_error (forecast days) i = Some p ->
  p = madeAt tz lastSleepHour lastSleepMinute visibleDriftData avgSleepDuration
             (prevWakeAt (forecast days) lastWakeTime i) i.
Proof.
  intros Hp.
  assert (Hi : (i < days)%nat).
  { rewrite <- (predictLoop_length tz lastSleepHour lastSleepMinute visibleDriftData
                  avgSleepDuration lastWakeTime days).
    apply nth_error_Some. congruence. }
  rewrite loop_nth in Hp by exact Hi. congruence.
Qed.

Lemma forecast_marked (days : nat) (p : PredictedSleepRecord) :
  In p (forecast days) ->
  isPredicted p = true /\ pnote p = "Predicted entry"%string
  /\ prating p = roundQ (avgRating visibleDriftData).
Proof.
  intros Hin. apply In_nth_error in Hin. destruct Hin as [i Hi].
  rewrite (forecast_entry days i p Hi). now unfold madeAt.
Qed.

Lemma forecast_asleep_before_awake (days : nat) (p : PredictedSleepRecord) :
  (0 <= avgSleepDuration)%Q -> In p (forecast days) -> psleep p <= pwake p.
Proof.
  intros Ha Hin. apply In_nth_error in Hin. destruct Hin as [i Hi].
  rewrite (forecast_entry days i p Hi). unfold madeAt. cbn [psleep pwake].
  now apply timeClip_earlier.
Qed.

Hypothesis seed_hour : 0 <= lastSleepHour < 24.
Hypothesis seed_minute : 0 <= lastSleepMinute < 60.

Lemma forecast_forward (days i : nat) (p : PredictedSleepRecord) :
  (0 <= sleepDrift visibleDriftData)%Q ->
  nth_error (forecast days) i = Some p ->
  prevWakeAt (forecast days) lastWakeTime i < pwake p.
Proof.
  intros Hd Hp. rewrite (forecast_entry days i p Hp).
  set (prev := prevWakeAt (forecast days) lastWakeTime i).
  unfold madeAt. cbn [pwake].
  pose proof (anchoredTime_later tz lastSleepHour lastSleepMinute prev
                seed_hour seed_minute) as Ha.
  assert (Hx : (0 <= sleepDrift visibleDriftData * inject_Z (Z.of_nat i + 1))%Q).
  { apply Qmult_le_0_compat; [exact Hd |].
    change 0%Q with (inject_Z 0). rewrite <- Zle_Qle. lia. }
  pose proof (timeClip_later (anchoredTime tz lastSleepHour lastSleepMinute prev) _ Hx).
  lia.
Qed.

End Forecast.

Lemma getMainSleepEntries_ratings (tz : Z) (cfg : Config) (data : list SleepRecord) :
  Forall (fun r => 1 <= rating r <= 5) data ->
  Forall (fun r => 1 <= rating r <= 5) (getMainSleepEntries tz cfg data).
Proof.
  rewrite !Forall_forall. intros Hall e He.
  apply Hall. now apply (getMainSleepEntries_of_day tz cfg data e).
Qed.

Lemma displayedData_incl (cfg : Config) (data : list SleepRecord) (r : SleepRecord) :
  In r (displayedData cfg data) -> In r data.
Proof.
  unfold displayedData. destruct (_ && _); [apply sliceLast_incl | trivial].
Qed.

(** X10. [generatePredictions] always returns a list.  It is empty when
    the log is empty or predictions are off, and has [predictionDays]
    records otherwise; every record is flagged [isPredicted] with the note
    "Predicted entry"; and when the ratings of the log lie between 1 and 5,
    so does the rating of every predicted record. *)
Theorem generatePredictions_records (tz : Z) (cfg : Config) (sleepData : list SleepRecord) :
  exists predictions,
    generatePredictions tz cfg sleepData = Some predictions
    /\ length predictions
       = (if (length sleepData =? 0)%nat || negb (showPredictions cfg) then 0
          else predictionDays cfg)%nat
    /\ (forall p, In p predictions ->
          isPredicted p = true /\ pnote p = "Predicted entry"%string)
    /\ (Forall (fun r => 1 <= rating r <= 5) sleepData ->
        forall p, In p predictions -> 1 <= prating p <= 5).
Proof.
  destruct (Nat.eqb_spec (length sleepData) 0) as [H0 | Hlen].
  { exists []. unfold generatePredictions. rewrite H0. cbn.
    repeat split; intros; contradiction. }
  destruct (showPredictions cfg) eqn:Hshow; cbn [orb negb].
  2:{ exists []. unfold generatePredictions. rewrite Hshow.
      rewrite orb_true_r. cbn. repeat split; intros; contradiction. }
  destruct (Nat.eq_dec (predictionDays cfg) 0) as [Hd0 | Hdays].
  { exists []. unfold generatePredictions. rewrite Hd0, orb_true_r.
    repeat split; intros; contradiction. }
  assert (Hne : sleepData <> []) by (intros ->; now apply Hlen).
  destruct (generatePredictions_runs_loop tz cfg sleepData Hne Hshow Hdays)
    as (lastVisibleEntry & front & Hlast & Hh & Hm & Hgen).
  eexists. split; [exact Hgen |]. split; [apply predictLoop_length |]. split.
  - intros p Hp. apply forecast_marked in Hp. tauto.
  - intros Hall p Hp. apply forecast_marked in Hp. destruct Hp as (_ & _ & ->).
    apply avgRating_rounds_to_a_rating, getMainSleepEntries_ratings.
    rewrite Forall_forall in Hall |- *. intros r Hr.
    apply Hall. now apply (displayedData_incl cfg).
Qed.


(* ------------------------------------------------------------------ *)
(** ** How long a predicted sleep lasts                                 *)
(* ------------------------------------------------------------------ *)

(** [TimeClip] moves a number by less than one. *)
Lemma timeClip_near (q : Q) :
  (q - 1 < inject_Z (JsDate.timeClip q))%Q /\ (inject_Z (JsDate.timeClip q) < q + 1)%Q.
Proof.
  unfold JsDate.timeClip, truncQ. destruct (Qle_bool 0 q).
  - pose proof (Qfloor_le q). pose proof (Qlt_floor q) as H1.
    rewrite inject_Z_plus in H1. change (inject_Z 1) with 1%Q in H1. split; lra.
  - pose proof (Qle_ceiling q). pose proof (Qceiling_lt q) as H1.
    unfold Z.sub in H1. rewrite inject_Z_plus, inject_Z_opp in H1.
    change (inject_Z 1) with 1%Q in H1. split; lra.
Qed.

(** X12. Every predicted record lasts the average sleep duration of the
    displayed main sleeps, to within a millisecond, and exactly that
    duration when it is a whole number of milliseconds. *)
Theorem predicted_sleep_lasts_the_average
    (tz lastSleepHour lastSleepMinute : Z) (visibleDriftData : DriftData)
    (avgSleepDuration : Q) (lastWakeTime : Z) (days : nat) (p : PredictedSleepRecord) :
  In p (predictLoop tz lastSleepHour lastSleepMinute visibleDriftData avgSleepDuration
                    lastWakeTime days) ->
  (avgSleepDuration - 1 < inject_Z (pwake p - psleep p)
   /\ inject_Z (pwake p - psleep p) < avgSleepDuration + 1)%Q
  /\ forall whole : Z, (avgSleepDuration == inject_Z whole)%Q -> pwake p - psleep p = whole.
Proof.
  intros Hin. apply In_nth_error in Hin. destruct Hin as [i Hi].
  rewrite (forecast_entry _ _ _ _ _ _ days i p Hi). unfold madeAt. cbn [psleep pwake].
  set (w := JsDate.timeClip _).
  pose proof (timeClip_near (inject_Z w - avgSleepDuration)) as [Hlo Hhi].
  set (s := JsDate.timeClip (inject_Z w - avgSleepDuration)) in *.
  split.
  - unfold Z.sub. rewrite inject_Z_plus, inject_Z_opp. split; lra.
  - intros whole Hwhole.
    assert (Hs : s = w - whole).
    { unfold s. rewrite <- (timeClip_inject (w - whole)). apply timeClip_comp.
      rewrite Hwhole. unfold Z.sub. rewrite inject_Z_plus, inject_Z_opp. reflexivity. }
    lia.
Qed.

Lemma X12_witness :
  Forall (fun p => pwake p - psleep p = 28800000)
         (predictLoop 0 23 0 (mkDrift 0 0 3) (inject_Z 28800000) 0 1).
Proof.
  apply Forall_forall. intros p Hp.
  destruct (predicted_sleep_lasts_the_average 0 23 0 (mkDrift 0 0 3) (inject_Z 28800000)
              0 1 p Hp) as [_ H].
  apply H. reflexivity.
Defined.

(* ------------------------------------------------------------------ *)
(** ** Texts                                                            *)
(* ------------------------------------------------------------------ *)

Lemma Qfloor_bounds (q : Q) (n : Z) :
  Qfloor q = n -> (inject_Z n <= q)%Q /\ (q < inject_Z n + 1)%Q.
Proof.
  intros <-. split; [apply Qfloor_le |].
  pose proof (Qlt_floor q) as H. rewrite inject_Z_plus in H. exact H.
Qed.

Lemma Qfloor_between (q : Q) (n : Z) :
  (inject_Z n <= q)%Q -> (q < inject_Z n + 1)%Q -> Qfloor q = n.
Proof.
  intros Hlo Hhi. apply Qfloor_unique; [exact Hlo |]. now rewrite inject_Z_plus.
Qed.

Lemma truncQ_nonneg (q : Q) : (0 <= q)%Q -> truncQ q = Qfloor q.
Proof.
  intros H. unfold truncQ. apply Qle_bool_iff in H. now rewrite H.
Qed.

(** The truncated remainder of a number that is not negative. *)
Lemma jsrem_nonneg (a b : Q) :
  (0 <= a)%Q -> (0 < b)%Q -> (jsrem a b == a - b * inject_Z (Qfloor (a / b)))%Q.
Proof.
  intros Ha Hb. unfold jsrem. rewrite truncQ_nonneg; [reflexivity |].
  apply Qle_shift_div_l; [exact Hb | lra].
Qed.

(** The whole hours and the whole minutes that are left are the quotient
    and the remainder by 60 of the whole minutes. *)
Lemma hours_minutes_of (a : Q) :
  (0 <= a)%Q ->
  let total := Qfloor (a / inject_Z 60000) in
  Qfloor (a / inject_Z (60 * 60 * 1000)) = total / 60
  /\ Qfloor (jsrem a (inject_Z (60 * 60 * 1000)) / inject_Z (60 * 1000)) = total mod 60
  /\ 0 <= total.
Proof.
  intros Ha total.
  change (inject_Z (60 * 60 * 1000)) with 3600000%Q.
  change (inject_Z (60 * 1000)) with 60000%Q.
  change (inject_Z 60000) with 60000%Q in total.
  set (H := Qfloor (a / 3600000)).
  destruct (Qfloor_bounds _ H eq_refl) as [H1 H2].
  assert (Ea : (a == 3600000 * (a / 3600000))%Q) by (field; discriminate).
  set (x := (a / 3600000)%Q) in *.
  pose proof (jsrem_nonneg a 3600000 Ha ltac:(reflexivity)) as Hr.
  fold x in Hr. fold H in Hr.
  set (r := jsrem a 3600000) in *.
  set (M := Qfloor (r / 60000)).
  destruct (Qfloor_bounds _ M eq_refl) as [M1 M2].
  assert (Er : (r == 60000 * (r / 60000))%Q) by (field; discriminate).
  set (y := (r / 60000)%Q) in *.
  assert (HM : 0 <= M < 60).
  { assert (B1 : (inject_Z 0 < inject_Z (M + 1))%Q).
    { rewrite inject_Z_plus. change (inject_Z 0) with 0%Q. change (inject_Z 1) with 1%Q.
      lra. }
    assert (B2 : (inject_Z M < inject_Z 60)%Q) by (change (inject_Z 60) with 60%Q; lra).
    rewrite <- Zlt_Qlt in B1, B2. lia. }
  assert (HT : total = 60 * H + M).
  { unfold total. apply Qfloor_between.
    - rewrite inject_Z_plus, inject_Z_mult. change (inject_Z 60) with 60%Q.
      apply Qle_shift_div_l; [reflexivity |]. lra.
    - rewrite inject_Z_plus, inject_Z_mult. change (inject_Z 60) with 60%Q.
      apply Qlt_shift_div_r; [reflexivity |]. lra. }
  assert (HH : 0 <= H).
  { assert (B : (inject_Z 0 < inject_Z (H + 1))%Q).
    { rewrite inject_Z_plus. change (inject_Z 0) with 0%Q. change (inject_Z 1) with 1%Q.
      lra. }
    rewrite <- Zlt_Qlt in B. lia. }
  split; [| split].
  - fold H. apply (Z.div_unique total 60 H M); lia.
  - fold y. fold M. apply (Z.mod_unique total 60 H M); lia.
  - lia.
Qed.

(** X13. [formatDrift] prints the magnitude of a drift cut to whole
    minutes, as hours and minutes, after the sign; whole days are dropped.
    For a magnitude under 24 hours, which covers every drift per day that
    [calculateDrift] and [calculateEntryDrift] return, the text is that of
    all the whole minutes of the drift. *)
Theorem formatDrift_whole_minutes (driftMs : Q) :
  let sign := if Qle_bool 0 driftMs then "+"%string else "-"%string in
  let total := Qfloor (Qabs driftMs / inject_Z 60000) in
  formatDrift driftMs = hoursMinutesText sign (total mod 1440)
  /\ ((Qabs driftMs < inject_Z HOURS_IN_DAY)%Q ->
      formatDrift driftMs = hoursMinutesText sign total).
Proof.
  intros sign total.
  destruct (hours_minutes_of (Qabs driftMs) (Qabs_nonneg driftMs)) as (Hh & Hm & Ht).
  fold total in Hh, Hm, Ht.
  assert (Hfmt : formatDrift driftMs = hoursMinutesText sign (total mod 1440)).
  { unfold formatDrift, hoursMinutesText, driftHours, driftMinutes. fold sign.
    rewrite Hh, Hm.
    assert (Hq : Z.rem (total / 60) 24 = total mod 1440 / 60).
    { rewrite Z.rem_mod_nonneg by (try apply Z.div_pos; lia).
      pose proof (Z.div_mod total 1440 ltac:(lia)) as E1.
      pose proof (Z.mod_pos_bound total 1440 ltac:(lia)) as B1.
      pose proof (Z.div_mod (total mod 1440) 60 ltac:(lia)) as E2.
      pose proof (Z.mod_pos_bound (total mod 1440) 60 ltac:(lia)) as B2.
      assert (B3 : 0 <= total mod 1440 / 60 < 24).
      { split; [apply Z.div_pos; lia | apply Z.div_lt_upper_bound; lia]. }
      assert (Hd : total / 60 = 24 * (total / 1440) + total mod 1440 / 60).
        { symmetry.
        apply (Z.div_unique total 60 (24 * (total / 1440) + total mod 1440 / 60)
                 ((total mod 1440) mod 60)); lia. }
      rewrite Hd. symmetry.
      apply (Z.mod_unique (24 * (total / 1440) + total mod 1440 / 60) 24 (total / 1440));
        lia. }
    assert (Hr : total mod 60 = (total mod 1440) mod 60).
    { symmetry. apply Z.mod_mod_divide. exists 24. reflexivity. }
    now rewrite Hq, Hr. }
  split; [exact Hfmt |].
  intros Hday. rewrite Hfmt. f_equal. apply Z.mod_small. split; [exact Ht |].
  unfold total.
  assert (B : (inject_Z (Qfloor (Qabs driftMs / inject_Z 60000)) < inject_Z 1440)%Q).
  { eapply Qle_lt_trans; [apply Qfloor_le |].
    apply Qlt_shift_div_r; [reflexivity |].
    change (inject_Z HOURS_IN_DAY) with 86400000%Q in Hday.
    change (inject_Z 1440 * inject_Z 60000)%Q with (1440 * 60000)%Q. lra. }
  now rewrite <- Zlt_Qlt in B.
Qed.

Lemma two_digits (m : Z) :
  0 <= m < 60 -> String.length (padStart2 (numStr m)) = 2%nat.
Proof.
  intros Hm.
  assert (Hall : forallb (fun i => (String.length (padStart2 (numStr (Z.of_nat i))) =? 2)%nat)
                         (seq 0 60) = true) by (vm_compute; reflexivity).
  rewrite forallb_forall in Hall.
  specialize (Hall (Z.to_nat m)). rewrite Z2Nat.id in Hall by lia.
  apply Nat.eqb_eq, Hall, in_seq. lia.
Qed.

(** X14. For a record that does not wake before it starts, the duration in
    its tooltip is the elapsed time cut to whole minutes: the whole hours,
    then the minutes left, which are fewer than 60 and written with two
    digits. *)
Theorem durationStr_elapsed_minutes (sleepTime wakeTime : Z) :
  sleepTime <= wakeTime ->
  let minutes := (wakeTime - sleepTime) / 60000 in
  durationStr sleepTime wakeTime
  = (numStr (minutes / 60) ++ "h" ++ padStart2 (numStr (minutes mod 60)) ++ "m")%string
  /\ String.length (padStart2 (numStr (minutes mod 60))) = 2%nat.
Proof.
  intros Hle minutes. unfold durationStr.
  set (d := wakeTime - sleepTime) in *.
  assert (Hd : 0 <= d) by (unfold d; lia).
  change (1000 * 60 * 60) with 3600000. change (1000 * 60) with 60000.
  rewrite Z.rem_mod_nonneg by lia.
  pose proof (Z.div_mod d 60000 ltac:(lia)) as E1.
  pose proof (Z.mod_pos_bound d 60000 ltac:(lia)) as B1.
  fold minutes in E1.
  pose proof (Z.div_mod minutes 60 ltac:(lia)) as E2.
  pose proof (Z.mod_pos_bound minutes 60 ltac:(lia)) as B2.
  assert (Hh : d / 3600000 = minutes / 60).
  { symmetry.
    apply (Z.div_unique d 3600000 (minutes / 60) (60000 * (minutes mod 60) + d mod 60000));
      lia. }
  assert (Hr : d mod 3600000 = 60000 * (minutes mod 60) + d mod 60000).
  { symmetry. apply (Z.mod_unique d 3600000 (minutes / 60)); lia. }
  assert (Hm : d mod 3600000 / 60000 = minutes mod 60).
  { rewrite Hr. symmetry.
    apply (Z.div_unique (60000 * (minutes mod 60) + d mod 60000) 60000 (minutes mod 60)
             (d mod 60000)); lia. }
  rewrite Hh, Hm. split; [reflexivity | now apply two_digits].
Qed.

Lemma X14_witness :
  durationStr 0 29100000 = "8h05m"%string.
Proof.
  destruct (durationStr_elapsed_minutes 0 29100000 ltac:(lia)) as [H _].
  rewrite H. vm_compute. reflexivity.
Defined.



(* ------------------------------------------------------------------ *)
(** ** The chart                                                        *)
(* ------------------------------------------------------------------ *)

Lemma Qfloor_quotient (n k : Z) :
  0 < k -> Qfloor (inject_Z n / inject_Z k) = n / k.
Proof.
  intros Hk.
  assert (Hq : (0 < inject_Z k)%Q) by (now rewrite <- (Zlt_Qlt 0)).
  pose proof (Z.div_mod n k ltac:(lia)) as E.
  pose proof (Z.mod_pos_bound n k Hk) as B.
  apply Qfloor_unique.
  - apply Qle_shift_div_l; [exact Hq |].
    rewrite <- inject_Z_mult, <- Zle_Qle. nia.
  - apply Qlt_shift_div_r; [exact Hq |].
    rewrite <- inject_Z_mult, <- Zlt_Qlt. nia.
Qed.

Lemma sixty_times (h x : Q) : (h == x / 60)%Q -> (x == 60 * h)%Q.
Proof. intros E. rewrite E. field. Qed.

(** An hour is 100/24 percent of the height of the chart, a minute 5/72. *)
Lemma minute_share (h x : Q) : (x == 60 * h)%Q -> (h / 24 * 100 == x * (5 # 72))%Q.
Proof. intros E. rewrite E. field. Qed.

Section Geometry.
Variable tz : Z.
Variable dayStartHour : Z.
Hypothesis hour_valid : 0 <= dayStartHour <= 23.

Lemma chartMinutes_range (t : Z) : 0 <= chartMinutes tz dayStartHour t < 1440.
Proof. unfold chartMinutes. apply Z.mod_pos_bound. lia. Qed.

(** The position on the chart's clock, in hours, is its reading in whole
    minutes over 60. *)
Lemma chartHour_minutes (t : Z) :
  (chartHour tz dayStartHour t == inject_Z (chartMinutes tz dayStartHour t) / 60)%Q.
Proof.
  unfold chartHour, chartMinutes.
  pose proof (clockMinutes_range tz t) as Hc.
  pose proof (clockHours_minutes tz t) as Hh.
  set (cm := clockMinutes tz t) in *.
  set (n := cm - 60 * dayStartHour + 1440).
  assert (Hn : 0 < n < 2880) by (unfold n; lia).
  assert (Ha : (clockHours tz t - inject_Z dayStartHour + 24 == inject_Z n / 60)%Q).
  { rewrite Hh. unfold n, Z.sub.
    rewrite !inject_Z_plus, inject_Z_opp, inject_Z_mult.
    change (inject_Z 60) with 60%Q. change (inject_Z 1440) with 1440%Q. field. }
  set (a := (clockHours tz t - inject_Z dayStartHour + 24)%Q) in *.
  assert (Hpos : (0 <= a)%Q).
  { rewrite Ha. apply Qle_shift_div_l; [reflexivity |].
    rewrite Qmult_0_l. change 0%Q with (inject_Z 0). rewrite <- Zle_Qle. lia. }
  rewrite (jsrem_nonneg a 24 Hpos ltac:(reflexivity)).
  assert (Hq : (a / 24 == inject_Z n / inject_Z 1440)%Q).
  { rewrite Ha. change (inject_Z 1440) with 1440%Q. field. }
  rewrite (Qfloor_comp _ _ Hq), Qfloor_quotient by lia.
  assert (Hm : (cm - 60 * dayStartHour) mod 1440 = n - 1440 * (n / 1440)).
  { replace (cm - 60 * dayStartHour) with (n + (-1) * 1440) by (unfold n; lia).
    rewrite Z.mod_add by lia.
    pose proof (Z.div_mod n 1440 ltac:(lia)). lia. }
  rewrite Hm, Ha. unfold Z.sub.
  rewrite inject_Z_plus, inject_Z_opp, inject_Z_mult.
  change (inject_Z 1440) with 1440%Q. field.
Qed.

(** How far it is, on the chart's clock, from falling asleep to waking:
    the clock duration of the selection loop, whatever the hour at which
    the chart starts its day. *)
Lemma chart_duration (entry : SleepRecord) :
  (chartMinutes tz dayStartHour (wakeTimeOf entry)
   - chartMinutes tz dayStartHour (sleepTimeOf entry)) mod 1440
  = durationMinutes tz entry.
Proof.
  unfold chartMinutes, durationMinutes.
  pose proof (clockMinutes_range tz (sleepTimeOf entry)) as Hs.
  pose proof (clockMinutes_range tz (wakeTimeOf entry)) as Hw.
  set (s := clockMinutes tz (sleepTimeOf entry)) in *.
  set (w := clockMinutes tz (wakeTimeOf entry)) in *.
  rewrite <- Zminus_mod.
  replace (w - 60 * dayStartHour - (s - 60 * dayStartHour)) with (w - s) by lia.
  destruct (Z.ltb_spec w s) as [Hlt | Hge].
  - replace (w - s) with (w + 1440 - s + (-1) * 1440) by lia.
    rewrite Z.mod_add by lia. apply Z.mod_small. lia.
  - apply Z.mod_small. lia.
Qed.

(** The boxes of a record, from where it starts on the chart's clock and
    how long it lasts on the clock, both in minutes; a minute is 5/72
    percent of the height. *)
Lemma sleepBlockBoxes_cases (entry : SleepRecord) :
  let s := inject_Z (chartMinutes tz dayStartHour (sleepTimeOf entry)) in
  let d := inject_Z (durationMinutes tz entry) in
  let boxes := sleepBlockBoxes tz dayStartHour (sleepTimeOf entry) (wakeTimeOf entry) in
  (0 <= s /\ s < 1440 /\ 0 <= d /\ d < 1440)%Q
  /\ ((s + d <= 1440)%Q
      /\ (exists b, boxes = [b]
                    /\ (boxTop b == s * (5 # 72))%Q
                    /\ (boxHeight b == d * (5 # 72))%Q)
      \/ (1440 < s + d)%Q
         /\ (exists b1 b2, boxes = [b1; b2]
                           /\ (boxTop b1 == s * (5 # 72))%Q
                           /\ (boxHeight b1 == 100 - s * (5 # 72))%Q
                           /\ boxTop b2 = 0%Q
                           /\ (boxHeight b2 == (s + d) * (5 # 72) - 100)%Q)).
Proof.
  intros s d boxes.
  pose proof (chartMinutes_range (sleepTimeOf entry)) as Rs.
  pose proof (chartMinutes_range (wakeTimeOf entry)) as Rw.
  pose proof (durationMinutes_range tz entry) as Rd.
  pose proof (chart_duration entry) as Hd.
  pose proof (chartHour_minutes (sleepTimeOf entry)) as Es.
  pose proof (chartHour_minutes (wakeTimeOf entry)) as Ew.
  unfold boxes, sleepBlockBoxes.
  set (sh := chartHour tz dayStartHour (sleepTimeOf entry)) in *.
  set (wh := chartHour tz dayStartHour (wakeTimeOf entry)) in *.
  set (sm := chartMinutes tz dayStartHour (sleepTimeOf entry)) in *.
  set (wm := chartMinutes tz dayStartHour (wakeTimeOf entry)) in *.
  set (dm := durationMinutes tz entry) in *.
  fold s in Es.
  set (w := inject_Z wm) in *.
  assert (Bs : (0 <= s /\ s < 1440)%Q).
  { unfold s. change 0%Q with (inject_Z 0). change 1440%Q with (inject_Z 1440).
    rewrite <- Zle_Qle, <- Zlt_Qlt. lia. }
  assert (Bd : (0 <= d /\ d < 1440)%Q).
  { unfold d. change 0%Q with (inject_Z 0). change 1440%Q with (inject_Z 1440).
    rewrite <- Zle_Qle, <- Zlt_Qlt. lia. }
  split; [tauto |].
  pose proof (sixty_times sh s Es) as Es'.
  pose proof (sixty_times wh w Ew) as Ew'.
  (* the duration after the correction *)
  assert (Hdur : (60 * (if Qlt_bool (wh - sh) 0 then wh - sh + 24 else wh - sh) == d)%Q).
  { destruct (Qlt_bool (wh - sh) 0) eqn:E.
    - apply Qlt_bool_iff in E.
      assert (Hlt : (w < s)%Q) by lra.
      unfold w, s in Hlt. rewrite <- Zlt_Qlt in Hlt.
      assert (Hdm : dm = wm - sm + 1440).
      { rewrite <- Hd. symmetry. apply (Z.mod_unique (wm - sm) 1440 (-1)); lia. }
      assert (Hq : (d == w - s + 1440)%Q).
      { unfold d, w, s. rewrite Hdm. unfold Z.sub.
        rewrite !inject_Z_plus, inject_Z_opp. reflexivity. }
      lra.
    - apply Qlt_bool_false in E.
      assert (Hge : (s <= w)%Q) by lra.
      unfold w, s in Hge. rewrite <- Zle_Qle in Hge.
      assert (Hdm : dm = wm - sm).
      { rewrite <- Hd. apply Z.mod_small. lia. }
      assert (Hq : (d == w - s)%Q).
      { unfold d, w, s. rewrite Hdm. unfold Z.sub.
        rewrite !inject_Z_plus, inject_Z_opp. reflexivity. }
      lra. }
  set (dur := (if Qlt_bool (wh - sh) 0 then wh - sh + 24 else wh - sh)%Q) in *.
  pose proof (minute_share sh s Es') as Etop.
  pose proof (minute_share dur d (Qeq_sym _ _ Hdur)) as Eheight.
  set (top := (sh / 24 * 100)%Q) in *.
  set (height := (dur / 24 * 100)%Q) in *.
  destruct (Qlt_bool 100 (top + height)) eqn:E.
  - apply Qlt_bool_iff in E.
    right. split; [lra |].
    eexists _, _. split; [reflexivity |]. cbn [boxTop boxHeight].
    split; [exact Etop | split; [lra | split; [reflexivity | lra]]].
  - apply Qlt_bool_false in E.
    left. split; [lra |].
    eexists. split; [reflexivity |]. cbn [boxTop boxHeight].
    split; [exact Etop | exact Eheight].
Qed.

End Geometry.

(** X16. With the day starting at a whole hour from 0 to 23, the boxes
    drawn for a record lie within the chart; their heights add up to the
    clock duration of the record, as the main-sleep selection measures it,
    at 100/24 percent an hour, whatever the hour at which the day starts;
    and a record that runs past the bottom is drawn as a box that ends at
    the bottom and a box at the top that stays clear of the first one. *)
Theorem sleepBlockBoxes_geometry (tz dayStartHour : Z) (entry : SleepRecord) :
  0 <= dayStartHour <= 23 ->
  let boxes := sleepBlockBoxes tz dayStartHour (sleepTimeOf entry) (wakeTimeOf entry) in
  Forall inChart boxes
  /\ (totalHeight boxes == duration tz entry / 24 * 100)%Q
  /\ match boxes with
     | [_] => True
     | [lower; upper] =>
         (boxTop lower + boxHeight lower == 100)%Q /\ boxTop upper = 0%Q
         /\ (0 < boxHeight upper)%Q /\ (boxHeight upper < boxTop lower)%Q
     | _ => False
     end.
Proof.
  intros Hd boxes.
  destruct (sleepBlockBoxes_cases tz dayStartHour Hd entry) as (B & Hcases).
  fold boxes in Hcases.
  pose proof (duration_minutes tz entry) as Hdur.
  pose proof (minute_share (duration tz entry) _ (sixty_times _ _ Hdur)) as Hh.
  set (s := inject_Z (chartMinutes tz dayStartHour (sleepTimeOf entry))) in *.
  set (d := inject_Z (durationMinutes tz entry)) in *.
  set (total := (duration tz entry / 24 * 100)%Q) in *.
  clearbody boxes s d total.
  destruct Hcases as [(Hfit & b & -> & Ht & Hb) | (Hwrap & b1 & b2 & -> & Ht1 & Hb1 & Ht2 & Hb2)].
  - split; [| split; [| exact I]].
    + constructor; [| constructor]. unfold inChart. lra.
    + cbn [totalHeight fold_right]. lra.
  - split; [| split].
    + constructor; [| constructor; [| constructor]]; unfold inChart; rewrite ?Ht2; lra.
    + cbn [totalHeight fold_right]. lra.
    + rewrite Ht2. repeat split; lra.
Qed.

Lemma X16_witness :
  (totalHeight (sleepBlockBoxes 0 17 (sleepTimeOf Samples.overMidnight)
                                (wakeTimeOf Samples.overMidnight))
   == duration 0 Samples.overMidnight / 24 * 100)%Q.
Proof.
  pose proof (sleepBlockBoxes_geometry 0 17 Samples.overMidnight ltac:(lia)) as H.
  cbv zeta in H. destruct H as (_ & H & _). exact H.
Defined.

Lemma yAxisHour_rotation (k : nat) :
  (k < 24)%nat ->
  map (yAxisHour (Z.of_nat k)) (seq 0 24)
  = map Z.of_nat (seq k (24 - k)) ++ map Z.of_nat (seq 0 k).
Proof.
  intros Hk.
  do 24 (destruct k as [| k]; [vm_compute; reflexivity |]). lia.
Qed.

(** X17. The 24 labels of the Y axis show every hour of the day once, from
    [dayStartHour] on, and the blocks are drawn against the same scale: a
    time whose clock reads the hour of label [i] has its chart position at
    that label, lowered by 5/72 percent for each minute past the hour. *)
Theorem yAxis_and_blocks_share_the_scale (tz dayStartHour : Z) :
  0 <= dayStartHour <= 23 ->
  Permutation (map fst (yAxisLabels dayStartHour)) (map Z.of_nat (seq 0 24))
  /\ forall (i : nat) (t : Z),
       (i < 24)%nat -> JsDate.getHours tz t = yAxisHour dayStartHour i ->
       (chartHour tz dayStartHour t / 24 * 100
        == yAxisPosition i + inject_Z (JsDate.getMinutes tz t) * (5 # 72))%Q.
Proof.
  intros Hd. split.
  - unfold yAxisLabels. rewrite map_map. cbn [fst].
    replace dayStartHour with (Z.of_nat (Z.to_nat dayStartHour)) by lia.
    rewrite yAxisHour_rotation by lia.
    replace (seq 0 24) with (seq 0 (Z.to_nat dayStartHour)
                             ++ seq (Z.to_nat dayStartHour) (24 - Z.to_nat dayStartHour)).
    + rewrite (map_app Z.of_nat). apply Permutation_app_comm.
    + rewrite <- seq_app. f_equal. lia.
  - intros i t Hi Hhour.
    pose proof (chartHour_minutes tz dayStartHour Hd t) as Hc.
    apply sixty_times, minute_share in Hc. rewrite Hc. clear Hc.
    pose proof (getMinutes_range tz t) as Hm.
    assert (Hcm : chartMinutes tz dayStartHour t
                  = 60 * Z.of_nat i + JsDate.getMinutes tz t).
    { unfold chartMinutes, clockMinutes. rewrite Hhour. unfold yAxisHour.
      rewrite Z.rem_mod_nonneg by lia.
      set (m := JsDate.getMinutes tz t) in *.
      pose proof (Z.div_mod (dayStartHour + Z.of_nat i) 24 ltac:(lia)) as E.
      pose proof (Z.mod_pos_bound (dayStartHour + Z.of_nat i) 24 ltac:(lia)) as B.
      symmetry.
      apply (Z.mod_unique _ 1440 (- ((dayStartHour + Z.of_nat i) / 24))); lia. }
    rewrite Hcm, inject_Z_plus, inject_Z_mult. unfold yAxisPosition.
    change (inject_Z 60) with 60%Q. field.
Qed.

Lemma X17_witness :
  Permutation (map fst (yAxisLabels 17)) (map Z.of_nat (seq 0 24)).
Proof.
  pose proof (yAxis_and_blocks_share_the_scale 0 17 ltac:(lia)) as H.
  destruct H as (H & _). exact H.
Defined.

(** X18. A trend line between two consecutive main sleeps takes the shorter
    way round the clock: its segments stay within the chart, they lead from
    the first point to the second, and the vertical way they cover together
    is the smaller of the direct distance and the distance across the edge
    of the chart, so it is never more than half the height. *)
Theorem trendSegments_take_the_short_way (currentX nextX currentY nextY : Q) :
  (0 <= currentY)%Q -> (currentY < 100)%Q -> (0 <= nextY)%Q -> (nextY < 100)%Q ->
  let segments := trendSegments currentX nextX currentY nextY in
  let direct := Qabs (nextY - currentY) in
  Forall (fun s => 0 <= py (segStart s) <= 100 /\ 0 <= py (segEnd s) <= 100)%Q segments
  /\ (totalRise segments == if Qlt_bool 50 direct then 100 - direct else direct)%Q
  /\ (totalRise segments <= 50)%Q
  /\ option_map segStart (hd_error segments) = Some (mkPoint currentX currentY)
  /\ segEnd (last segments (mkSegment (mkPoint 0 0) (mkPoint 0 0)))
     = mkPoint nextX nextY.
Proof.
  intros Hc0 Hc1 Hn0 Hn1 segments direct. unfold segments, trendSegments. fold direct.
  assert (Hdirect : (nextY < currentY /\ direct == currentY - nextY
                     \/ currentY <= nextY /\ direct == nextY - currentY)%Q).
  { unfold direct. destruct (Qlt_le_dec nextY currentY) as [Hlt | Hge].
    - left. split; [exact Hlt |]. rewrite Qabs_neg by lra. ring.
    - right. split; [exact Hge |]. apply Qabs_pos. lra. }
  assert (Edir : (Qabs (nextY - currentY) == direct)%Q) by reflexivity.
  clearbody direct.
  destruct (Qlt_bool 50 direct) eqn:E.
  - apply Qlt_bool_iff in E.
    destruct (Qlt_bool nextY currentY) eqn:E2.
    + apply Qlt_bool_iff in E2.
      destruct Hdirect as [[_ Hd] | [Hge _]]; [| lra].
      assert (R1 : (Qabs (100 - currentY) == 100 - currentY)%Q) by (apply Qabs_pos; lra).
      assert (R2 : (Qabs (nextY - 0) == nextY)%Q) by (rewrite Qabs_pos; [ring | lra]).
      cbn [totalRise fold_right rise segStart segEnd py hd_error option_map last].
      repeat split; try (constructor; [| constructor; [| constructor]]; cbn; lra);
        try reflexivity; rewrite R1, R2; lra.
    + apply Qlt_bool_false in E2.
      destruct Hdirect as [[Hlt _] | [_ Hd]]; [lra |].
      assert (R1 : (Qabs (0 - currentY) == currentY)%Q) by (rewrite Qabs_neg; [ring | lra]).
      assert (R2 : (Qabs (nextY - 100) == 100 - nextY)%Q) by (rewrite Qabs_neg; [ring | lra]).
      cbn [totalRise fold_right rise segStart segEnd py hd_error option_map last].
      repeat split; try (constructor; [| constructor; [| constructor]]; cbn; lra);
        try reflexivity; rewrite R1, R2; lra.
  - apply Qlt_bool_false in E.
    cbn [totalRise fold_right rise segStart segEnd py hd_error option_map last].
    repeat split; try (constructor; [| constructor]; cbn; lra); try reflexivity.
    + rewrite Edir. lra.
    + rewrite Edir. lra.
Qed.

Lemma X18_witness :
  (totalRise (trendSegments 0 10 90 10) <= 50)%Q.
Proof.
  pose proof (trendSegments_take_the_short_way 0 10 90 10
                ltac:(lra) ltac:(lra) ltac:(lra) ltac:(lra)) as H.
  cbv zeta in H. destruct H as (_ & _ & H & _). exact H.
Defined.

Lemma hasLabel_iff (days i : nat) :
  hasLabel days i = true <-> (i mod labelInterval days = 0 \/ i = days - 1)%nat.
Proof.
  unfold hasLabel. rewrite negb_true_iff, andb_false_iff, !negb_false_iff.
  now rewrite !Nat.eqb_eq.
Qed.

Lemma xAxisLabels_In (days i : nat) :
  In i (xAxisLabels days)
  <-> (i < days)%nat /\ (i mod labelInterval days = 0 \/ i = days - 1)%nat.
Proof.
  unfold xAxisLabels. rewrite filter_In, in_seq, hasLabel_iff. intuition lia.
Qed.

Lemma labelInterval_cases (days : nat) :
  (labelInterval days = 1 /\ days <= 30 \/ labelInterval days = 5 /\ 30 < days)%nat.
Proof.
  unfold labelInterval. destruct (Nat.ltb_spec 30 days); [right | left]; lia.
Qed.

(** X19. On the X axis the first and the last day column always have a
    label; up to 30 days every column has one, beyond that a column is at
    most four columns to the right of a labelled one; and every label
    stands at the middle of its column, where the trend lines put their
    points. *)
Theorem xAxisLabels_cover_the_days (days : nat) :
  (1 <= days)%nat ->
  In 0%nat (xAxisLabels days)
  /\ In (days - 1)%nat (xAxisLabels days)
  /\ ((days <= 30)%nat -> xAxisLabels days = seq 0 days)
  /\ (forall i, (i < days)%nat ->
        exists j, In j (xAxisLabels days) /\ (j <= i <= j + 4)%nat)
  /\ forall j, In j (xAxisLabels days) ->
       (labelPosition days j == columnCentre days j)%Q
       /\ (0 < labelPosition days j)%Q /\ (labelPosition days j < 100)%Q.
Proof.
  intros Hdays.
  pose proof (labelInterval_cases days) as Hint.
  split; [| split; [| split; [| split]]].
  - apply xAxisLabels_In. split; [lia | left].
    destruct Hint as [[-> _] | [-> _]]; reflexivity.
  - apply xAxisLabels_In. split; [lia | now right].
  - intros Hsmall. unfold xAxisLabels.
    rewrite forallb_filter_id; [reflexivity |].
    apply forallb_forall. intros i _. apply hasLabel_iff. left.
    destruct Hint as [[-> _] | [_ Hbig]]; [apply Nat.mod_1_r | lia].
  - intros i Hi. destruct Hint as [[Hone _] | [Hfive _]].
    + exists i. split; [| lia].
      apply xAxisLabels_In. split; [exact Hi | left].
      rewrite Hone. apply Nat.mod_1_r.
    + exists (i / 5 * 5)%nat.
      pose proof (Nat.mod_upper_bound i 5 ltac:(lia)) as Hb.
      pose proof (Nat.div_mod_eq i 5) as Hdm.
      split; [| lia].
      apply xAxisLabels_In. split; [lia | left].
      rewrite Hfive. apply Nat.Div0.mod_mul.
  - intros j Hj. apply xAxisLabels_In in Hj. destruct Hj as [Hj _].
    unfold labelPosition, columnCentre.
    assert (Hn : (0 < inject_Z (Z.of_nat days))%Q) by (rewrite <- (Zlt_Qlt 0); lia).
    assert (Hj0 : (0 <= inject_Z (Z.of_nat j))%Q) by (rewrite <- (Zle_Qle 0); lia).
    assert (Hjn : (inject_Z (Z.of_nat j) + 1 <= inject_Z (Z.of_nat days))%Q).
    { change 1%Q with (inject_Z 1). rewrite <- inject_Z_plus, <- Zle_Qle. lia. }
    set (n := inject_Z (Z.of_nat days)) in *. set (x := inject_Z (Z.of_nat j)) in *.
    clearbody n x.
    split; [field; lra |].
    assert (Hq : (0 < (x + (1 # 2)) / n /\ (x + (1 # 2)) / n < 1)%Q).
    { split.
      - apply Qlt_shift_div_l; [exact Hn | lra].
      - apply Qlt_shift_div_r; [exact Hn | lra]. }
    set (q := ((x + (1 # 2)) / n)%Q) in *. clearbody q. split; lra.
Qed.

Lemma X19_witness :
  In 32%nat (xAxisLabels 33).
Proof.
  pose proof (xAxisLabels_cover_the_days 33 ltac:(lia)) as H.
  destruct H as (_ & H & _). exact H.
Defined.

(* ------------------------------------------------------------------ *)
(** ** The main sleeps of the renderers                                 *)
(* ------------------------------------------------------------------ *)

Lemma mapPushIndex_records (data : list SleepRecord) (k : JsDate.CalDate)
    (index : nat) (m : IndexMap) :
  recordsOf data (mapPushIndex k index m) = mapPush k (at_ data index) (recordsOf data m).
Proof.
  induction m as [| [k' indices] m IH]; cbn [mapPushIndex recordsOf map mapPush fst snd].
  - reflexivity.
  - destruct (JsDate.CalDate_eqb k k'); cbn [recordsOf map fst snd].
    + now rewrite map_app.
    + f_equal. exact IH.
Qed.

Lemma fold_indexStep_records (data : list SleepRecord) (indices : list nat) (m : IndexMap) :
  recordsOf data (fold_left (indexStep data) indices m)
  = fold_left groupStep (map (at_ data) indices) (recordsOf data m).
Proof.
  revert m. induction indices as [| i indices IH]; intros m; cbn [fold_left map].
  - reflexivity.
  - rewrite IH. unfold indexStep, groupStep at 2. now rewrite mapPushIndex_records.
Qed.

(** The index map of the renderers is the day map of [getMainSleepEntries]
    read through the indices. *)
Lemma groupIndices_records (data : list SleepRecord) :
  recordsOf data (groupIndices data) = groupByDay data.
Proof.
  unfold groupIndices, groupByDay. rewrite fold_indexStep_records.
  unfold at_. rewrite (map_nth_seq_all (fun r => r) noRecord data), map_id.
  reflexivity.
Qed.

Lemma fold_left_step {A B : Type} (f : A -> B -> A) (x : B) (l : list B) (a : A) :
  fold_left f (x :: l) a = fold_left f l (f a x).
Proof. reflexivity. Qed.

Section IndexSelection.
Variable tz : Z.
Variable data : list SleepRecord.

Lemma longestIndexStep_record (st : Q * nat) (i : nat) :
  longestStep tz (fst st, at_ data (snd st)) (at_ data i)
  = (fst (longestIndexStep tz data st i), at_ data (snd (longestIndexStep tz data st i))).
Proof.
  unfold longestIndexStep, longestStep. cbn [fst snd].
  destruct (Qlt_bool (fst st) (duration tz (at_ data i))); reflexivity.
Qed.

Lemma longestIndexStep_index (st : Q * nat) (i : nat) :
  snd (longestIndexStep tz data st i) = snd st \/ snd (longestIndexStep tz data st i) = i.
Proof.
  unfold longestIndexStep.
  destruct (Qlt_bool (fst st) (duration tz (at_ data i))); [now right | now left].
Qed.

Lemma fold_longestIndexStep (indices : list nat) (st : Q * nat) :
  fold_left (longestStep tz) (map (at_ data) indices) (fst st, at_ data (snd st))
  = (fst (fold_left (longestIndexStep tz data) indices st),
     at_ data (snd (fold_left (longestIndexStep tz data) indices st)))
  /\ (snd (fold_left (longestIndexStep tz data) indices st) = snd st
      \/ In (snd (fold_left (longestIndexStep tz data) indices st)) indices).
Proof.
  revert st. induction indices as [| i indices IH]; intros st.
  - split; [reflexivity | now left].
  - rewrite map_cons, !fold_left_step, longestIndexStep_record.
    destruct (IH (longestIndexStep tz data st i)) as [H1 H2].
    split; [exact H1 |].
    destruct H2 as [H2 | H2]; [| right; now right].
    rewrite H2. destruct (longestIndexStep_index st i) as [H3 | H3].
    + left. exact H3.
    + right. left. symmetry. exact H3.
Qed.

Lemma mainSleepOfDay_several (i0 i1 : nat) (rest : list nat) :
  mainSleepOfDay tz (map (at_ data) (i0 :: i1 :: rest))
  = Some (snd (fold_left (longestStep tz) (map (at_ data) (i0 :: i1 :: rest))
                         (fst (0%Q, i0), at_ data (snd (0%Q, i0))))).
Proof. reflexivity. Qed.

Lemma mainIndexOfDay_several (i0 i1 : nat) (rest : list nat) :
  mainIndexOfDay tz data (i0 :: i1 :: rest)
  = Some (snd (fold_left (longestIndexStep tz data) (i0 :: i1 :: rest) (0%Q, i0))).
Proof. reflexivity. Qed.

(** The index that a day pushes is the index of the record that the
    selection of [getMainSleepEntries] picks among the records of the day. *)
Lemma mainIndexOfDay_record (indices : list nat) :
  option_map (at_ data) (mainIndexOfDay tz data indices)
  = mainSleepOfDay tz (map (at_ data) indices)
  /\ forall i, mainIndexOfDay tz data indices = Some i -> In i indices.
Proof.
  destruct indices as [| i0 [| i1 rest]].
  - split; [reflexivity | discriminate].
  - split; [reflexivity |]. intros i [= <-]. now left.
  - destruct (fold_longestIndexStep (i0 :: i1 :: rest) (0%Q, i0)) as [H1 H2].
    rewrite mainIndexOfDay_several, mainSleepOfDay_several, H1.
    split; [reflexivity |].
    intros i Hi.
    assert (Hs : snd (fold_left (longestIndexStep tz data) (i0 :: i1 :: rest) (0%Q, i0)) = i)
      by congruence.
    rewrite <- Hs. destruct H2 as [H2 | H2]; [left; exact (eq_sym H2) | exact H2].
Qed.

Lemma fold_pushMainIndex (m : IndexMap) (acc : list nat) :
  map (at_ data) (fold_left (pushMainIndex tz data) m acc)
  = fold_left (pushMain tz) (recordsOf data m) (map (at_ data) acc)
  /\ forall i, In i (fold_left (pushMainIndex tz data) m acc) ->
       In i acc \/ exists g, In g m /\ In i (snd g).
Proof.
  revert acc. induction m as [| g m IH]; intros acc; cbn [fold_left recordsOf map].
  - split; [reflexivity | now left].
  - destruct (mainIndexOfDay_record (snd g)) as [Hrec Hin].
    destruct (IH (pushMainIndex tz data acc g)) as [H1 H2].
    assert (Hstep : map (at_ data) (pushMainIndex tz data acc g)
                    = pushMain tz (map (at_ data) acc)
                        (fst g, map (at_ data) (snd g))).
    { unfold pushMainIndex, pushMain. cbn [snd]. rewrite <- Hrec.
      destruct (mainIndexOfDay tz data (snd g)); cbn [option_map]; [| reflexivity].
      now rewrite map_app. }
    split.
    + rewrite H1, Hstep. reflexivity.
    + intros i Hi. destruct (H2 i Hi) as [Hacc | (g' & Hg' & Hi')].
      * unfold pushMainIndex in Hacc.
        destruct (mainIndexOfDay tz data (snd g)) as [j |] eqn:Ej; [| now left].
        apply in_app_or in Hacc. destruct Hacc as [Hacc | [<- | []]]; [now left |].
        right. exists g. split; [now left | now apply Hin].
      * right. exists g'. split; [now right | exact Hi'].
Qed.

End IndexSelection.

Lemma mapPushIndex_indices (k : JsDate.CalDate) (index : nat) (m : IndexMap)
    (g : JsDate.CalDate * list nat) (i : nat) :
  In g (mapPushIndex k index m) -> In i (snd g) ->
  i = index \/ exists g', In g' m /\ In i (snd g').
Proof.
  induction m as [| [k' indices] m IH]; cbn [mapPushIndex]; intros Hg Hi.
  - destruct Hg as [<- | []]. cbn [snd] in Hi. destruct Hi as [<- | []]. now left.
  - destruct (JsDate.CalDate_eqb k k').
    + destruct Hg as [<- | Hg].
      * cbn [snd] in Hi. apply in_app_or in Hi. destruct Hi as [Hi | [<- | []]].
        -- right. exists (k', indices). split; [now left | exact Hi].
        -- now left.
      * right. exists g. split; [now right | exact Hi].
    + destruct Hg as [<- | Hg].
      * right. exists (k', indices). split; [now left | exact Hi].
      * destruct (IH Hg Hi) as [-> | (g' & Hg' & Hi')]; [now left |].
        right. exists g'. split; [now right | exact Hi'].
Qed.

Lemma groupIndices_in_range (data : list SleepRecord)
    (g : JsDate.CalDate * list nat) (i : nat) :
  In g (groupIndices data) -> In i (snd g) -> (i < length data)%nat.
Proof.
  unfold groupIndices.
  assert (Hgen : forall indices m,
             (forall g i, In g m -> In i (snd g) -> (i < length data)%nat) ->
             (forall i, In i indices -> (i < length data)%nat) ->
             forall g i, In g (fold_left (indexStep data) indices m) -> In i (snd g) ->
                         (i < length data)%nat).
  { induction indices as [| j indices IH]; intros m Hm Hidx g' i' Hg Hi; cbn [fold_left] in Hg.
    - exact (Hm g' i' Hg Hi).
    - apply (IH (indexStep data m j)) with (g := g'); try assumption.
      + intros g0 i0 Hg0 Hi0. unfold indexStep in Hg0.
        destruct (mapPushIndex_indices _ _ _ _ _ Hg0 Hi0) as [-> | (g1 & Hg1 & Hi1)].
        * apply Hidx. now left.
        * exact (Hm g1 i0 Hg1 Hi1).
      + intros i0 Hi0. apply Hidx. now right. }
  apply Hgen.
  - intros g0 i0 [].
  - intros i0 Hi0. apply in_seq in Hi0. lia.
Qed.

(** X20. The records that [renderSleepBlocks] marks as main sleeps are
    those that [getMainSleepEntries] selects on the same list, day by day
    in the same order; every index marked is an index of the list; and
    every entry that [getMainSleepEntries] returns, after sorting and
    cutting its window, is among the marked ones. *)
Theorem mainSleepIndices_are_the_main_sleeps (tz : Z) (combinedData : list SleepRecord) :
  map (at_ combinedData) (mainSleepIndices tz combinedData)
  = fold_left (pushMain tz) (groupByDay combinedData) []
  /\ Forall (fun i => (i < length combinedData)%nat) (mainSleepIndices tz combinedData)
  /\ forall cfg e,
       In e (getMainSleepEntries tz cfg combinedData) ->
       In e (map (at_ combinedData) (mainSleepIndices tz combinedData)).
Proof.
  destruct (fold_pushMainIndex tz combinedData (groupIndices combinedData) []) as [Hmap Hin].
  rewrite groupIndices_records in Hmap. cbn [map] in Hmap.
  split; [exact Hmap |]. split.
  - apply Forall_forall. intros i Hi.
    destruct (Hin i Hi) as [[] | (g & Hg & Hig)].
    exact (groupIndices_in_range combinedData g i Hg Hig).
  - intros cfg e He. unfold mainSleepIndices. rewrite Hmap.
    rewrite getMainSleepEntries_window in He. apply sliceLast_incl in He.
    unfold sortedMainSleepEntries in He.
    exact (Permutation_in _ (sortBy_perm _ _) He).
Qed.

(* ------------------------------------------------------------------ *)
(** ** One main sleep a day on the chart                                *)
(* ------------------------------------------------------------------ *)

Lemma mapPushIndex_all (k : JsDate.CalDate) (index : nat) (m : IndexMap) :
  Permutation (concat (map snd (mapPushIndex k index m)))
              (index :: concat (map snd m)).
Proof.
  induction m as [| [k' indices] m IH]; cbn [mapPushIndex].
  - reflexivity.
  - destruct (JsDate.CalDate_eqb k k'); cbn [map snd concat].
    + rewrite <- app_assoc. cbn [app].
      symmetry. apply Permutation_middle.
    + rewrite IH. symmetry. apply Permutation_middle.
Qed.

Lemma fold_indexStep_all (data : list SleepRecord) (indices : list nat) (m : IndexMap) :
  Permutation (concat (map snd (fold_left (indexStep data) indices m)))
              (indices ++ concat (map snd m)).
Proof.
  revert m. induction indices as [| i indices IH]; intros m.
  - reflexivity.
  - rewrite fold_left_step, IH. unfold indexStep. rewrite mapPushIndex_all.
    symmetry. apply Permutation_middle.
Qed.

(** Every index of the list is filed under one date, once. *)
Lemma groupIndices_all (data : list SleepRecord) :
  NoDup (concat (map snd (groupIndices data))).
Proof.
  unfold groupIndices.
  apply (Permutation_NoDup (Permutation_sym (fold_indexStep_all data _ []))).
  cbn [map concat]. rewrite app_nil_r. apply seq_NoDup.
Qed.

Lemma NoDup_app_disjoint {A : Type} (l l' : list A) (a : A) :
  NoDup (l ++ l') -> In a l -> In a l' -> False.
Proof.
  induction l as [| x l IH]; intros Hnd Hl Hl'; [destruct Hl |].
  cbn [app] in Hnd. apply NoDup_cons_iff in Hnd. destruct Hnd as [Hx Hnd].
  destruct Hl as [-> | Hl].
  - apply Hx. apply in_or_app. now right.
  - exact (IH Hnd Hl Hl').
Qed.

Lemma index_in_one_group (m : IndexMap) (g g' : JsDate.CalDate * list nat) (i : nat) :
  NoDup (concat (map snd m)) ->
  In g m -> In g' m -> In i (snd g) -> In i (snd g') -> g = g'.
Proof.
  induction m as [| h m IH]; intros Hnd Hg Hg' Hi Hi'; [destruct Hg |].
  cbn [map concat] in Hnd.
  assert (Hin : forall x, In x m -> In i (snd x) -> In i (concat (map snd m))).
  { intros x Hx Hix. apply in_concat. exists (snd x). split; [now apply in_map | exact Hix]. }
  destruct Hg as [<- | Hg], Hg' as [<- | Hg'].
  - reflexivity.
  - exfalso. exact (NoDup_app_disjoint _ _ i Hnd Hi (Hin g' Hg' Hi')).
  - exfalso. exact (NoDup_app_disjoint _ _ i Hnd Hi' (Hin g Hg Hi)).
  - apply IH; try assumption. now apply NoDup_app_remove_l in Hnd.
Qed.

Lemma fold_pushMainIndex_pushed (tz : Z) (data : list SleepRecord) (m : IndexMap)
    (acc : list nat) (i : nat) :
  In i (fold_left (pushMainIndex tz data) m acc) <->
  In i acc \/ exists g, In g m /\ mainIndexOfDay tz data (snd g) = Some i.
Proof.
  revert acc. induction m as [| g m IH]; intros acc.
  - cbn [fold_left]. split; [now left | intros [H | (g & [] & _)]; exact H].
  - rewrite fold_left_step, IH. unfold pushMainIndex.
    destruct (mainIndexOfDay tz data (snd g)) as [j |] eqn:Ej.
    + rewrite in_app_iff. cbn [In]. split.
      * intros [[H | [<- | []]] | (g' & Hg' & Hsel)].
        -- now left.
        -- right. exists g. split; [now left | exact Ej].
        -- right. exists g'. split; [now right | exact Hsel].
      * intros [H | (g' & [<- | Hg'] & Hsel)].
        -- left. now left.
        -- left. right. left. congruence.
        -- right. exists g'. split; assumption.
    + split.
      * intros [H | (g' & Hg' & Hsel)]; [now left |].
        right. exists g'. split; [now right | exact Hsel].
      * intros [H | (g' & [<- | Hg'] & Hsel)]; [now left | congruence |].
        right. exists g'. split; assumption.
Qed.

Lemma groupIndices_nonempty (data : list SleepRecord) (g : JsDate.CalDate * list nat) :
  In g (groupIndices data) -> snd g <> [].
Proof.
  intros Hg Hnil.
  assert (Hrec : In (fst g, map (at_ data) (snd g)) (groupByDay data)).
  { rewrite <- groupIndices_records. unfold recordsOf.
    apply (in_map (fun g => (fst g, map (at_ data) (snd g)))). exact Hg. }
  destruct (groupsFilled _ _ (groupByDay_groups data) _ _ Hrec) as [Hne _].
  apply Hne. now rewrite Hnil.
Qed.

(** X21. On the chart every day has exactly one main sleep: among the
    indices filed under a date, [mainSleepIndices] holds one, the index
    that the selection loop picks for that day, and no other; so the
    search for the main sleep of the day before, for the drift of a
    tooltip, finds it whenever that day has a record. *)
Theorem one_main_sleep_a_day (tz : Z) (combinedData : list SleepRecord)
    (g : JsDate.CalDate * list nat) :
  In g (groupIndices combinedData) ->
  exists i,
    mainIndexOfDay tz combinedData (snd g) = Some i
    /\ In i (snd g)
    /\ forall j, In j (snd g) -> (In j (mainSleepIndices tz combinedData) <-> j = i).
Proof.
  intros Hg.
  pose proof (groupIndices_nonempty combinedData g Hg) as Hne.
  destruct (mainIndexOfDay_record tz combinedData (snd g)) as [_ Hin].
  assert (Hsome : exists i, mainIndexOfDay tz combinedData (snd g) = Some i).
  { destruct (snd g) as [| i0 [| i1 rest]]; [congruence | |]; eexists; reflexivity. }
  destruct Hsome as [i Hi]. exists i.
  split; [exact Hi |]. split; [now apply Hin |].
  intros j Hj. unfold mainSleepIndices. rewrite fold_pushMainIndex_pushed. split.
  - intros [[] | (g' & Hg' & Hsel)].
    destruct (mainIndexOfDay_record tz combinedData (snd g')) as [_ Hin'].
    assert (g' = g).
    { apply (index_in_one_group (groupIndices combinedData) g' g j);
        [apply groupIndices_all | assumption | assumption | now apply Hin' | exact Hj]. }
    subst g'. congruence.
  - intros ->. right. exists g. split; assumption.
Qed.

Lemma X21_witness :
  exists i, mainIndexOfDay 0 [Samples.nap2h; Samples.main8h; Samples.nap1h] [0; 1; 2]%nat
            = Some i.
Proof.
  destruct (one_main_sleep_a_day 0 [Samples.nap2h; Samples.main8h; Samples.nap1h]
              ((2024, 1, 1), [0; 1; 2]%nat)) as (i & Hi & _).
  - vm_compute. left. reflexivity.
  - exists i. exact Hi.
Defined.

(* ------------------------------------------------------------------ *)
(** ** Dates: from a time value to its ISO string and back              *)
(* ------------------------------------------------------------------ *)

Lemma eraCheck_all : Pos.iter eraCheckStep (0, true) 146097 = (146097, true).
Proof. vm_compute. reflexivity. Qed.

Lemma eraDayOk_all (doe : Z) : 0 <= doe < 146097 -> eraDayOk doe = true.
Proof.
  intros Hdoe.
  pose (Inv := fun st : Z * bool =>
                 snd st = true -> forall j, 0 <= j < fst st -> eraDayOk j = true).
  assert (Hinv : Inv (Pos.iter eraCheckStep (0, true) 146097)).
  { apply Pos.iter_invariant.
    - intros [i ok] H. unfold Inv, eraCheckStep in *. cbn [fst snd] in *.
      intros Hok j Hj. apply andb_true_iff in Hok. destruct Hok as [Hok Hi].
      destruct (Z.eq_dec j i) as [-> | Hne]; [exact Hi |].
      apply H; [exact Hok | lia].
    - unfold Inv. cbn [fst snd]. intros _ j Hj. lia. }
  rewrite eraCheck_all in Hinv. apply Hinv; [reflexivity | exact Hdoe].
Qed.

(** A day number is the day number of its Gregorian date. *)
Lemma daysFromCivil_civilFromDays (n : Z) :
  let '(y, m, d) := JsDate.civilFromDays n in
  JsDate.daysFromCivil y m d = n /\ 1 <= m <= 12.
Proof.
  unfold JsDate.civilFromDays.
  set (z := n + 719468).
  set (era := z / 146097).
  set (doe := z - era * 146097).
  assert (Hdoe : 0 <= doe < 146097).
  { unfold doe, era. pose proof (Z.div_mod z 146097 ltac:(lia)).
    pose proof (Z.mod_pos_bound z 146097 ltac:(lia)). lia. }
  pose proof (eraDayOk_all doe Hdoe) as Hok. unfold eraDayOk in Hok.
  set (yoe := (doe - doe / 1460 + doe / 36524 - doe / 146096) / 365) in *.
  set (doy := doe - (365 * yoe + yoe / 4 - yoe / 100)) in *.
  rewrite !andb_true_iff, !Z.leb_le in Hok.
  destruct Hok as (((Hy0 & Hy1) & Hd0) & Hd1).
  set (mp := (5 * doy + 2) / 153).
  assert (Hmp : 0 <= mp <= 11).
  { assert (Hlt : mp < 12) by (unfold mp; apply Z.div_lt_upper_bound; lia).
    assert (Hge : 0 <= mp) by (unfold mp; apply Z.div_pos; lia). lia. }
  set (m := if mp <? 10 then mp + 3 else mp - 9).
  assert (Hm : 1 <= m <= 12 /\ (m + 9) mod 12 = mp
               /\ ((m <=? 2) = true <-> 10 <= mp)).
  { unfold m. destruct (Z.ltb_spec mp 10).
    - split; [lia |]. split.
      + replace (mp + 3 + 9) with (mp + 1 * 12) by lia.
        rewrite Z.mod_add by lia. apply Z.mod_small. lia.
      + rewrite Z.leb_le. lia.
    - split; [lia |]. split.
      + replace (mp - 9 + 9) with mp by lia. apply Z.mod_small. lia.
      + rewrite Z.leb_le. lia. }
  destruct Hm as (Hm & Hmod & Hjan).
  split; [| exact Hm].
  unfold JsDate.daysFromCivil.
  assert (Hy : (if m <=? 2
                then (if m <=? 2 then yoe + era * 400 + 1 else yoe + era * 400) - 1
                else (if m <=? 2 then yoe + era * 400 + 1 else yoe + era * 400))
               = yoe + era * 400).
  { destruct (m <=? 2); lia. }
  rewrite Hy, Hmod.
  assert (He : (yoe + era * 400) / 400 = era).
  { symmetry. apply (Z.div_unique _ _ _ yoe); lia. }
  rewrite He.
  replace (yoe + era * 400 - era * 400) with yoe by lia.
  fold mp. unfold doy, doe, z. lia.
Qed.

(** Reading the ISO string of a time value gives the time value back. *)
Lemma parse_toISOString (t : Z) : JsDate.parse (toISOString t) = t.
Proof.
  unfold toISOString.
  pose proof (daysFromCivil_civilFromDays (t / JsDate.msPerDay)) as Hrt.
  destruct (JsDate.civilFromDays (t / JsDate.msPerDay)) as [[y m] d].
  destruct Hrt as [Hrt _].
  unfold JsDate.parse. cbn [JsDate.year JsDate.month JsDate.day JsDate.hour JsDate.minute
                            JsDate.second JsDate.milli JsDate.offset].
  rewrite Hrt.
  pose proof (Z.div_mod t JsDate.msPerDay ltac:(discriminate)) as Et.
  pose proof (Z.mod_pos_bound t JsDate.msPerDay ltac:(reflexivity)) as Bt.
  set (ms := t mod JsDate.msPerDay) in *.
  set (n := t / JsDate.msPerDay) in *.
  unfold JsDate.msPerDay, JsDate.msPerHour, JsDate.msPerMinute, JsDate.msPerSecond in *.
  pose proof (Z.div_mod ms 1000 ltac:(lia)) as E1.
  pose proof (Z.mod_pos_bound ms 1000 ltac:(lia)) as B1.
  pose proof (Z.div_mod (ms / 1000) 60 ltac:(lia)) as E2.
  pose proof (Z.mod_pos_bound (ms / 1000) 60 ltac:(lia)) as B2.
  pose proof (Z.div_mod (ms / 60000) 60 ltac:(lia)) as E3.
  pose proof (Z.mod_pos_bound (ms / 60000) 60 ltac:(lia)) as B3.
  assert (H60 : ms / 60000 = ms / 1000 / 60) by (rewrite Z.div_div by lia; reflexivity).
  assert (H3600 : ms / 3600000 = ms / 60000 / 60) by (rewrite Z.div_div by lia; reflexivity).
  rewrite H3600. lia.
Qed.

(* ------------------------------------------------------------------ *)
(** ** The records that the converter writes                            *)
(* ------------------------------------------------------------------ *)

Lemma daysFromCivil_day (y m d : Z) :
  JsDate.daysFromCivil y m d = JsDate.daysFromCivil y m 1 + d - 1.
Proof. unfold JsDate.daysFromCivil. lia. Qed.

Section Converter.
Variable tz : Z.

Lemma utc_localTime (t : Z) : JsDate.utc tz (JsDate.localTime tz t) = t.
Proof. unfold JsDate.localTime, JsDate.utc. lia. Qed.

(** In a zone of fixed offset, [setDate(getDate() + 1)] is a step of 24
    hours. *)
Lemma setDate_next_day (t : Z) : setDate tz t (getDate tz t + 1) = t + JsDate.msPerDay.
Proof.
  unfold setDate, getDate.
  set (l := JsDate.localTime tz t).
  pose proof (daysFromCivil_civilFromDays (l / JsDate.msPerDay)) as Hrt.
  destruct (JsDate.civilFromDays (l / JsDate.msPerDay)) as [[y m] d].
  destruct Hrt as [Hrt Hm].
  unfold makeDay.
  assert (Hq : (m - 1) / 12 = 0) by (apply Z.div_small; lia).
  assert (Hr : (m - 1) mod 12 = m - 1) by (apply Z.mod_small; lia).
  rewrite Hq, Hr, Z.add_0_r.
  replace (m - 1 + 1) with m by lia.
  pose proof (daysFromCivil_day y m d) as Hd. rewrite Hrt in Hd.
  pose proof (Z.div_mod l JsDate.msPerDay ltac:(discriminate)) as El.
  assert (Hl : l = t + tz * JsDate.msPerMinute) by reflexivity.
  unfold JsDate.utc. clearbody l.
  unfold JsDate.msPerDay, JsDate.msPerMinute in *. lia.
Qed.

Lemma setHours3_local (t h m : Z) :
  JsDate.localTime tz t mod JsDate.msPerDay = 0 ->
  JsDate.localTime tz (setHours3 tz t h m 0)
  = JsDate.localTime tz t + h * JsDate.msPerHour + m * JsDate.msPerMinute.
Proof.
  intros Hmid. unfold setHours3. rewrite localTime_utc.
  set (l := JsDate.localTime tz t) in *.
  pose proof (Z.div_mod l JsDate.msPerDay ltac:(discriminate)) as El.
  assert (Hms : l mod JsDate.msPerSecond = 0).
  { rewrite <- (Z.mod_mod_divide l JsDate.msPerDay JsDate.msPerSecond)
      by (exists 86400; reflexivity).
    now rewrite Hmid. }
  rewrite Hms. lia.
Qed.

(** Setting a clock time on a day keeps the day and its midnight. *)
Lemma setHours3_same_day (t h m : Z) :
  clockTime h m ->
  JsDate.localTime tz (setHours3 tz t h m 0) / JsDate.msPerDay
  = JsDate.localTime tz t / JsDate.msPerDay
  /\ JsDate.localTime tz (setHours3 tz t h m 0) mod JsDate.msPerSecond
     = JsDate.localTime tz t mod JsDate.msPerSecond.
Proof.
  intros [Hh Hm]. unfold setHours3. rewrite localTime_utc.
  set (l := JsDate.localTime tz t).
  pose proof (Z.mod_pos_bound l JsDate.msPerSecond ltac:(reflexivity)) as Bs.
  set (c := h * JsDate.msPerHour + m * JsDate.msPerMinute
            + 0 * JsDate.msPerSecond + l mod JsDate.msPerSecond).
  assert (Hc : 0 <= c < JsDate.msPerDay).
  { unfold c, JsDate.msPerDay, JsDate.msPerHour, JsDate.msPerMinute, JsDate.msPerSecond in *.
    lia. }
  replace (l / JsDate.msPerDay * JsDate.msPerDay + h * JsDate.msPerHour
           + m * JsDate.msPerMinute + 0 * JsDate.msPerSecond + l mod JsDate.msPerSecond)
    with (c + l / JsDate.msPerDay * JsDate.msPerDay) by (unfold c; lia).
  split.
  - rewrite Z.div_add by discriminate. rewrite (Z.div_small c) by exact Hc. lia.
  - replace (c + l / JsDate.msPerDay * JsDate.msPerDay)
      with (l mod JsDate.msPerSecond
            + (h * 3600 + m * 60 + l / JsDate.msPerDay * 86400) * JsDate.msPerSecond)
      by (unfold c, JsDate.msPerDay, JsDate.msPerHour, JsDate.msPerMinute,
          JsDate.msPerSecond; lia).
    rewrite Z.mod_add by discriminate. apply Z.mod_mod. discriminate.
Qed.

(** What the readings of a local time at [h:m:00.000] on a day are. *)
Lemma clock_of_local (t day h m : Z) :
  clockTime h m ->
  JsDate.localTime tz t = day * JsDate.msPerDay + h * JsDate.msPerHour + m * JsDate.msPerMinute ->
  JsDate.getHours tz t = h /\ JsDate.getMinutes tz t = m /\ onWholeMinute t.
Proof.
  intros [Hh Hm] Hl. unfold JsDate.getHours, JsDate.getMinutes, onWholeMinute.
  assert (Ht : t = JsDate.localTime tz t - tz * JsDate.msPerMinute)
    by (unfold JsDate.localTime; lia).
  rewrite Hl in *.
  unfold JsDate.msPerDay, JsDate.msPerHour, JsDate.msPerMinute in *.
  repeat split.
  - replace (day * 86400000 + h * 3600000 + m * 60000)
      with (m * 60000 + (day * 24 + h) * 3600000) by lia.
    rewrite Z.div_add, (Z.div_small (m * 60000)) by lia.
    replace (0 + (day * 24 + h)) with (h + day * 24) by lia.
    rewrite Z.mod_add by lia. apply Z.mod_small. lia.
  - replace (day * 86400000 + h * 3600000 + m * 60000)
      with (0 + (day * 1440 + h * 60 + m) * 60000) by lia.
    rewrite Z.div_add, Z.div_0_l by lia.
    replace (0 + (day * 1440 + h * 60 + m)) with (m + (day * 24 + h) * 60) by lia.
    rewrite Z.mod_add by lia. apply Z.mod_small. lia.
  - rewrite Ht.
    replace (day * 86400000 + h * 3600000 + m * 60000 - tz * 60000)
      with (0 + (day * 1440 + h * 60 + m - tz) * 60000) by lia.
    rewrite Z.mod_add by lia. reflexivity.
Qed.

Variable line : CsvLine.
Hypothesis sleep_clock : clockTime (sleepHours line) (sleepMinutes line).
Hypothesis wake_clock : clockTime (wakeHours line) (wakeMinutes line).

(** The local day on which the record made for the line starts: the day
    of the line, or the next one for a sleep time before noon. *)
Lemma convertLine_times :
  let day := makeDay (if (0 <=? 2000 + csvYear line) && (2000 + csvYear line <=? 99)
                      then 1900 + (2000 + csvYear line) else 2000 + csvYear line)
                     (csvMonth line - 1) (csvDay line)
             + (if sleepHours line <? 12 then 1 else 0) in
  let later := (wakeHours line <? sleepHours line)
               || ((wakeHours line =? sleepHours line)
                   && (wakeMinutes line <? sleepMinutes line)) in
  JsDate.localTime tz (sleepTimeOf (convertLine tz line))
  = day * JsDate.msPerDay + sleepHours line * JsDate.msPerHour
    + sleepMinutes line * JsDate.msPerMinute
  /\ JsDate.localTime tz (wakeTimeOf (convertLine tz line))
     = (day + if later then 1 else 0) * JsDate.msPerDay
       + wakeHours line * JsDate.msPerHour + wakeMinutes line * JsDate.msPerMinute.
Proof.
  intros day later.
  unfold convertLine, sleepTimeOf, wakeTimeOf. cbn [sleep wake].
  rewrite !parse_toISOString. fold later.
  set (start := newDate tz (2000 + csvYear line) (csvMonth line - 1) (csvDay line)).
  set (night := if sleepHours line <? 12 then setDate tz start (getDate tz start + 1)
                else start).
  assert (Hnight : JsDate.localTime tz night = day * JsDate.msPerDay).
  { unfold night, day, start.
    destruct (sleepHours line <? 12).
    - rewrite setDate_next_day. unfold newDate, JsDate.localTime, JsDate.utc. lia.
    - unfold newDate, JsDate.localTime, JsDate.utc. lia. }
  assert (Hmid : JsDate.localTime tz night mod JsDate.msPerDay = 0).
  { rewrite Hnight. apply Z.mod_mul. discriminate. }
  pose proof (setHours3_local night (sleepHours line) (sleepMinutes line) Hmid) as Hs.
  rewrite Hnight in Hs.
  set (sleepDate := setHours3 tz night (sleepHours line) (sleepMinutes line) 0) in *.
  split; [exact Hs |].
  destruct (setHours3_same_day night (sleepHours line) (sleepMinutes line) sleep_clock)
    as [Hday Hms].
  fold sleepDate in Hday, Hms.
  set (morning := if later then setDate tz sleepDate (getDate tz sleepDate + 1)
                  else sleepDate).
  assert (Hmorning : JsDate.localTime tz morning
                     = JsDate.localTime tz sleepDate + (if later then 1 else 0) * JsDate.msPerDay).
  { unfold morning. destruct later.
    - rewrite setDate_next_day. unfold JsDate.localTime. lia.
    - lia. }
  assert (Hsec : JsDate.localTime tz sleepDate mod JsDate.msPerSecond = 0).
  { rewrite Hms.
    rewrite <- (Z.mod_mod_divide _ JsDate.msPerDay JsDate.msPerSecond)
      by (exists 86400; reflexivity).
    now rewrite Hmid. }
  unfold setHours3. rewrite localTime_utc, Hmorning.
  set (a := JsDate.localTime tz sleepDate) in *.
  set (k := if later then 1 else 0).
  assert (Hmod : (a + k * JsDate.msPerDay) mod JsDate.msPerSecond = 0).
  { replace (a + k * JsDate.msPerDay) with (a + k * 86400 * JsDate.msPerSecond)
      by (unfold JsDate.msPerDay, JsDate.msPerSecond; lia).
    rewrite Z.mod_add by discriminate. exact Hsec. }
  rewrite Hmod, Z.div_add by discriminate.
  rewrite Hday, Hnight, Z.div_mul by discriminate. lia.
Qed.

End Converter.



(* ------------------------------------------------------------------ *)
(** ** From the CSV to the main sleeps                                  *)
(* ------------------------------------------------------------------ *)

Lemma convert_plain (zone : Z) (lines : list CsvLine) :
  Forall validLine lines -> Forall plainRecord (convert zone lines).
Proof.
  intros Hall. unfold convert. apply Forall_map.
  apply (Forall_impl _ (P := validLine)); [| exact Hall].
  intros line [Hs Hw].
  destruct (convertLine_times zone line Hs) as [Hsleep Hwake].
  destruct (clock_of_local zone _ _ _ _ Hs Hsleep) as (_ & _ & Hsw).
  destruct (clock_of_local zone _ _ _ _ Hw Hwake) as (_ & _ & Hww).
  split; [exact Hsw |]. split; [exact Hww |].
  unfold Spec.elapsed.
  replace (wakeTimeOf (convertLine zone line) - sleepTimeOf (convertLine zone line))
    with (JsDate.localTime zone (wakeTimeOf (convertLine zone line))
          - JsDate.localTime zone (sleepTimeOf (convertLine zone line)))
    by (unfold JsDate.localTime; lia).
  rewrite Hsleep, Hwake.
  destruct Hs as [Hs1 Hs2], Hw as [Hw1 Hw2].
  set (sh := sleepHours line) in *. set (sm := sleepMinutes line) in *.
  set (wh := wakeHours line) in *. set (wm := wakeMinutes line) in *.
  set (day := makeDay _ _ _ + _).
  destruct ((wh <? sh) || ((wh =? sh) && (wm <? sm))) eqn:E.
  - unfold JsDate.msPerDay, JsDate.msPerHour, JsDate.msPerMinute.
    apply orb_true_iff in E. rewrite andb_true_iff, !Z.ltb_lt, Z.eqb_eq in E. lia.
  - unfold JsDate.msPerDay, JsDate.msPerHour, JsDate.msPerMinute.
    apply orb_false_iff in E. rewrite andb_false_iff, !Z.ltb_ge, Z.eqb_neq in E. lia.
Qed.

(** On a log of records that start and end on whole minutes and last
    under 24 hours, every entry that [getMainSleepEntries] returns has the
    greatest elapsed time of its day. *)
Lemma main_sleep_of_plain_log (tz : Z) (cfg : Config) (data : list SleepRecord)
    (e r : SleepRecord) :
  Forall plainRecord data ->
  In e (getMainSleepEntries tz cfg data) -> In r data -> dateStr r = dateStr e ->
  Spec.elapsed r <= Spec.elapsed e.
Proof.
  intros Hplain He Hr Hdate. rewrite Forall_forall in Hplain.
  destruct (getMainSleepEntries_of_day tz cfg data e He) as (Hedata & rs & Hg & Hsel).
  destruct (groupsFilled _ _ (groupByDay_groups data) _ _ Hg) as [Hne Hrs].
  assert (Hin : In r rs).
  { rewrite Hrs. apply filter_In. split; [exact Hr |].
    unfold sameDay. rewrite Hdate. apply CalDate_eqb_refl. }
  destruct (mainSleepOfDay_first_longest tz rs Hne)
    as (pre & m & post & Hes & Hm & Hpre & Hpost).
  assert (m = e) by congruence. subst m.
  rewrite Hes in Hin. apply in_app_or in Hin.
  destruct Hin as [Hin | [<- | Hin]].
  - apply Z.lt_le_incl. apply (plain_lt tz); [now apply Hplain | now apply Hplain |].
    now apply Hpre.
  - lia.
  - apply (plain_le tz); [now apply Hplain | now apply Hplain |]. now apply Hpost.
Qed.



(* ------------------------------------------------------------------ *)
(** ** The info box                                                     *)
(* ------------------------------------------------------------------ *)

(** X24. With two records or more [updateNon24Info] fills the info box, and
    every number in it is a number: the cycle length is 0 or a whole number
    of days from 2 to 1440, both drifts lie in (-12h, 12h], and both
    averages of sleep per day are finite. *)
Theorem updateNon24Info_numbers (tz : Z) (cfg : Config) (sleepData : list SleepRecord) :
  (2 <= length sleepData)%nat ->
  exists info,
    updateNon24Info tz cfg sleepData = Some info
    /\ (exists n : Z, infoCycleDays info = Fin (inject_Z n) /\ (n = 0 \/ 2 <= n <= 1440))
    /\ (- inject_Z HALF_DAY < infoTotalDrift info
        /\ infoTotalDrift info <= inject_Z HALF_DAY)%Q
    /\ (- inject_Z HALF_DAY < infoVisualizedDrift info
        /\ infoVisualizedDrift info <= inject_Z HALF_DAY)%Q
    /\ (exists q, infoAvgSleepPerDayMs info = Fin q)
    /\ (exists q, infoAvgSleepPerDayVisibleMs info = Fin q).
Proof.
  intros Hn. unfold updateNon24Info.
  destruct (Nat.ltb_spec (length sleepData) 2) as [Hlt | _]; [lia |].
  assert (Hne : sleepData <> []) by (intros ->; simpl in Hn; lia).
  eexists. split; [reflexivity |].
  cbn [infoCycleDays infoTotalDrift infoVisualizedDrift infoAvgSleepPerDayMs
       infoAvgSleepPerDayVisibleMs].
  split; [apply cycleDays_of_drift |].
  split; [apply calculateDrift_sleep_range |].
  split; [apply calculateDrift_sleep_range |].
  split; [now apply avgSleepPerDayMs_finite |].
  apply avgSleepPerDayMs_finite. now apply displayedData_nonempty.
Qed.

Lemma X24_witness :
  exists info, updateNon24Info 0 defaultConfig Samples.fiveNights = Some info.
Proof.
  destruct (updateNon24Info_numbers 0 defaultConfig Samples.fiveNights) as (info & H & _).
  - cbn [Samples.fiveNights length]. lia.
  - exists info. exact H.
Defined.
